(** * Audio-visual speech datasets: alignment, collation and tarred streaming

    A shallow embedding of
    [nemo/collections/multimodal/speech_cv/data/audio_and_video_to_text.py]:
    the audio/video alignment policy of both dataset classes, the batch
    collation function, and the two iterator stages ([_filter],
    [_loop_offsets]) of the tarred dataset, followed by the properties the
    specification states about them. *)

From Stdlib Require Import ZArith Lia Ascii String.
From stdpp Require Import gmap strings list fin_maps pretty.

Local Open Scope Z_scope.

(** ** Python exceptions and results *)

Inductive exn : Type :=
| ValueError (msg : string)
| TypeError
| AttributeError
| RuntimeError
| IndexError
| KeyError (key : string)
| StopIteration.

Inductive result (T : Type) : Type :=
| Ok (v : T)
| Raise (e : exn).

Arguments Ok {T} v.
Arguments Raise {T} e.

#[global] Instance result_ret : MRet result := fun T v => Ok v.

#[global] Instance result_bind : MBind result := fun T U k r =>
  match r with
  | Ok v => k v
  | Raise e => Raise e
  end.

Definition is_ValueError (e : exn) : bool :=
  match e with
  | ValueError _ => true
  | _ => false
  end.

(** ** Tensors

    A 1-d tensor is the list of its entries.  The frames of a video tensor of
    shape (T, H, W, C) are its T slices along the first dimension; a slice (one
    H x W x C frame) is a value of the type [F].  The alignment works on the
    list of the frames.  [new_zeros] builds a tensor of the given leading size
    out of zero entries; torch refuses a negative size. *)

Definition new_zeros {X : Type} (zero : X) (n : Z) : result (list X) :=
  if n <? 0 then Raise RuntimeError else Ok (replicate (Z.to_nat n) zero).

(** [torch.cat([left, x, right], dim=0)]. *)
Definition cat3 {X : Type} (left x right : list X) : list X :=
  left ++ x ++ right.

(** [x.shape[0]] *)
Definition shape0 {X : Type} (x : list X) : Z := Z.of_nat (length x).

(** A video tensor with its shape (T, H, W, C): [shape_tail] is (H, W, C),
    which a tensor has even when it has no frame, and [frames] are its T
    slices. *)
Record video_tensor (F : Type) : Type := VideoTensor {
  shape_tail : Z * Z * Z;
  frames : list F
}.
Arguments VideoTensor {F} shape_tail frames.
Arguments shape_tail {F} v.
Arguments frames {F} v.

(** What an audio featurizer returns: a 1-d tensor or, for several channels,
    a 2-d one, given by its rows, all of one length. *)
Inductive audio_features (A : Type) : Type :=
| Audio1d (x : list A)
| Audio2d (rows : list (list A)).
Arguments Audio1d {A} x.
Arguments Audio2d {A} rows.

(** ** Audio-video alignment

    Both dataset classes define [align_audio_and_video] with the same body; each
    is embedded from its own lines. *)

Module _AudioVideoTextDataset.
Section Align.
Context {A F : Type} (zero : A) (zero_frame : F).

Definition align_audio_and_video
    (input_audio_signal : list A) (input_video_signal : list F)
    : result (list A * list F) :=
  let Tv := shape0 input_video_signal in
  let Ta := shape0 input_audio_signal in
  let padding := Ta / (160 * 2 * 2) + 1 - Tv in
  if 0 <=? padding then
    let padding_left := padding / 2 in
    let padding_right := padding / 2 + padding mod 2 in
    left ← new_zeros zero_frame padding_left;
    right ← new_zeros zero_frame padding_right;
    Ok (input_audio_signal, cat3 left input_video_signal right)
  else
    let padding := (Tv - 1) * (2 * 2 * 160) - Ta in
    let padding_left := padding / 2 in
    let padding_right := padding / 2 + padding mod 2 in
    left ← new_zeros zero padding_left;
    right ← new_zeros zero padding_right;
    Ok (cat3 left input_audio_signal right, input_video_signal).
End Align.
End _AudioVideoTextDataset.

Module _TarredAudioAndVideoToTextDataset.
Section Align.
Context {A F : Type} (zero : A) (zero_frame : F).

Definition align_audio_and_video
    (input_audio_signal : list A) (input_video_signal : list F)
    : result (list A * list F) :=
  let Tv := shape0 input_video_signal in
  let Ta := shape0 input_audio_signal in
  let padding := Ta / (160 * 2 * 2) + 1 - Tv in
  if 0 <=? padding then
    let padding_left := padding / 2 in
    let padding_right := padding / 2 + padding mod 2 in
    left ← new_zeros zero_frame padding_left;
    right ← new_zeros zero_frame padding_right;
    Ok (input_audio_signal, cat3 left input_video_signal right)
  else
    let padding := (Tv - 1) * (2 * 2 * 160) - Ta in
    let padding_left := padding / 2 in
    let padding_right := padding / 2 + padding mod 2 in
    left ← new_zeros zero padding_left;
    right ← new_zeros zero padding_right;
    Ok (cat3 left input_audio_signal right, input_video_signal).
End Align.
End _TarredAudioAndVideoToTextDataset.

(** The quantities the specification names.  [video_padding] is the pad count
    the video branch is entered with (the alignment pads the video when it is
    not negative), [audio_padding] the pad count of the audio branch, and
    [ceil_div a b] is [ceil(a / b)]. *)

Definition video_padding {A F : Type} (audio : list A) (video : list F) : Z :=
  shape0 audio / 640 + 1 - shape0 video.

Definition audio_padding {A F : Type} (audio : list A) (video : list F) : Z :=
  (shape0 video - 1) * 640 - shape0 audio.

Definition ceil_div (a b : Z) : Z := - ((- a) / b).

(** A total pad count [p] split the way the specification says: the left pad
    is floor(p / 2), the right pad ceil(p / 2), they add up to [p], differ by at
    most one, and differ exactly when [p] is odd. *)
Definition split_floor_ceil (p left right : Z) : Prop :=
  left = p / 2 /\ right = ceil_div p 2 /\
  0 <= left /\ left + right = p /\
  0 <= right - left <= 1 /\
  (right <> left <-> Z.odd p = true).

(** ** Batch collation

    A sample is a Python tuple.  Its first six positions hold, in order, the
    audio signal (a 1-d tensor or [None]), the audio length (a 0-d integer
    tensor or [None]), the video signal (a 4-d tensor or [None]), the video
    length, the token ids (a 1-d integer tensor) and the token length (a 0-d
    integer tensor); what follows them ([rest]) starts with the sample id, an
    integer.  A tuple of fewer than six elements is never unpacked by the code,
    which observes its length only. *)

Section Collate.
Context {A F : Type} (zero : A).
(** The zero frame of a given shape (H, W, C). *)
Context (zero_frame_of : Z * Z * Z -> F).

Record fields : Type := Fields {
  audio_sig : option (list A);
  audio_sig_len : option Z;
  video_sig : option (video_tensor F);
  video_sig_len : option Z;
  tokens_i : list Z;
  tokens_i_len : Z
}.

Inductive sample : Type :=
| Tuple (f : fields) (rest : list Z)
| ShortTuple (n : fin 6).

(** [len(b)] *)
Definition tuple_len (b : sample) : nat :=
  match b with
  | Tuple _ rest => (6 + length rest)%nat
  | ShortTuple n => fin_to_nat n
  end.

(** [len(list(zip( *batch)))]: [zip] stops at the shortest tuple, and yields
    nothing when it is given no tuple at all. *)
Definition len_packed_batch (batch : list sample) : nat :=
  match batch with
  | [] => 0%nat
  | b :: rest => foldr (fun b' n => Nat.min (tuple_len b') n) (tuple_len b) rest
  end.

(** The component sequences of [zip( *batch)] that the code names: column [j]
    holds element [j] of every tuple.  They are read only when the shortest
    tuple has six elements or more, hence when every sample is a [Tuple]. *)
Definition column {X : Type} (proj : fields -> X) (batch : list sample) : list X :=
  omap (fun b => match b with Tuple f _ => Some (proj f) | ShortTuple _ => None end) batch.

(** Column 6, the sample ids, read only when every tuple has seven elements or
    more. *)
Definition column_sample_id (batch : list sample) : list Z :=
  omap (fun b => match b with Tuple _ (i :: _) => Some i | _ => None end) batch.

(** [lengths[0] is not None] *)
Definition first_is_not_None (lengths : list (option Z)) : result bool :=
  match lengths with
  | [] => Raise IndexError
  | None :: _ => Ok false
  | Some _ :: _ => Ok true
  end.

(** One comparison [x > cur] of the builtin [max] on 0-d tensors or [None]. *)
Definition max_step (cur : result (option Z)) (x : option Z) : result (option Z) :=
  c ← cur;
  match x, c with
  | Some n, Some m => Ok (if m <? n then Some n else Some m)
  | _, _ => Raise TypeError
  end.

(** [t.item()]; [None] has no such attribute. *)
Definition item (t : option Z) : result Z :=
  match t with
  | Some n => Ok n
  | None => Raise AttributeError
  end.

(** [max(lengths).item()] *)
Definition max_item (lengths : list (option Z)) : result Z :=
  match lengths with
  | [] => Raise (ValueError "max() arg is an empty sequence")
  | x :: rest => m ← foldl max_step (Ok x) rest; item m
  end.

(** [torch.nn.functional.pad(x, (0, n), value=value)] on a 1-d tensor: [n]
    entries appended.  It is only called with [n > 0], and refuses [None] for a
    tensor. *)
Definition F_pad {X : Type} (x : option (list X)) (n : Z) (value : X)
    : result (option (list X)) :=
  match x with
  | None => Raise TypeError
  | Some l => Ok (Some (l ++ replicate (Z.to_nat n) value))
  end.

(** [torch.nn.functional.pad(x, (0, 0, 0, 0, 0, 0, 0, n))] on a 4-d tensor:
    [n] zero frames of the tensor's own shape (H, W, C) appended along the
    first dimension. *)
Definition F_pad_video (x : option (video_tensor F)) (n : Z)
    : result (option (video_tensor F)) :=
  match x with
  | None => Raise TypeError
  | Some v =>
      Ok (Some (VideoTensor (shape_tail v)
                  (frames v ++ replicate (Z.to_nat n) (zero_frame_of (shape_tail v)))))
  end.

(** [torch.stack(xs)]: every element a tensor ([TypeError] otherwise), all of
    one shape ([RuntimeError] otherwise, also for no tensor at all); the rows
    of the result are the elements.  [stack] is [torch.stack] on 1-d tensors,
    whose shape is their length, [stack_video] on 4-d tensors, whose shape is
    (T, H, W, C). *)
Definition all_tensors {X : Type} (xs : list (option X)) : result (list X) :=
  match mapM id xs with
  | Some l => Ok l
  | None => Raise TypeError
  end.

Definition stack {X : Type} (xs : list (option (list X))) : result (list (list X)) :=
  rows ← all_tensors xs;
  match rows with
  | [] => Raise RuntimeError
  | r :: rest =>
      if forallb (fun r' => Nat.eqb (length r') (length r)) rest
      then Ok rows else Raise RuntimeError
  end.

Definition video_shape (v : video_tensor F) : nat * (Z * Z * Z) :=
  (length (frames v), shape_tail v).

Definition stack_video (xs : list (option (video_tensor F)))
    : result (list (video_tensor F)) :=
  rows ← all_tensors xs;
  match rows with
  | [] => Raise RuntimeError
  | r :: rest =>
      if forallb (fun r' => bool_decide (video_shape r' = video_shape r)) rest
      then Ok rows else Raise RuntimeError
  end.

(** [torch.stack(lengths)] on 0-d tensors. *)
Definition stack0 (lengths : list (option Z)) : result (list Z) :=
  l ← all_tensors lengths;
  match l with
  | [] => Raise RuntimeError
  | _ => Ok l
  end.

(** The unpacking at the head of the loop body: seven names when
    [len(b) == 7], six names otherwise. *)
Definition unpack (b : sample) : result fields :=
  match b with
  | Tuple f [] => Ok f
  | Tuple f [_] => Ok f
  | Tuple _ _ => Raise (ValueError "too many values to unpack (expected 6)")
  | ShortTuple n =>
      Raise (ValueError ("not enough values to unpack (expected 6, got "
                         +:+ pretty (fin_to_nat n) +:+ ")"))
  end.

(** [torch.tensor(sample_ids, dtype=torch.int32)] on Python integers: one
    that int32 cannot hold raises [RuntimeError]. *)
Definition tensor_int32 (xs : list Z) : result (list Z) :=
  if forallb (fun x => (-2147483648 <=? x) && (x <=? 2147483647)) xs
  then Ok xs else Raise RuntimeError.

(** The body of [for b in batch]: what it appends to [audio_signal],
    [video_signal] and [tokens] (nothing for an absent modality). *)
Definition collate_body (has_audio : bool) (max_audio_len : Z)
    (has_video : bool) (max_video_len : Z) (max_tokens_len : Z) (pad_id : Z)
    (b : sample)
    : result (list (option (list A)) * list (option (video_tensor F)) * list Z) :=
  f ← unpack b;
  audio ←
    (if has_audio then
       audio_sig_len ← item (audio_sig_len f);
       audio_sig ←
         (if audio_sig_len <? max_audio_len
          then F_pad (audio_sig f) (max_audio_len - audio_sig_len) zero
          else Ok (audio_sig f));
       Ok [audio_sig]
     else Ok []);
  video ←
    (if has_video then
       video_sig_len ← item (video_sig_len f);
       video_sig ←
         (if video_sig_len <? max_video_len
          then F_pad_video (video_sig f) (max_video_len - video_sig_len)
          else Ok (video_sig f));
       Ok [video_sig]
     else Ok []);
  let tokens_i_len := tokens_i_len f in
  let tokens_i :=
    if tokens_i_len <? max_tokens_len
    then tokens_i f ++ replicate (Z.to_nat (max_tokens_len - tokens_i_len)) pad_id
    else tokens_i f in
  Ok (audio, video, tokens_i).

Fixpoint collate_loop (has_audio : bool) (max_audio_len : Z)
    (has_video : bool) (max_video_len : Z) (max_tokens_len : Z) (pad_id : Z)
    (batch : list sample)
    : result (list (option (list A)) * list (option (video_tensor F))
              * list (list Z)) :=
  match batch with
  | [] => Ok ([], [], [])
  | b :: rest =>
      '(audio, video, tokens_i) ←
        collate_body has_audio max_audio_len has_video max_video_len
          max_tokens_len pad_id b;
      '(audio_signal, video_signal, tokens) ←
        collate_loop has_audio max_audio_len has_video max_video_len
          max_tokens_len pad_id rest;
      Ok (audio ++ audio_signal, video ++ video_signal, tokens_i :: tokens)
  end.

(** What the function returns: the six-tuple, or the seven-tuple when
    [sample_ids] is not [None]. *)
Record collated : Type := Collated {
  out_audio_signal : option (list (list A));
  out_audio_lengths : option (list Z);
  out_video_signal : option (list (video_tensor F));
  out_video_lengths : option (list Z);
  out_tokens : list (list Z);
  out_tokens_lengths : list Z;
  out_sample_ids : option (list Z)
}.

(** The collation itself, statement by statement. *)
Definition _audio_video_speech_collate_fn (batch : list sample) (pad_id : Z)
    : result collated :=
  let audio_lengths := column audio_sig_len batch in
  let video_lengths := column video_sig_len batch in
  let tokens_lengths := column (fun f => Some (tokens_i_len f)) batch in
  sample_ids ←
    match len_packed_batch batch with
    | 7%nat => Ok (Some (column_sample_id batch))
    | 6%nat => Ok None
    | _ => Raise (ValueError "Expects 6 or 7 tensors in the batch!")
    end;
  has_audio ← first_is_not_None audio_lengths;
  max_audio_len ← (if has_audio then max_item audio_lengths else Ok 0);
  has_video ← first_is_not_None video_lengths;
  max_video_len ← (if has_video then max_item video_lengths else Ok 0);
  max_tokens_len ← max_item tokens_lengths;
  '(audio_signal, video_signal, tokens) ←
    collate_loop has_audio max_audio_len has_video max_video_len
      max_tokens_len pad_id batch;
  '(audio_signal, audio_lengths) ←
    (if has_audio : bool then
       s ← stack audio_signal; l ← stack0 audio_lengths; Ok (Some s, Some l)
     else Ok (None, None));
  '(video_signal, video_lengths) ←
    (if has_video : bool then
       s ← stack_video video_signal; l ← stack0 video_lengths; Ok (Some s, Some l)
     else Ok (None, None));
  tokens ← stack (Some <$> tokens);
  tokens_lengths ← stack0 tokens_lengths;
  match sample_ids with
  | None =>
      Ok (Collated audio_signal audio_lengths video_signal video_lengths
            tokens tokens_lengths None)
  | Some sample_ids =>
      sample_ids ← tensor_int32 sample_ids;
      Ok (Collated audio_signal audio_lengths video_signal video_lengths
            tokens tokens_lengths (Some sample_ids))
  end.
End Collate.

(** ** Vocabulary of the collation properties *)

(** The batch of the tuples with the given leading fields and remainders. *)
Definition tuples {A F : Type} (frs : list (@fields A F * list Z)) : list (@sample A F) :=
  (fun fr => Tuple fr.1 fr.2) <$> frs.

(** [m] is the maximum of the list [l]. *)
Definition is_max (m : Z) (l : list Z) : Prop :=
  m ∈ l /\ Forall (fun x => x <= m) l.

(** The maximum of a list of lengths, computed. *)
Definition list_max (l : list Z) : Z :=
  match l with
  | [] => 0
  | z :: zs => foldl Z.max z zs
  end.

(** A tensor followed by the [fill] entries that bring it to length [m]. *)
Definition pad_end {X : Type} (fill : X) (m : Z) (x : list X) : list X :=
  x ++ replicate (Z.to_nat (m - shape0 x)) fill.

(** The row the specification expects of a sample's tokens: the token
    sequence followed by [max_tokens_len - token_len] copies of [pad_id]. *)
Definition token_row {A F : Type} (pad_id max_tokens_len : Z) (f : @fields A F)
    : list Z :=
  tokens_i f ++ replicate (Z.to_nat (max_tokens_len - tokens_i_len f)) pad_id.

(** A video tensor followed by the zero frames of its own shape that bring
    it to [m] frames. *)
Definition pad_video {F : Type} (zero_frame_of : Z * Z * Z -> F) (m : Z)
    (v : video_tensor F) : video_tensor F :=
  VideoTensor (shape_tail v) (pad_end (zero_frame_of (shape_tail v)) m (frames v)).

(** The signals of a sample that carries them; [video_of] is the list of the
    frames of its video. *)
Definition audio_of {A F : Type} (f : @fields A F) : list A := default [] (audio_sig f).
Definition video_tensor_of {A F : Type} (f : @fields A F) : video_tensor F :=
  default (VideoTensor (0, 0, 0) []) (video_sig f).
Definition video_of {A F : Type} (f : @fields A F) : list F :=
  frames (video_tensor_of f).

(** The length entries equal the leading dimension of their tensors. *)
Definition audio_matches {A F : Type} (f : @fields A F) : Prop :=
  exists a, audio_sig f = Some a /\ audio_sig_len f = Some (shape0 a).
Definition video_matches {A F : Type} (f : @fields A F) : Prop :=
  exists v, video_sig f = Some v /\ video_sig_len f = Some (shape0 (frames v)).
Definition tokens_match {A F : Type} (f : @fields A F) : Prop :=
  tokens_i_len f = shape0 (tokens_i f).

(** A sample of six or seven elements. *)
Definition six_or_seven {A F : Type} (b : @sample A F) : Prop :=
  tuple_len b = 6%nat \/ tuple_len b = 7%nat.

(** A property of the six leading elements of a sample. *)
Definition leading {A F : Type} (P : @fields A F -> Prop) (b : @sample A F) : Prop :=
  match b with
  | Tuple f _ => P f
  | ShortTuple _ => False
  end.

(** Every length entry of the sample equals the leading dimension of its
    tensor. *)
Definition lengths_match {A F : Type} (b : @sample A F) : Prop :=
  leading (fun f => audio_matches f /\ video_matches f /\ tokens_match f) b.

(** The videos of the batch have frames of one shape (H, W, C). *)
Definition one_frame_shape {A F : Type} (batch : list (@sample A F)) : Prop :=
  exists shape,
    Forall (fun video : option (video_tensor F) =>
              forall v, video = Some v -> shape_tail v = shape)
      (column video_sig batch).

(** The sample ids of the batch are integers that int32 holds. *)
Definition sample_ids_fit_int32 {A F : Type} (batch : list (@sample A F)) : Prop :=
  Forall (fun sample_id => -2147483648 <= sample_id <= 2147483647)
    (column_sample_id batch).

(** What the specification says of a collated batch: the audio, video and
    token tensors have one row per sample, each row as long as the longest
    audio, video and token sequence of the batch, and the three length tensors
    hold the samples' lengths. *)
Definition dimensions_are_batch_maxima {A F : Type}
    (batch : list (@sample A F)) (out : @collated A F) : Prop :=
  exists audio_signal video_signal max_audio_len max_video_len max_tokens_len,
    out_audio_signal out = Some audio_signal /\
    out_video_signal out = Some video_signal /\
    is_max max_audio_len (column (fun f => shape0 (audio_of f)) batch) /\
    is_max max_video_len (column (fun f => shape0 (video_of f)) batch) /\
    is_max max_tokens_len (column (fun f => shape0 (tokens_i f)) batch) /\
    length audio_signal = length batch /\
    Forall (fun row => shape0 row = max_audio_len) audio_signal /\
    length video_signal = length batch /\
    Forall (fun row => shape0 (frames row) = max_video_len) video_signal /\
    length (out_tokens out) = length batch /\
    Forall (fun row => shape0 row = max_tokens_len) (out_tokens out) /\
    out_audio_lengths out = Some (column (fun f => shape0 (audio_of f)) batch) /\
    out_video_lengths out = Some (column (fun f => shape0 (video_of f)) batch) /\
    out_tokens_lengths out = column (fun f => shape0 (tokens_i f)) batch.

(** The message of the collation's own arity check. *)
Definition expects_6_or_7 : exn := ValueError "Expects 6 or 7 tensors in the batch!".

(** Two samples with their ids, audio samples and token ids in [Z], frames
    numbered in [nat]. *)
Definition two_samples : list (@sample Z nat) :=
  [ Tuple (Fields (Some [1; 2]) (Some 2) (Some (VideoTensor (96, 96, 3) [7%nat]))
             (Some 1) [5; 6; 7] 3) [8];
    Tuple (Fields (Some [1; 2; 3]) (Some 3)
             (Some (VideoTensor (96, 96, 3) [8%nat; 9%nat])) (Some 2) [5] 1) [4] ].

(** A six-element sample followed by an eight-element one. *)
Definition six_then_eight : list (@sample Z nat) :=
  [ Tuple (Fields (Some [1; 2]) (Some 2) (Some (VideoTensor (96, 96, 3) [7%nat]))
             (Some 1) [5; 6; 7] 3) [];
    Tuple (Fields (Some [1; 2; 3]) (Some 3)
             (Some (VideoTensor (96, 96, 3) [8%nat; 9%nat])) (Some 2) [5] 1) [4; 0] ].

(** A sample without audio followed by one with audio. *)
Definition audio_in_second_only : list (@sample Z nat) :=
  [ Tuple (Fields None None (Some (VideoTensor (96, 96, 3) [7%nat])) (Some 1)
             [5; 6; 7] 3) [];
    Tuple (Fields (Some [1; 2; 3]) (Some 3)
             (Some (VideoTensor (96, 96, 3) [8%nat; 9%nat])) (Some 2) [5] 1) [] ].



(** ** File ids

    [os.path.basename] and [os.path.splitext] as CPython's [posixpath] and
    [genericpath] define them, on the characters of the path. *)

(** [p.rfind(c)]: the last index of [c] in [p], or -1. *)
Fixpoint rfind_from (c : ascii) (p : string) (i : Z) (found : Z) : Z :=
  match p with
  | EmptyString => found
  | String x rest =>
      rfind_from c rest (i + 1) (if Ascii.eqb x c then i else found)
  end.

Definition rfind (p : string) (c : ascii) : Z := rfind_from c p 0 (-1).

(** [p[i:j]] for [0 <= i]. *)
Definition slice (p : string) (i j : Z) : string :=
  String.substring (Z.to_nat i) (Z.to_nat (j - i)) p.

Definition strlen (p : string) : Z := Z.of_nat (String.length p).

(** [i = p.rfind('/') + 1; return p[i:]] *)
Definition basename (p : string) : string :=
  let i := rfind p "/" + 1 in
  slice p i (strlen p).

(** [genericpath._splitext]: the extension starts at the last dot of the last
    path component, unless only dots precede it there. *)
Fixpoint only_dots (p : string) : bool :=
  match p with
  | EmptyString => true
  | String x rest => Ascii.eqb x "." && only_dots rest
  end.

Definition splitext (p : string) : string * string :=
  let sepIndex := rfind p "/" in
  let dotIndex := rfind p "." in
  if sepIndex <? dotIndex then
    let filenameIndex := sepIndex + 1 in
    if only_dots (slice p filenameIndex dotIndex)
    then (p, EmptyString)
    else (slice p 0 dotIndex, slice p dotIndex (strlen p))
  else (p, EmptyString).

(** [file_id, _ = os.path.splitext(os.path.basename(audio_filename))] *)
Definition file_id_of (audio_filename : string) : string :=
  fst (splitext (basename audio_filename)).

(** ** The tarred dataset's iterator stages *)

(** The manifest collection, as far as the stages read it: [mapping] sends a
    file id to the list of the manifest indices (one per offset) of that
    file. *)
Record Collection : Type := { mapping : gmap string (list nat) }.

(** The iterator protocol: [next(it)] yields a value and the advanced
    iterator, or raises ([StopIteration] at the end). *)
Class PyIterator (S V : Type) : Type := py_next : S -> result (V * S).

(** The upstream stream of a shard is the finite sequence of its items. *)
#[global] Instance list_iterator {V : Type} : PyIterator (list V) V := fun l =>
  match l with
  | [] => Raise StopIteration
  | x :: rest => Ok (x, rest)
  end.

(** Everything an iterator yields within [fuel] calls of [next], and the
    exception that ended it ([None] when the fuel ran out first). *)
Fixpoint drain {S V : Type} `{PyIterator S V} (fuel : nat) (s : S)
    : list V * option exn :=
  match fuel with
  | O => ([], None)
  | Datatypes.S fuel' =>
      match py_next s with
      | Ok (v, s') => let '(vs, e) := drain fuel' s' in (v :: vs, e)
      | Raise e => ([], Some e)
      end
  end.

Module TarredAudioFilter.
Section Def.
Context {AudioBytes VideoBytes : Type}.

Record t : Type := Build {
  iterator : list (AudioBytes * VideoBytes * string);
  collection : Collection
}.

(** The [while True] loop of [__next__], over what is left of the upstream
    stream: its end raises [StopIteration] out of the loop. *)
Fixpoint next_from (collection : Collection)
    (iterator : list (AudioBytes * VideoBytes * string))
    : result ((AudioBytes * VideoBytes * string)
              * list (AudioBytes * VideoBytes * string)) :=
  match iterator with
  | [] => Raise StopIteration
  | (audio_bytes, video_bytes, audio_filename) :: rest =>
      let file_id := file_id_of audio_filename in
      if decide (is_Some (mapping collection !! file_id))
      then Ok ((audio_bytes, video_bytes, audio_filename), rest)
      else next_from collection rest
  end.

Definition __next__ (self : t)
    : result ((AudioBytes * VideoBytes * string) * t) :=
  '(x, rest) ← next_from (collection self) (iterator self);
  Ok (x, Build rest (collection self)).

#[global] Instance filter_iterator
  : PyIterator t (AudioBytes * VideoBytes * string) := __next__.
End Def.
Arguments t : clear implicits.
End TarredAudioFilter.

Module TarredAudioLoopOffsets.
Section Def.
Context {AudioBytes VideoBytes I : Type}.
Context `{PyIterator I (AudioBytes * VideoBytes * string)}.

(** [current] holds [current_audio_bytes], [current_video_bytes] and
    [current_fn], which the code assigns together; it is [None] exactly while
    [current_fn] is [None]. *)
Record t : Type := Build {
  iterator : I;
  collection : Collection;
  current : option (AudioBytes * VideoBytes * string);
  offset_id : nat
}.

(** [... = next(self.iterator); self.offset_id = 0], then the [return]. *)
Definition advance (self : t)
    : result ((AudioBytes * VideoBytes * string * nat) * t) :=
  '(x, iterator') ← py_next (iterator self);
  Ok ((x, 0%nat), Build iterator' (collection self) (Some x) 0).

Definition __next__ (self : t)
    : result ((AudioBytes * VideoBytes * string * nat) * t) :=
  match current self with
  | None => advance self
  | Some (current_audio_bytes, current_video_bytes, current_fn) =>
      match mapping (collection self) !! current_fn with
      | None => Raise (KeyError current_fn)
      | Some offset_list =>
          if Nat.eqb (length offset_list) (offset_id self + 1)
          then advance self
          else
            let offset_id' := (offset_id self + 1)%nat in
            Ok ((current_audio_bytes, current_video_bytes, current_fn, offset_id'),
                Build (iterator self) (collection self) (current self) offset_id')
      end
  end.

#[global] Instance loop_iterator
  : PyIterator t (AudioBytes * VideoBytes * string * nat) := __next__.
End Def.
Arguments t : clear implicits.
End TarredAudioLoopOffsets.

Section Pipeline.
Context {AudioBytes VideoBytes : Type}.

Definition _filter (collection : Collection)
    (iterator : list (AudioBytes * VideoBytes * string))
    : TarredAudioFilter.t AudioBytes VideoBytes :=
  TarredAudioFilter.Build iterator collection.

Definition _loop_offsets {I : Type} (collection : Collection) (iterator : I)
    : TarredAudioLoopOffsets.t AudioBytes VideoBytes I :=
  TarredAudioLoopOffsets.Build iterator collection None 0.

(** The head of [_build_sample]: the manifest index the sample is built
    from, [collection.mapping[file_id][offset_id]]. *)
Definition _build_sample_manifest_idx (collection : Collection)
    (tup : AudioBytes * VideoBytes * string * nat) : result nat :=
  let '(audio_bytes, video_tuple, audio_filename, offset_id) := tup in
  let file_id := file_id_of audio_filename in
  match mapping collection !! file_id with
  | None => Raise (KeyError file_id)
  | Some offsets =>
      match offsets !! offset_id with
      | None => Raise IndexError
      | Some manifest_idx => Ok manifest_idx
      end
  end.
End Pipeline.

(** ** Vocabulary of the stage properties *)

Section StageVocabulary.
Context {AudioBytes VideoBytes : Type}.
Abbreviation item := (AudioBytes * VideoBytes * string)%type.
Implicit Types (collection : Collection) (items : list item).

(** An item is kept when its file id is a key of the mapping. *)
Definition in_manifest collection (x : item) : Prop :=
  is_Some (mapping collection !! file_id_of x.2).

#[global] Instance in_manifest_dec collection x : Decision (in_manifest collection x).
Proof. unfold in_manifest. apply _. Defined.

(** What the specification expects of [_loop_offsets] for one item: one output
    per offset of its file, numbered from 0. *)
Definition offsets_of collection (x : item) : list nat :=
  default [] (mapping collection !! file_id_of x.2).

Definition one_per_offset collection (x : item) : list (item * nat) :=
  map (fun i => (x, i)) (seq 0 (length (offsets_of collection x))).

(** The state between two items: nothing read yet, or the last offset of the
    current file reached. *)
Definition at_last_offset collection (current : option item) (offset_id : nat) : Prop :=
  match current with
  | None => True
  | Some x =>
      exists offset_list,
        mapping collection !! x.2 = Some offset_list /\
        length offset_list = (offset_id + 1)%nat
  end.

End StageVocabulary.


(** * The rest of the module: manifest processor, datasets, tokenizer wrappers *)

(** ** Python indexing *)

(** [l[i]] on a list: a negative index counts from the end, an index out of
    range raises [IndexError]. *)
Definition py_getitem {X : Type} (l : list X) (i : Z) : result X :=
  let n := Z.of_nat (length l) in
  let j := if i <? 0 then i + n else i in
  if (0 <=? j) && (j <? n)
  then match l !! Z.to_nat j with
       | Some x => Ok x
       | None => Raise IndexError
       end
  else Raise IndexError.

(** [d[k]] on a dict with string keys. *)
Definition py_dict_getitem {X : Type} (d : gmap string X) (k : string) : result X :=
  match d !! k with
  | Some x => Ok x
  | None => Raise (KeyError k)
  end.

(** ** Manifest entries

    Modelled from the spec: the manifest entry and the collection that holds
    the entries, whose classes are declared outside these files.  An entry
    carries the attributes the code reads; offsets and durations are values of
    the type [Time].  The collection is indexed by integer position ([data])
    and by file id ([by_file_id], its [mapping] attribute). *)

Section Manifest.
Context {Time : Type}.

Record Entry : Type := {
  audio_file : string;
  video_file : string;
  duration : option Time;
  offset : option Time;
  orig_sr : option Z;
  text_tokens : list Z
}.

Record ASRVideoAudioText : Type := {
  data : list Entry;
  by_file_id : Collection
}.
End Manifest.
Arguments Entry : clear implicits.
Arguments ASRVideoAudioText : clear implicits.

Module AVSRManifestProcessor.
Section Def.
Context {Time : Type}.

Record t : Type := Build {
  collection : ASRVideoAudioText Time;
  bos_id : option Z;
  eos_id : option Z;
  pad_id : Z
}.

(** [__init__], given the collection it loads from the manifest files. *)
Definition __init__ (collection : ASRVideoAudioText Time)
    (bos_id eos_id : option Z) (pad_id : Z) : t :=
  Build collection bos_id eos_id pad_id.

Definition process_text_by_sample (self : t) (sample : Entry Time) : list Z * Z :=
  let t := text_tokens sample in
  let tl := shape0 (text_tokens sample) in
  let '(t, tl) :=
    match bos_id self with
    | Some bos => ([bos] ++ t, tl + 1)
    | None => (t, tl)
    end in
  let '(t, tl) :=
    match eos_id self with
    | Some eos => (t ++ [eos], tl + 1)
    | None => (t, tl)
    end in
  (t, tl).

Definition process_text_by_id (self : t) (index : Z) : result (list Z * Z) :=
  sample ← py_getitem (data (collection self)) index;
  Ok (process_text_by_sample self sample).

Definition process_text_by_file_id (self : t) (file_id : string)
    : result (list Z * Z) :=
  offsets ← py_dict_getitem (mapping (by_file_id (collection self))) file_id;
  manifest_idx ← py_getitem offsets 0;
  sample ← py_getitem (data (collection self)) (Z.of_nat manifest_idx);
  Ok (process_text_by_sample self sample).
End Def.
Arguments t : clear implicits.
End AVSRManifestProcessor.

(** ** The map-style dataset

    The further methods of [_AudioVideoTextDataset] (the body of its
    [align_audio_and_video] is in the module of that name).  The two
    featurizers decode files; they stand outside these files and are
    parameters here: each returns a tensor or raises.  The audio featurizer
    returns a 1-d tensor or, for several channels, a 2-d one; the video
    featurizer a tensor of shape (T, H, W, C). *)

Module AudioVideoTextDataset.
Section Def.
Context {A F Time ChannelSelector : Type}.
Context (zero : A) (zero_frame_of : Z * Z * Z -> F) (zero_time : Time).
Context (audio_featurizer_process :
           string -> Time -> option Time -> bool -> option Z
           -> option ChannelSelector -> result (audio_features A)).
Context (video_featurizer_process :
           string -> Time -> option Time -> result (video_tensor F)).

Record t : Type := Build {
  manifest_processor : AVSRManifestProcessor.t Time;
  trim : bool;
  return_sample_id : bool;
  channel_selector : option ChannelSelector
}.

(** [__init__], given the collection the manifest processor loads. *)
Definition __init__ (collection : ASRVideoAudioText Time) (trim : bool)
    (bos_id eos_id : option Z) (pad_id : Z) (return_sample_id : bool)
    (channel_selector : option ChannelSelector) : t :=
  Build (AVSRManifestProcessor.__init__ collection bos_id eos_id pad_id)
        trim return_sample_id channel_selector.

Definition get_manifest_sample (self : t) (sample_id : Z) : result (Entry Time) :=
  py_getitem (data (AVSRManifestProcessor.collection (manifest_processor self))) sample_id.

(** [self.align_audio_and_video] on the tensors of the featurizers: the
    unpacking [(Ta,) = input_audio_signal.shape] raises [ValueError] on audio
    that is not 1-d; the zero frames have the shape (H, W, C) of the video,
    which the aligned video keeps. *)
Definition align_audio_and_video (input_audio_signal : audio_features A)
    (input_video_signal : video_tensor F) : result (list A * video_tensor F) :=
  match input_audio_signal with
  | Audio2d _ => Raise (ValueError "too many values to unpack (expected 1)")
  | Audio1d audio =>
      '(audio, video) ←
        _AudioVideoTextDataset.align_audio_and_video zero
          (zero_frame_of (shape_tail input_video_signal))
          audio (frames input_video_signal);
      Ok (audio, VideoTensor (shape_tail input_video_signal) video)
  end.

Definition __getitem__ (self : t) (index : Z) : result (@sample A F) :=
  sample ← py_getitem
             (data (AVSRManifestProcessor.collection (manifest_processor self))) index;
  let offset := default zero_time (offset sample) in
  audio_features ←
    audio_featurizer_process (audio_file sample) offset (duration sample)
      (trim self) (orig_sr sample) (channel_selector self);
  video_features ←
    video_featurizer_process (video_file sample) offset (duration sample);
  '(audio_features, video_features) ←
    align_audio_and_video audio_features video_features;
  let afl := shape0 audio_features in
  let vfl := shape0 (frames video_features) in
  let '(t, tl) :=
    AVSRManifestProcessor.process_text_by_sample (manifest_processor self) sample in
  Ok (Tuple (Fields (Some audio_features) (Some afl) (Some video_features) (Some vfl) t tl)
            (if return_sample_id self then [index] else [])).

Definition __len__ (self : t) : nat :=
  length (data (AVSRManifestProcessor.collection (manifest_processor self))).

Definition _collate_fn (self : t) (batch : list (@sample A F)) : result (@collated A F) :=
  _audio_video_speech_collate_fn zero zero_frame_of batch
    (AVSRManifestProcessor.pad_id (manifest_processor self)).
End Def.
Arguments t : clear implicits.
End AudioVideoTextDataset.

(** ** Tokenizers

    A tokenizer, as far as the BPE datasets read it: the three ids are
    attributes a tokenizer may lack ([hasattr]), [is_aggregate] says whether it
    is an [AggregateTokenizer], and [text_to_ids] is called with the
    positional arguments it is handed.  An argument is a string or a list of
    spans, a span being a dict. *)

Inductive pyarg : Type :=
| Str (s : string)
| Spans (spans : list (gmap string string)).

Record Tokenizer : Type := {
  tok_bos_id : option Z;
  tok_eos_id : option Z;
  tok_pad_id : option Z;
  tok_is_aggregate : bool;
  text_to_ids : list pyarg -> result (list Z)
}.

(** The ids the two BPE datasets hand to their base class. *)
Definition bpe_bos_id (use_start_end_token : bool) (tokenizer : Tokenizer) : option Z :=
  match tok_bos_id tokenizer with
  | Some bos_id => if use_start_end_token && (0 <? bos_id) then Some bos_id else None
  | None => None
  end.

Definition bpe_eos_id (use_start_end_token : bool) (tokenizer : Tokenizer) : option Z :=
  match tok_eos_id tokenizer with
  | Some eos_id => if use_start_end_token && (0 <? eos_id) then Some eos_id else None
  | None => None
  end.

Definition bpe_pad_id (tokenizer : Tokenizer) : Z :=
  match tok_pad_id tokenizer with
  | Some pad_id => if 0 <? pad_id then pad_id else 0
  | None => 0
  end.

(** [for span in spans: t.extend(text_to_ids(span['str'], span['lang']))] *)
Fixpoint extend_spans (tokenizer : Tokenizer) (spans : list (gmap string string))
    (t : list Z) : result (list Z) :=
  match spans with
  | [] => Ok t
  | span :: rest =>
      s ← py_dict_getitem span "str";
      lang ← py_dict_getitem span "lang";
      ids ← text_to_ids tokenizer [Str s; Str lang];
      extend_spans tokenizer rest (t ++ ids)
  end.

Module AudioAndVideoToBPEDataset.

(** [TokenizerWrapper.__call__( *args)]: spans go through the aggregate
    tokenizer one by one when [args[0]] is a [List]. *)
Definition TokenizerWrapper (tokenizer : Tokenizer) (args : list pyarg)
    : result (list Z) :=
  match args with
  | [] => Raise IndexError
  | Spans spans :: _ =>
      if tok_is_aggregate tokenizer
      then extend_spans tokenizer spans []
      else text_to_ids tokenizer args
  | Str _ :: _ => text_to_ids tokenizer args
  end.

Section Def.
Context {Time ChannelSelector : Type}.

(** [__init__], given the collection loaded with the wrapped tokenizer. *)
Definition __init__ (collection : ASRVideoAudioText Time) (tokenizer : Tokenizer)
    (trim use_start_end_token return_sample_id : bool)
    (channel_selector : option ChannelSelector)
    : AudioVideoTextDataset.t Time ChannelSelector :=
  AudioVideoTextDataset.__init__ collection trim
    (bpe_bos_id use_start_end_token tokenizer)
    (bpe_eos_id use_start_end_token tokenizer)
    (bpe_pad_id tokenizer) return_sample_id channel_selector.
End Def.
End AudioAndVideoToBPEDataset.

(** ** The tarred dataset

    The further methods of [_TarredAudioAndVideoToTextDataset]. *)

(** The stage [.map(f)] of the stream: [f] on every item, its exceptions
    raised to the consumer. *)
Record MapStage (I X Y : Type) : Type := Map {
  map_source : I;
  map_f : X -> result Y
}.
Arguments Map {I X Y} map_source map_f.
Arguments map_source {I X Y} m.
Arguments map_f {I X Y} m.

#[global] Instance map_iterator {I X Y : Type} `{PyIterator I X}
  : PyIterator (MapStage I X Y) Y := fun self =>
  '(x, source') ← py_next (map_source self);
  y ← map_f self x;
  Ok (y, Map source' (map_f self)).

Module TarredAudioAndVideoToTextDataset.
Section Def.
Context {A F Time AudioBytes : Type}.
Context (zero : A) (zero_time : Time).
(** [new_zeros(n, H, W, C)] is n copies of [zero_frame_of (H, W, C)], and
    [repeat(1, 96, 96, 1)] tiles every frame, [repeat_96_96] being the tiling of
    one frame. *)
Context (zero_frame_of : Z * Z * Z -> F) (repeat_96_96 : F -> F).
Context (featurizer_process :
           AudioBytes -> Time -> option Time -> bool -> option Z
           -> result (audio_features A)).

Record t : Type := Build {
  manifest_processor : AVSRManifestProcessor.t Time;
  trim : bool;
  eos_id : option Z;
  bos_id : option Z;
  pad_id : Z;
  return_sample_id : bool
}.

(** [__init__], given the collection the manifest processor loads; the
    stream it puts together is [__iter__] below. *)
Definition __init__ (collection : ASRVideoAudioText Time) (trim : bool)
    (bos_id eos_id : option Z) (pad_id : Z) (return_sample_id : bool) : t :=
  Build (AVSRManifestProcessor.__init__ collection bos_id eos_id pad_id)
        trim eos_id bos_id pad_id return_sample_id.

(** The channel squeeze of [_build_sample]: of a 2-d tensor, column 0 when it
    has more rows than columns, row 0 otherwise. *)
Definition squeeze_channel_dim (audio_features : audio_features A) : result (list A) :=
  match audio_features with
  | Audio1d x => Ok x
  | Audio2d rows =>
      let shape_0 := length rows in
      let shape_1 := match rows with r :: _ => length r | [] => O end in
      if Nat.ltb shape_1 shape_0
      then match mapM head rows with
           | Some column_0 => Ok column_0
           | None => Raise IndexError
           end
      else match rows with
           | r :: _ => Ok r
           | [] => Raise IndexError
           end
  end.

(** [if video_features.shape[1:] == (1, 1, 3): ... repeat(1, 96, 96, 1)] *)
Definition repeat_1x1x3 (video_features : video_tensor F) : video_tensor F :=
  if decide (shape_tail video_features = (1, 1, 3))
  then VideoTensor (96, 96, 3) (repeat_96_96 <$> frames video_features)
  else video_features.

(** [self.align_audio_and_video] on the squeezed audio and the video tensor:
    the zero frames have the shape (H, W, C) of the video, which the aligned
    video keeps. *)
Definition align_audio_and_video (input_audio_signal : list A)
    (input_video_signal : video_tensor F) : result (list A * video_tensor F) :=
  '(audio, video) ←
    _TarredAudioAndVideoToTextDataset.align_audio_and_video zero
      (zero_frame_of (shape_tail input_video_signal))
      input_audio_signal (frames input_video_signal);
  Ok (audio, VideoTensor (shape_tail input_video_signal) video).

(** [_build_sample].  The item's second component stands for element 0 of the
    decoded video tuple.  The two [print] calls, and the call of
    [process_text_by_sample] whose result is dropped, leave no trace in what is
    returned and are left out. *)
Definition _build_sample (self : t)
    (tup : AudioBytes * video_tensor F * string * nat) : result (@sample A F) :=
  let '(audio_bytes, video_tuple, audio_filename, offset_id) := tup in
  let file_id := file_id_of audio_filename in
  let collection := AVSRManifestProcessor.collection (manifest_processor self) in
  offsets ← py_dict_getitem (mapping (by_file_id collection)) file_id;
  manifest_idx ← py_getitem offsets (Z.of_nat offset_id);
  manifest_entry ← py_getitem (data collection) (Z.of_nat manifest_idx);
  let offset := default zero_time (offset manifest_entry) in
  audio_features ←
    featurizer_process audio_bytes offset (duration manifest_entry) (trim self)
      (orig_sr manifest_entry);
  audio_features ← squeeze_channel_dim audio_features;
  let video_features := repeat_1x1x3 video_tuple in
  '(audio_features, video_features) ←
    align_audio_and_video audio_features video_features;
  let afl := shape0 audio_features in
  let vfl := shape0 (frames video_features) in
  let t := text_tokens manifest_entry in
  let tl := shape0 (text_tokens manifest_entry) in
  let '(t, tl) :=
    match bos_id self with
    | Some bos => ([bos] ++ t, tl + 1)
    | None => (t, tl)
    end in
  let '(t, tl) :=
    match eos_id self with
    | Some eos => (t ++ [eos], tl + 1)
    | None => (t, tl)
    end in
  Ok (Tuple (Fields (Some audio_features) (Some afl) (Some video_features) (Some vfl) t tl)
            (if return_sample_id self then [Z.of_nat manifest_idx] else [])).

Definition _collate_fn (self : t) (batch : list (@sample A F))
    : result (@collated A F) :=
  _audio_video_speech_collate_fn zero zero_frame_of batch (pad_id self).

Definition get_manifest_sample (self : t) (sample_id : Z) : result (Entry Time) :=
  py_getitem (data (AVSRManifestProcessor.collection (manifest_processor self))) sample_id.

Definition __len__ (self : t) : nat :=
  length (data (AVSRManifestProcessor.collection (manifest_processor self))).

(** The stream [__init__] puts together, from the decoded items of the
    shards on: [.pipe(self._filter).pipe(self._loop_offsets)
    .map(f=self._build_sample)]. *)
Definition __iter__ (self : t) (items : list (AudioBytes * video_tensor F * string)) :=
  let collection :=
    by_file_id (AVSRManifestProcessor.collection (manifest_processor self)) in
  Map (@_loop_offsets AudioBytes (video_tensor F) _ collection
         (_filter collection items))
      (_build_sample self).
End Def.
Arguments t : clear implicits.
End TarredAudioAndVideoToTextDataset.

Module TarredAudioAndVideoToBPEDataset.

(** [TokenizerWrapper.__call__( *args)] of the tarred BPE dataset: it tests
    [args[0]] for [Iterable], which a string is too; iterating a string yields
    its characters, and a character has no key [str]. *)
Definition TokenizerWrapper (tokenizer : Tokenizer) (args : list pyarg)
    : result (list Z) :=
  match args with
  | [] => Raise IndexError
  | Spans spans :: _ =>
      if tok_is_aggregate tokenizer
      then extend_spans tokenizer spans []
      else text_to_ids tokenizer args
  | Str s :: _ =>
      if tok_is_aggregate tokenizer
      then match s with
           | EmptyString => Ok []
           | String _ _ => Raise TypeError
           end
      else text_to_ids tokenizer args
  end.

Section Def.
Context {Time : Type}.

Definition __init__ (collection : ASRVideoAudioText Time) (tokenizer : Tokenizer)
    (trim use_start_end_token return_sample_id : bool)
    : TarredAudioAndVideoToTextDataset.t Time :=
  TarredAudioAndVideoToTextDataset.__init__ collection trim
    (bpe_bos_id use_start_end_token tokenizer)
    (bpe_eos_id use_start_end_token tokenizer)
    (bpe_pad_id tokenizer) return_sample_id.
End Def.
End TarredAudioAndVideoToBPEDataset.

(** ** Vocabulary of the dataset properties *)

Section GetItemVocabulary.
Context {A F Time ChannelSelector : Type}.
Context (zero_time : Time).
Context (audio_featurizer_process :
           string -> Time -> option Time -> bool -> option Z
           -> option ChannelSelector -> result (audio_features A)).
Context (video_featurizer_process :
           string -> Time -> option Time -> result (video_tensor F)).
Implicit Types (self : AudioVideoTextDataset.t Time ChannelSelector).
Implicit Types (entry : Entry Time).

(** What [__getitem__] hands to the two featurizers for an entry. *)
Definition audio_of_entry self entry : result (audio_features A) :=
  audio_featurizer_process (audio_file entry) (default zero_time (offset entry))
    (duration entry) (AudioVideoTextDataset.trim self) (orig_sr entry)
    (AudioVideoTextDataset.channel_selector self).

Definition video_of_entry entry : result (video_tensor F) :=
  video_featurizer_process (video_file entry) (default zero_time (offset entry))
    (duration entry).

(** The entries of the dataset's collection. *)
Definition entries self : list (Entry Time) :=
  data (AVSRManifestProcessor.collection (AudioVideoTextDataset.manifest_processor self)).

(** The sample [__getitem__] builds from an entry and its aligned signals. *)
Definition item_of self (index : Z) entry (audio : list A) (video : video_tensor F)
    : @sample A F :=
  Tuple
    (Fields (Some audio) (Some (shape0 audio)) (Some video)
       (Some (shape0 (frames video)))
       (AVSRManifestProcessor.process_text_by_sample
          (AudioVideoTextDataset.manifest_processor self) entry).1
       (AVSRManifestProcessor.process_text_by_sample
          (AudioVideoTextDataset.manifest_processor self) entry).2)
    (if AudioVideoTextDataset.return_sample_id self then [index] else []).
End GetItemVocabulary.

(** The outputs of a [.map(f)] stage over the items [xs] of a source that
    ends with [e]: [f] of every item up to the first one [f] raises on. *)
Fixpoint map_until {X Y : Type} (f : X -> result Y) (xs : list X) (e : exn)
    : list Y * option exn :=
  match xs with
  | [] => ([], Some e)
  | x :: rest =>
      match f x with
      | Ok y => let '(ys, e') := map_until f rest e in (y :: ys, e')
      | Raise err => ([], Some err)
      end
  end.

Section BuildSampleVocabulary.
Context {A F Time AudioBytes : Type}.
Context (zero : A) (zero_time : Time).
Context (zero_frame_of : Z * Z * Z -> F) (repeat_96_96 : F -> F).
Context (featurizer_process :
           AudioBytes -> Time -> option Time -> bool -> option Z
           -> result (audio_features A)).
Implicit Types (self : TarredAudioAndVideoToTextDataset.t Time).
Implicit Types (entry : Entry Time) (video_tuple : video_tensor F).

(** The collection of a tarred dataset: its entries and its mapping. *)
Definition tarred_entries self : list (Entry Time) :=
  data (AVSRManifestProcessor.collection
          (TarredAudioAndVideoToTextDataset.manifest_processor self)).

Definition tarred_mapping self : Collection :=
  by_file_id (AVSRManifestProcessor.collection
                (TarredAudioAndVideoToTextDataset.manifest_processor self)).

(** What [_build_sample] hands to the featurizer for an entry. *)
Definition features_of_entry self (audio_bytes : AudioBytes) entry
    : result (audio_features A) :=
  featurizer_process audio_bytes (default zero_time (offset entry)) (duration entry)
    (TarredAudioAndVideoToTextDataset.trim self) (orig_sr entry).

(** The alignment [_build_sample] runs on the squeezed audio and the video. *)
Definition aligned_of (audio : list A) video_tuple
    : result (list A * video_tensor F) :=
  TarredAudioAndVideoToTextDataset.align_audio_and_video zero zero_frame_of audio
    (TarredAudioAndVideoToTextDataset.repeat_1x1x3 repeat_96_96 video_tuple).

(** The sample [_build_sample] puts together from the entry at a manifest
    index and the aligned signals. *)
Definition built_sample self (manifest_idx : nat) entry (audio : list A)
    (video : video_tensor F) : @sample A F :=
  let t := option_list (TarredAudioAndVideoToTextDataset.bos_id self)
           ++ text_tokens entry
           ++ option_list (TarredAudioAndVideoToTextDataset.eos_id self) in
  Tuple
    (Fields (Some audio) (Some (shape0 audio)) (Some video)
       (Some (shape0 (frames video))) t (shape0 t))
    (if TarredAudioAndVideoToTextDataset.return_sample_id self
     then [Z.of_nat manifest_idx] else []).
End BuildSampleVocabulary.

(** ** Example data

    A manifest of three entries for two files, with times in [Z]: file [a] has
    two offsets, file [b] one. *)
Definition example_entries : list (Entry Z) :=
  [ {| audio_file := "a.wav"; video_file := "a.mp4"; duration := None;
       offset := None; orig_sr := None; text_tokens := [5; 6] |};
    {| audio_file := "a.wav"; video_file := "a.mp4"; duration := Some 2;
       offset := Some 3; orig_sr := None; text_tokens := [7] |};
    {| audio_file := "b.wav"; video_file := "b.mp4"; duration := None;
       offset := None; orig_sr := Some 16000; text_tokens := [8; 9; 10] |} ].

Definition example_mapping : Collection :=
  Build_Collection {[ "a"%string := [0; 1]%nat; "b"%string := [2]%nat ]}.

Definition example_collection : ASRVideoAudioText Z :=
  {| data := example_entries; by_file_id := example_mapping |}.

(** Featurizers that read no file: the audio is 1-d and has one sample more
    than the offset, the video has the shape (0, 96, 96, 3), no frame at all
    (frames are numbered in [nat]). *)
Definition example_audio_featurizer (file : string) (offset : Z) (duration : option Z)
    (trim : bool) (orig_sr : option Z) (channel_selector : option unit)
    : result (audio_features Z) :=
  Ok (Audio1d (replicate (Z.to_nat (1 + offset)) 1)).

Definition example_video_featurizer (file : string) (offset : Z) (duration : option Z)
    : result (video_tensor nat) :=
  Ok (VideoTensor (96, 96, 3) []).

(** A map-style dataset over the example manifest, with BOS id 1, EOS id 2,
    pad id 0 and sample ids. *)
Definition example_dataset : AudioVideoTextDataset.t Z unit :=
  AudioVideoTextDataset.__init__ example_collection false (Some 1) (Some 2) 0 true None.

(** The tarred dataset over the same manifest.  Its featurizer returns the
    bytes as the one row of a 2-d tensor. *)
Definition example_tarred_featurizer (audio_bytes : list Z) (offset : Z)
    (duration : option Z) (trim : bool) (orig_sr : option Z)
    : result (audio_features Z) :=
  Ok (Audio2d [audio_bytes]).

Definition example_tarred_dataset : TarredAudioAndVideoToTextDataset.t Z :=
  TarredAudioAndVideoToTextDataset.__init__ example_collection false (Some 1) (Some 2) 0
    true.

(** A shard with flat names: a file of the manifest, a file that is not in
    it, and another file of the manifest. *)
Definition example_shard : list (list Z * video_tensor nat * string) :=
  [ ([1; 2], VideoTensor (1, 1, 3) [7%nat], "a"%string);
    ([3], VideoTensor (96, 96, 3) [], "zz"%string);
    ([4; 5; 6], VideoTensor (96, 96, 3) [8%nat], "b"%string) ].

(** An aggregate tokenizer whose ids are the lengths of the text and of the
    language name. *)
Definition example_tokenizer : Tokenizer :=
  {| tok_bos_id := Some 1;
     tok_eos_id := Some 2;
     tok_pad_id := None;
     tok_is_aggregate := true;
     text_to_ids := fun args =>
       match args with
       | [Str s; Str lang] =>
           Ok [Z.of_nat (String.length s); Z.of_nat (String.length lang)]
       | _ => Raise TypeError
       end |}.

(** The items of the example dataset at the indices 0 and -1. *)
Definition example_items : list (@sample Z nat) :=
  [ Tuple (Fields (Some [1]) (Some 1) (Some (VideoTensor (96, 96, 3) [0%nat])) (Some 1)
             [1; 5; 6; 2] 4) [0];
    Tuple (Fields (Some [1]) (Some 1) (Some (VideoTensor (96, 96, 3) [0%nat])) (Some 1)
             [1; 8; 9; 10; 2] 5) [-1] ].

(** The two offsets of file [a] as [_loop_offsets] yields them, and the
    samples of the example tarred dataset for them. *)
Definition example_offsets_of_a : list (list Z * video_tensor nat * string * nat) :=
  [ ([1; 2], VideoTensor (96, 96, 3) [8%nat], "a"%string, 0%nat);
    ([1; 2], VideoTensor (96, 96, 3) [8%nat], "a"%string, 1%nat) ].

Definition example_built_samples : list (@sample Z nat) :=
  [ Tuple (Fields (Some [1; 2]) (Some 2) (Some (VideoTensor (96, 96, 3) [8%nat]))
             (Some 1) [1; 5; 6; 2] 4) [0];
    Tuple (Fields (Some [1; 2]) (Some 2) (Some (VideoTensor (96, 96, 3) [8%nat]))
             (Some 1) [1; 7; 2] 3) [1] ].

(** A sample with its audio length followed by one without audio. *)
Definition audio_in_first_only : list (@fields Z nat * list Z) :=
  [ (Fields (Some [1; 2; 3]) (Some 3) (Some (VideoTensor (96, 96, 3) [8%nat; 9%nat]))
       (Some 2) [5] 1, []);
    (Fields None None (Some (VideoTensor (96, 96, 3) [7%nat])) (Some 1) [5; 6; 7] 3,
     []) ].


(** * Properties *)

(** ** Alignment *)

Lemma new_zeros_nonneg {X : Type} (zero : X) (n : Z) :
  0 <= n -> new_zeros zero n = Ok (replicate (Z.to_nat n) zero).
Proof.
  intros Hn. unfold new_zeros.
  destruct (Z.ltb_spec n 0) as [Hlt | _]; [lia | reflexivity].
Qed.

Lemma shape0_cat3 {X : Type} (l x r : list X) :
  shape0 (cat3 l x r) = shape0 l + shape0 x + shape0 r.
Proof. unfold shape0, cat3. rewrite !length_app. lia. Qed.

Lemma shape0_replicate {X : Type} (n : Z) (x : X) :
  0 <= n -> shape0 (replicate (Z.to_nat n) x) = n.
Proof. intros Hn. unfold shape0. rewrite length_replicate. lia. Qed.

(** The two halves of a pad count. *)
Lemma pad_halves (p : Z) :
  0 <= p ->
  0 <= p / 2 /\ 0 <= p / 2 + p mod 2 /\
  p / 2 + (p / 2 + p mod 2) = p /\
  p / 2 + p mod 2 = ceil_div p 2.
Proof.
  intros Hp. unfold ceil_div.
  Z.to_euclidean_division_equations. lia.
Qed.

Lemma audio_padding_pos {A F : Type} (audio : list A) (video : list F) :
  video_padding audio video < 0 -> 0 < audio_padding audio video.
Proof.
  unfold video_padding, audio_padding. intros Hp.
  assert (0 <= shape0 audio) by (unfold shape0; lia).
  Z.to_euclidean_division_equations. lia.
Qed.

(** The two classes carry the same method. *)
Lemma align_audio_and_video_same {A F : Type} (zero : A) (zero_frame : F)
    (audio : list A) (video : list F) :
  _TarredAudioAndVideoToTextDataset.align_audio_and_video zero zero_frame audio video
  = _AudioVideoTextDataset.align_audio_and_video zero zero_frame audio video.
Proof. reflexivity. Qed.

Section AlignFacts.
Context {A F : Type} (zero : A) (zero_frame : F).
Implicit Types (audio : list A) (video : list F).

Lemma align_video_branch audio video :
  0 <= video_padding audio video ->
  _AudioVideoTextDataset.align_audio_and_video zero zero_frame audio video =
    Ok (audio,
        cat3 (replicate (Z.to_nat (video_padding audio video / 2)) zero_frame)
             video
             (replicate (Z.to_nat (video_padding audio video / 2
                                   + video_padding audio video mod 2)) zero_frame)).
Proof.
  intros Hp. unfold _AudioVideoTextDataset.align_audio_and_video.
  change (160 * 2 * 2) with 640.
  fold (video_padding audio video).
  destruct (Z.leb_spec 0 (video_padding audio video)) as [_ | Hlt]; [| lia].
  destruct (pad_halves _ Hp) as (Hl & Hr & _).
  rewrite (new_zeros_nonneg _ _ Hl). cbn.
  rewrite (new_zeros_nonneg _ _ Hr). reflexivity.
Qed.

Lemma align_audio_branch audio video :
  video_padding audio video < 0 ->
  _AudioVideoTextDataset.align_audio_and_video zero zero_frame audio video =
    Ok (cat3 (replicate (Z.to_nat (audio_padding audio video / 2)) zero)
             audio
             (replicate (Z.to_nat (audio_padding audio video / 2
                                   + audio_padding audio video mod 2)) zero),
        video).
Proof.
  intros Hp. unfold _AudioVideoTextDataset.align_audio_and_video.
  change (160 * 2 * 2) with 640. change (2 * 2 * 160) with 640.
  fold (video_padding audio video). fold (audio_padding audio video).
  destruct (Z.leb_spec 0 (video_padding audio video)) as [Hge | _]; [lia |].
  assert (Hq : 0 <= audio_padding audio video)
    by (pose proof (audio_padding_pos _ _ Hp); lia).
  destruct (pad_halves _ Hq) as (Hl & Hr & _).
  rewrite (new_zeros_nonneg _ _ Hl). cbn.
  rewrite (new_zeros_nonneg _ _ Hr). reflexivity.
Qed.

(** The lengths after alignment, in each branch. *)
Lemma align_lengths audio video :
  exists audio' video',
    _AudioVideoTextDataset.align_audio_and_video zero zero_frame audio video = Ok (audio', video') /\
    ((0 <= video_padding audio video /\ audio' = audio /\
      shape0 video' = shape0 audio / 640 + 1) \/
     (video_padding audio video < 0 /\ video' = video /\
      shape0 audio' = (shape0 video - 1) * 640)).
Proof.
  destruct (Z.le_gt_cases 0 (video_padding audio video)) as [Hp | Hp].
  - eexists _, _. split; [apply align_video_branch, Hp |].
    left. repeat split; [assumption |].
    destruct (pad_halves _ Hp) as (Hl & Hr & Hsum & _).
    rewrite shape0_cat3, !shape0_replicate by assumption.
    unfold video_padding in *. lia.
  - eexists _, _. split; [apply align_audio_branch, Hp |].
    right. repeat split; [assumption |].
    pose proof (audio_padding_pos _ _ Hp) as Hq.
    destruct (pad_halves (audio_padding audio video)) as (Hl & Hr & Hsum & _);
      [lia |].
    rewrite shape0_cat3, !shape0_replicate by assumption.
    unfold audio_padding in *. lia.
Qed.
End AlignFacts.

(** C1. For every audio signal and every video signal (in particular every
    one with at least one frame), both classes' [align_audio_and_video]
    return, and the lengths Ta' and Tv' of what they return satisfy
    Tv' = Ta' // 640 + 1, whichever modality was padded. *)
Theorem align_frame_count_invariant {A F : Type} (zero : A) (zero_frame : F)
    (audio : list A) (video : list F) :
  (exists audio' video',
     _AudioVideoTextDataset.align_audio_and_video zero zero_frame audio video
       = Ok (audio', video') /\
     shape0 video' = shape0 audio' / 640 + 1) /\
  (exists audio' video',
     _TarredAudioAndVideoToTextDataset.align_audio_and_video zero zero_frame audio video
       = Ok (audio', video') /\
     shape0 video' = shape0 audio' / 640 + 1).
Proof.
  assert (exists audio' video',
     _AudioVideoTextDataset.align_audio_and_video zero zero_frame audio video
       = Ok (audio', video') /\
     shape0 video' = shape0 audio' / 640 + 1) as Hgoal.
  { destruct (align_lengths zero zero_frame audio video)
      as (audio' & video' & Heq & [(Hp & Ha & Hv) | (Hp & Hv & Ha)]);
      exists audio', video'; (split; [exact Heq |]).
    - rewrite Ha. exact Hv.
    - rewrite Ha, Hv. rewrite Z.div_mul by lia. lia. }
  split; [| setoid_rewrite align_audio_and_video_same]; exact Hgoal.
Qed.

(** C2, as the specification states it, fails: 640 audio samples and one
    video frame enter the video branch and leave it with 2 frames, while
    ceil(640 / 640) = 1. *)
Lemma align_video_count_is_not_ceil :
  0 <= video_padding (replicate 640 0) [tt] /\
  exists video',
    _AudioVideoTextDataset.align_audio_and_video 0 tt (replicate 640 0) [tt]
      = Ok (replicate 640 0, video') /\
    shape0 video' = 2 /\
    ceil_div (shape0 (replicate 640 0)) 640 = 1 /\
    shape0 video' <> ceil_div (shape0 (replicate 640 0)) 640.
Proof.
  split; [vm_compute; discriminate |].
  eexists. split; [vm_compute; reflexivity |].
  vm_compute. repeat split; discriminate.
Qed.

(** C2, amended. In the video branch (Ta // 640 + 1 - Tv >= 0) the audio is
    returned as it is and the video has Ta // 640 + 1 frames afterwards; that is
    ceil(Ta / 640) when 640 does not divide Ta, and ceil(Ta / 640) + 1 when it
    does.  Otherwise the video is returned as it is and the audio is extended,
    to (Tv - 1) * 640 samples, more than it had. *)
Theorem align_video_count_or_audio_extended {A F : Type} (zero : A) (zero_frame : F)
    (audio : list A) (video : list F) :
  (0 <= video_padding audio video ->
   exists video',
     _AudioVideoTextDataset.align_audio_and_video zero zero_frame audio video
       = Ok (audio, video') /\
     shape0 video' = shape0 audio / 640 + 1 /\
     (shape0 audio mod 640 <> 0 -> shape0 video' = ceil_div (shape0 audio) 640) /\
     (shape0 audio mod 640 = 0 -> shape0 video' = ceil_div (shape0 audio) 640 + 1)) /\
  (video_padding audio video < 0 ->
   exists audio',
     _AudioVideoTextDataset.align_audio_and_video zero zero_frame audio video
       = Ok (audio', video) /\
     shape0 audio' = (shape0 video - 1) * 640 /\
     shape0 audio < shape0 audio').
Proof.
  destruct (align_lengths zero zero_frame audio video)
    as (audio' & video' & Heq & [(Hp & -> & Hv) | (Hp & -> & Ha)]).
  - split; [intros _ | lia].
    exists video'. split; [exact Heq |]. split; [exact Hv |].
    rewrite Hv. unfold ceil_div.
    split; intros Hmod; Z.to_euclidean_division_equations; lia.
  - split; [lia | intros _].
    exists audio'. split; [exact Heq |]. split; [exact Ha |].
    rewrite Ha. pose proof (audio_padding_pos audio video Hp) as Hq.
    unfold audio_padding in Hq. lia.
Qed.

Lemma align_video_count_or_audio_extended_witness :
  (exists video',
     _AudioVideoTextDataset.align_audio_and_video 0 tt [5; 6; 7] [tt]
       = Ok ([5; 6; 7], video') /\
     shape0 video' = shape0 [5; 6; 7] / 640 + 1 /\
     (shape0 [5; 6; 7] mod 640 <> 0 -> shape0 video' = ceil_div (shape0 [5; 6; 7]) 640) /\
     (shape0 [5; 6; 7] mod 640 = 0 -> shape0 video' = ceil_div (shape0 [5; 6; 7]) 640 + 1)) /\
  (exists audio',
     _AudioVideoTextDataset.align_audio_and_video 0 tt [5; 6; 7] [tt; tt; tt]
       = Ok (audio', [tt; tt; tt]) /\
     shape0 audio' = (shape0 [tt; tt; tt] - 1) * 640 /\
     shape0 [5; 6; 7] < shape0 audio').
Proof.
  split.
  - apply (proj1 (align_video_count_or_audio_extended 0 tt [5; 6; 7] [tt])).
    vm_compute. discriminate.
  - apply (proj2 (align_video_count_or_audio_extended 0 tt [5; 6; 7] [tt; tt; tt])).
    vm_compute. reflexivity.
Defined.

Lemma split_floor_ceil_halves (p : Z) :
  0 <= p -> split_floor_ceil p (p / 2) (p / 2 + p mod 2).
Proof.
  intros Hp. unfold split_floor_ceil, ceil_div.
  rewrite <- Z.negb_even, Bool.negb_true_iff.
  rewrite Zeven_mod, Z.eqb_neq.
  Z.to_euclidean_division_equations. lia.
Qed.

(** C3. Whenever [align_audio_and_video] pads a modality by a total of
    p >= 0 entries (the video by p = Ta // 640 + 1 - Tv in the video branch,
    the audio by p = (Tv - 1) * 640 - Ta in the audio branch), it puts
    floor(p / 2) zero entries before the signal and ceil(p / 2) after it: the
    two add up to p, differ by at most one, and differ exactly when p is
    odd. *)
Theorem align_pad_split_floor_ceil {A F : Type} (zero : A) (zero_frame : F)
    (audio : list A) (video : list F) :
  (0 <= video_padding audio video ->
   exists left right : Z,
     split_floor_ceil (video_padding audio video) left right /\
     _AudioVideoTextDataset.align_audio_and_video zero zero_frame audio video
       = Ok (audio,
             replicate (Z.to_nat left) zero_frame ++ video
               ++ replicate (Z.to_nat right) zero_frame)) /\
  (video_padding audio video < 0 ->
   0 <= audio_padding audio video /\
   exists left right : Z,
     split_floor_ceil (audio_padding audio video) left right /\
     _AudioVideoTextDataset.align_audio_and_video zero zero_frame audio video
       = Ok (replicate (Z.to_nat left) zero ++ audio
               ++ replicate (Z.to_nat right) zero,
             video)).
Proof.
  split; intros Hp.
  - eexists _, _. split; [apply split_floor_ceil_halves, Hp |].
    apply align_video_branch, Hp.
  - pose proof (audio_padding_pos audio video Hp) as Hq.
    split; [lia |].
    eexists _, _. split; [apply split_floor_ceil_halves; lia |].
    apply align_audio_branch, Hp.
Qed.

Lemma align_pad_split_floor_ceil_witness :
  (exists left right : Z,
     split_floor_ceil (video_padding [5; 6; 7] (@nil unit)) left right /\
     _AudioVideoTextDataset.align_audio_and_video 0 tt [5; 6; 7] []
       = Ok ([5; 6; 7],
             replicate (Z.to_nat left) tt ++ []
               ++ replicate (Z.to_nat right) tt)) /\
  (0 <= audio_padding [5; 6; 7] [tt; tt] /\
   exists left right : Z,
     split_floor_ceil (audio_padding [5; 6; 7] [tt; tt]) left right /\
     _AudioVideoTextDataset.align_audio_and_video 0 tt [5; 6; 7] [tt; tt]
       = Ok (replicate (Z.to_nat left) 0 ++ [5; 6; 7]
               ++ replicate (Z.to_nat right) 0,
             [tt; tt])).
Proof.
  split.
  - apply (proj1 (align_pad_split_floor_ceil 0 tt [5; 6; 7] [])).
    vm_compute. discriminate.
  - apply (proj2 (align_pad_split_floor_ceil 0 tt [5; 6; 7] [tt; tt])).
    vm_compute. reflexivity.
Defined.

(** C4. [align_audio_and_video] changes at most one modality.  When
    Ta // 640 + 1 >= Tv the video is returned between two runs of zero frames
    and the audio is returned as it was given; otherwise the audio is returned
    between two runs of zero samples and the video as it was given. *)
Theorem align_pads_one_modality {A F : Type} (zero : A) (zero_frame : F)
    (audio : list A) (video : list F) :
  (shape0 video <= shape0 audio / 640 + 1 ->
   exists left right : nat,
     _AudioVideoTextDataset.align_audio_and_video zero zero_frame audio video
       = Ok (audio,
             replicate left zero_frame ++ video ++ replicate right zero_frame)) /\
  (shape0 audio / 640 + 1 < shape0 video ->
   exists left right : nat,
     _AudioVideoTextDataset.align_audio_and_video zero zero_frame audio video
       = Ok (replicate left zero ++ audio ++ replicate right zero, video)).
Proof.
  split; intros Hp.
  - eexists _, _. apply align_video_branch. unfold video_padding. lia.
  - eexists _, _. apply align_audio_branch. unfold video_padding. lia.
Qed.

Lemma align_pads_one_modality_witness :
  (exists left right : nat,
     _AudioVideoTextDataset.align_audio_and_video 0 tt [5; 6; 7] []
       = Ok ([5; 6; 7], replicate left tt ++ [] ++ replicate right tt)) /\
  (exists left right : nat,
     _AudioVideoTextDataset.align_audio_and_video 0 tt [5; 6; 7] [tt; tt]
       = Ok (replicate left 0 ++ [5; 6; 7] ++ replicate right 0, [tt; tt])).
Proof.
  split.
  - apply (proj1 (align_pads_one_modality 0 tt [5; 6; 7] [])).
    vm_compute. discriminate.
  - apply (proj2 (align_pads_one_modality 0 tt [5; 6; 7] [tt; tt])).
    vm_compute. reflexivity.
Defined.

(** ** The tarred dataset's iterator stages *)

Section StageFacts.
Context {AudioBytes VideoBytes : Type}.
Abbreviation item := (AudioBytes * VideoBytes * string)%type.
Implicit Types (collection : Collection) (items : list item).

(** One call of [next] in [drain]. *)
Lemma drain_S {S V : Type} `{PyIterator S V} (fuel : nat) (s : S) :
  drain (Datatypes.S fuel) s
  = match py_next s with
    | Ok (v, s') => let '(vs, e) := drain fuel s' in (v :: vs, e)
    | Raise e => ([], Some e)
    end.
Proof. reflexivity. Qed.

Lemma filter_next_cons_kept collection (x : item) items :
  in_manifest collection x ->
  TarredAudioFilter.__next__ (_filter collection (x :: items))
  = Ok (x, _filter collection items).
Proof.
  intros Hx. destruct x as [[a v] fn].
  unfold TarredAudioFilter.__next__, _filter. cbn.
  destruct (decide _) as [_ | Hn]; [reflexivity | contradiction].
Qed.

Lemma filter_next_cons_dropped collection (x : item) items :
  ~ in_manifest collection x ->
  TarredAudioFilter.__next__ (_filter collection (x :: items))
  = TarredAudioFilter.__next__ (_filter collection items).
Proof.
  intros Hx. destruct x as [[a v] fn].
  unfold TarredAudioFilter.__next__, _filter. cbn.
  destruct (decide _) as [Hy | _]; [contradiction | reflexivity].
Qed.

(** C6. Whatever the upstream stream yields, the [_filter] stage yields the
    items whose file id (base name, extension stripped) is a key of the
    collection's mapping, in their upstream order, drops the others, and ends
    with [StopIteration] when the upstream ends: it raises nothing else. *)
Theorem filter_emits_manifest_items collection items (extra : nat) :
  drain (S (length items) + extra) (_filter collection items)
  = (filter (fun x => is_Some (mapping collection !! file_id_of x.2)) items,
     Some StopIteration).
Proof.
  revert extra. induction items as [| x items IH]; intros extra; [reflexivity |].
  change (S (length (x :: items)) + extra)%nat
    with (S (S (length items) + extra)).
  rewrite drain_S. unfold py_next at 1, TarredAudioFilter.filter_iterator.
  destruct (decide (in_manifest collection x)) as [Hx | Hx].
  - rewrite (filter_next_cons_kept _ _ _ Hx), filter_cons_True by exact Hx.
    rewrite IH. reflexivity.
  - rewrite (filter_next_cons_dropped _ _ _ Hx), filter_cons_False by exact Hx.
    specialize (IH (S extra)).
    replace (S (length items) + S extra)%nat
      with (S (S (length items) + extra)) in IH by lia.
    rewrite drain_S in IH. exact IH.
Qed.

Lemma loop_next_at_last_offset {I : Type} `{PyIterator I item}
    collection (iterator : I) current offset_id :
  at_last_offset collection current offset_id ->
  TarredAudioLoopOffsets.__next__
    (TarredAudioLoopOffsets.Build iterator collection current offset_id)
  = TarredAudioLoopOffsets.advance
      (TarredAudioLoopOffsets.Build iterator collection current offset_id).
Proof.
  intros Hlast. unfold TarredAudioLoopOffsets.__next__. cbn.
  destruct current as [[[a v] fn] |]; [| reflexivity].
  destruct Hlast as (l & Hl & Hlen). cbn in Hl. rewrite Hl, Hlen.
  rewrite Nat.eqb_refl. reflexivity.
Qed.

(** Inside a file: the offset index is stepped and the stream is left
    alone. *)
Lemma loop_next_inside {I : Type} `{PyIterator I item}
    collection (iterator : I) (x : item) offset_list offset_id :
  mapping collection !! x.2 = Some offset_list ->
  length offset_list <> (offset_id + 1)%nat ->
  TarredAudioLoopOffsets.__next__
    (TarredAudioLoopOffsets.Build iterator collection (Some x) offset_id)
  = Ok ((x, (offset_id + 1)%nat),
        TarredAudioLoopOffsets.Build iterator collection (Some x) (offset_id + 1)).
Proof.
  intros Hl Hlen. unfold TarredAudioLoopOffsets.__next__. cbn.
  destruct x as [[a v] fn]. cbn in Hl. rewrite Hl.
  destruct (Nat.eqb_spec (length offset_list) (offset_id + 1)); [lia | reflexivity].
Qed.

Lemma drain_inside {I : Type} `{PyIterator I item}
    collection (iterator : I) (x : item) offset_list :
  mapping collection !! x.2 = Some offset_list ->
  forall n offset_id fuel,
    (offset_id + n + 1 = length offset_list)%nat ->
    drain (n + fuel)
      (TarredAudioLoopOffsets.Build iterator collection (Some x) offset_id)
    = let '(vs, e) :=
        drain fuel
          (TarredAudioLoopOffsets.Build iterator collection (Some x) (offset_id + n)) in
      (map (fun i => (x, i)) (seq (S offset_id) n) ++ vs, e).
Proof.
  intros Hl. induction n as [| n IH]; intros offset_id fuel Hlen.
  - cbn. rewrite Nat.add_0_r. destruct (drain fuel _). reflexivity.
  - cbn [Nat.add drain]. unfold py_next at 1, TarredAudioLoopOffsets.loop_iterator.
    rewrite (loop_next_inside _ _ _ _ _ Hl) by lia.
    rewrite IH by lia.
    replace (offset_id + 1 + n)%nat with (offset_id + S n)%nat by lia.
    replace (offset_id + 1)%nat with (S offset_id) by lia.
    destruct (drain fuel _). reflexivity.
Qed.

(** When every kept item's name is its own file id, and no file has an empty
    offset list, the two stages together yield one output per manifest offset
    of each kept item, item after item, and end with the upstream. *)
Lemma drain_loop_offsets collection :
  (forall k l, mapping collection !! k = Some l -> l <> []) ->
  forall items,
    Forall (fun x : item => file_id_of x.2 = x.2) items ->
    forall current offset_id fuel,
      at_last_offset collection current offset_id ->
      (length (flat_map (one_per_offset collection)
                 (filter (in_manifest collection) items)) < fuel)%nat ->
      drain fuel
        (TarredAudioLoopOffsets.Build (_filter collection items) collection
           current offset_id)
      = (flat_map (one_per_offset collection)
           (filter (in_manifest collection) items),
         Some StopIteration).
Proof.
  intros Hne. induction items as [| x items IH];
    intros Hid current offset_id [| fuel] Hlast Hfuel; try (cbn in Hfuel; lia).
  - cbn [drain]. unfold py_next, TarredAudioLoopOffsets.loop_iterator.
    rewrite loop_next_at_last_offset by assumption. reflexivity.
  - apply Forall_cons in Hid as [Hx Hid].
    destruct (decide (in_manifest collection x)) as [Hin | Hout].
    + rewrite filter_cons_True in Hfuel |- * by assumption.
      cbn [flat_map] in Hfuel |- *. rewrite length_app in Hfuel.
      destruct Hin as [l Hl].
      assert (Hraw : mapping collection !! x.2 = Some l) by (rewrite <- Hx; exact Hl).
      unfold one_per_offset at 1 in Hfuel. unfold one_per_offset at 1.
      unfold offsets_of in Hfuel |- *. rewrite Hl in Hfuel |- *. cbn [default] in Hfuel |- *.
      rewrite length_map, length_seq in Hfuel.
      destruct l as [| i l']; [exfalso; eapply Hne; eauto |].
      unfold id in Hfuel |- *. cbn [length] in Hfuel |- *.
      cbn [drain]. unfold py_next at 1, TarredAudioLoopOffsets.loop_iterator.
      rewrite loop_next_at_last_offset by assumption.
      unfold TarredAudioLoopOffsets.advance. cbn [TarredAudioLoopOffsets.iterator].
      unfold py_next at 1, TarredAudioFilter.filter_iterator.
      rewrite filter_next_cons_kept by (exists (i :: l'); exact Hl).
      cbn [mbind result_bind TarredAudioLoopOffsets.collection].
      replace fuel with (length l' + (fuel - length l'))%nat by lia.
      rewrite (drain_inside _ _ _ _ Hraw) by (cbn; lia).
      rewrite IH; [reflexivity | assumption | | lia].
      exists (i :: l'). split; [exact Hraw | cbn; lia].
    + rewrite filter_cons_False in Hfuel |- * by assumption.
      specialize (IH Hid current offset_id (S fuel) Hlast Hfuel).
      cbn [drain] in IH |- *.
      unfold py_next at 1, TarredAudioLoopOffsets.loop_iterator in IH.
      unfold py_next at 1, TarredAudioLoopOffsets.loop_iterator.
      rewrite loop_next_at_last_offset in IH |- * by assumption.
      unfold TarredAudioLoopOffsets.advance in IH |- *.
      cbn [TarredAudioLoopOffsets.iterator] in IH |- *.
      unfold py_next at 1, TarredAudioFilter.filter_iterator in IH.
      unfold py_next at 1, TarredAudioFilter.filter_iterator.
      rewrite filter_next_cons_dropped by assumption. exact IH.
Qed.
End StageFacts.

(** [_build_sample] reads the manifest index at the offset it is handed. *)
Lemma build_sample_manifest_idx {AudioBytes VideoBytes : Type} collection
    (x : AudioBytes * VideoBytes * string) (offset_id : nat) offsets manifest_idx :
  mapping collection !! file_id_of x.2 = Some offsets ->
  offsets !! offset_id = Some manifest_idx ->
  _build_sample_manifest_idx collection (x, offset_id) = Ok manifest_idx.
Proof.
  intros Hl Hi. destruct x as [[a v] fn]. cbn in Hl |- *.
  rewrite Hl, Hi. reflexivity.
Qed.

(** A kept item whose name is not itself a key of the mapping is yielded once,
    with offset 0; the next call looks the name up and raises [KeyError]. *)
Lemma loop_offsets_name_not_a_key {AudioBytes VideoBytes : Type} collection
    (x : AudioBytes * VideoBytes * string) items (fuel : nat) :
  in_manifest collection x ->
  mapping collection !! x.2 = None ->
  drain (2 + fuel) (_loop_offsets collection (_filter collection (x :: items)))
  = ([(x, 0%nat)], Some (KeyError x.2)).
Proof.
  intros Hin Hraw. cbn [Nat.add drain].
  unfold py_next at 1, TarredAudioLoopOffsets.loop_iterator.
  unfold _loop_offsets, TarredAudioLoopOffsets.__next__, TarredAudioLoopOffsets.advance.
  cbn [TarredAudioLoopOffsets.current TarredAudioLoopOffsets.iterator].
  unfold py_next at 1, TarredAudioFilter.filter_iterator.
  rewrite filter_next_cons_kept by assumption.
  cbn [mbind result_bind]. unfold py_next, TarredAudioLoopOffsets.loop_iterator.
  unfold TarredAudioLoopOffsets.__next__.
  cbn [TarredAudioLoopOffsets.current TarredAudioLoopOffsets.collection].
  destruct x as [[a v] fn]. cbn in Hraw. rewrite Hraw. reflexivity.
Qed.

(** C5 at a shard whose members sit in a directory.  The mapping sends file id
    a to two manifest offsets and b to one; the stream holds dir/a and dir/b.
    [_filter] keeps both items, [_loop_offsets] yields dir/a once with offset 0
    and then raises [KeyError], where the specification expects the offsets 0
    and 1 of dir/a followed by offset 0 of dir/b.  From a flat shard (names a
    and b) the same mapping gives exactly those three outputs. *)
Theorem loop_offsets_directory_names :
  let collection :=
    Build_Collection {[ "a"%string := [0; 1]%nat; "b"%string := [2]%nat ]} in
  let nested := [(1, 10, "dir/a"%string); (2, 20, "dir/b"%string)] in
  let flat := [(1, 10, "a"%string); (2, 20, "b"%string)] in
  drain 8 (_filter collection nested) = (nested, Some StopIteration) /\
  map (offsets_of collection) nested = [[0; 1]; [2]]%nat /\
  drain 8 (_loop_offsets collection (_filter collection nested))
  = ([(1, 10, "dir/a"%string, 0%nat)], Some (KeyError "dir/a")) /\
  flat_map (one_per_offset collection) nested
  = [(1, 10, "dir/a"%string, 0%nat); (1, 10, "dir/a"%string, 1%nat);
     (2, 20, "dir/b"%string, 0%nat)] /\
  drain 8 (_loop_offsets collection (_filter collection flat))
  = ([(1, 10, "a"%string, 0%nat); (1, 10, "a"%string, 1%nat);
      (2, 20, "b"%string, 0%nat)], Some StopIteration).
Proof. vm_compute. repeat split; reflexivity. Qed.

(** ** Batch collation *)

Lemma bind_Ok {T U : Type} (r : result T) (k : T -> result U) (v : U) :
  r ≫= k = Ok v -> exists x, r = Ok x /\ k x = Ok v.
Proof. destruct r as [x | e]; cbn; [eauto | discriminate]. Qed.

Lemma bind_Raise {T U : Type} (r : result T) (k : T -> result U) (e : exn) :
  r ≫= k = Raise e -> r = Raise e \/ exists x, r = Ok x /\ k x = Raise e.
Proof. destruct r as [x | e']; cbn; [eauto | intros [= ->]; auto]. Qed.

Lemma foldl_max_step (z : Z) (zs : list Z) :
  foldl max_step (Ok (Some z)) (Some <$> zs) = Ok (Some (foldl Z.max z zs)).
Proof.
  revert z. induction zs as [| x zs IH]; intros z; [reflexivity |].
  cbn [fmap list_fmap foldl].
  assert (max_step (Ok (Some z)) (Some x) = Ok (Some (Z.max z x))) as ->.
  { cbn. destruct (Z.ltb_spec z x); do 2 f_equal; lia. }
  apply IH.
Qed.

Lemma foldl_max_is_max (z : Z) (zs : list Z) :
  is_max (foldl Z.max z zs) (z :: zs).
Proof.
  revert z. induction zs as [| x zs IH]; intros z.
  - split; [apply list_elem_of_here |].
    apply Forall_cons; split; [cbn; lia | apply Forall_nil_2].
  - cbn [foldl]. destruct (IH (Z.max z x)) as [Hin Hle]. split.
    + apply elem_of_cons in Hin as [Heq | Hin].
      * rewrite Heq. destruct (Z.max_spec z x) as [[_ ->] | [_ ->]].
        -- apply list_elem_of_further, list_elem_of_here.
        -- apply list_elem_of_here.
      * do 2 apply list_elem_of_further. exact Hin.
    + apply Forall_cons in Hle as [Hm Hle].
      apply Forall_cons; split; [lia |].
      apply Forall_cons; split; [lia | exact Hle].
Qed.

(** A successful [max(lengths).item()] had only present lengths. *)
Lemma foldl_max_step_Ok (lengths : list (option Z)) (c : result (option Z)) (m : option Z) :
  foldl max_step c lengths = Ok m ->
  lengths = [] \/ exists z zs, c = Ok (Some z) /\ lengths = Some <$> zs.
Proof.
  revert c. induction lengths as [| x lengths IH]; intros c Hm; [left; reflexivity |].
  right. cbn [foldl] in Hm.
  destruct c as [[z |] | e].
  - destruct x as [n |].
    + destruct (IH _ Hm) as [-> | (z' & zs & _ & ->)].
      * exists z, [n]. split; reflexivity.
      * exists z, (n :: zs). split; reflexivity.
    + exfalso. cbn in Hm. clear IH. induction lengths; cbn in Hm; [discriminate | auto].
  - exfalso. destruct x; cbn in Hm; clear IH;
      induction lengths; cbn in Hm; try discriminate; auto.
  - exfalso. cbn in Hm. clear IH. induction lengths; cbn in Hm; [discriminate | auto].
Qed.

Lemma max_item_Ok (lengths : list (option Z)) (m : Z) :
  max_item lengths = Ok m ->
  exists zs, lengths = Some <$> zs /\ zs <> [] /\ is_max m zs.
Proof.
  destruct lengths as [| x rest]; [discriminate |]. cbn [max_item].
  intros Hm. apply bind_Ok in Hm as (o & Hfold & Hitem).
  destruct o as [n |]; [| discriminate]. injection Hitem as ->.
  destruct (foldl_max_step_Ok _ _ _ Hfold) as [-> | (z & zs & [= ->] & ->)].
  - cbn in Hfold. injection Hfold as ->. exists [m].
    split; [reflexivity |]. split; [discriminate |].
    apply (foldl_max_is_max m []).
  - exists (z :: zs). split; [reflexivity |]. split; [discriminate |].
    rewrite foldl_max_step in Hfold. injection Hfold as <-.
    apply foldl_max_is_max.
Qed.

(** [max(lengths).item()] raises no [ValueError] on a sequence that is not
    empty. *)
Lemma foldl_max_step_Raise (lengths : list (option Z)) (c : result (option Z)) (e : exn) :
  foldl max_step c lengths = Raise e -> c = Raise e \/ e = TypeError.
Proof.
  revert c. induction lengths as [| x lengths IH]; intros c Hm; [left; exact Hm |].
  cbn [foldl] in Hm. destruct (IH _ Hm) as [Hstep | ->]; [| right; reflexivity].
  destruct c as [[z |] | e']; cbn in Hstep.
  - destruct x; [discriminate | injection Hstep as <-; right; reflexivity].
  - destruct x; injection Hstep as <-; right; reflexivity.
  - left. exact Hstep.
Qed.

Lemma max_item_Raise (lengths : list (option Z)) (e : exn) :
  lengths <> [] -> max_item lengths = Raise e -> e = TypeError \/ e = AttributeError.
Proof.
  destruct lengths as [| x rest]; [congruence | intros _]. cbn [max_item].
  intros Hm. apply bind_Raise in Hm as [Hfold | (o & _ & Hitem)].
  - apply foldl_max_step_Raise in Hfold as [[=] | ->]. left. reflexivity.
  - destruct o; [discriminate | injection Hitem as <-]. right. reflexivity.
Qed.

Lemma all_tensors_present {X : Type} (xs : list X) :
  all_tensors (Some <$> xs) = Ok xs.
Proof.
  unfold all_tensors.
  assert (mapM id (Some <$> xs) = Some xs) as ->; [| reflexivity].
  induction xs as [| x xs IH]; [reflexivity |].
  cbn. rewrite IH. reflexivity.
Qed.

Lemma all_tensors_Ok {X : Type} (xs : list (option X)) (l : list X) :
  all_tensors xs = Ok l -> xs = Some <$> l.
Proof.
  unfold all_tensors. destruct (mapM id xs) as [l' |] eqn:Hm; [| discriminate].
  intros [= ->]. apply mapM_Some in Hm.
  induction Hm as [| x y xs l Hxy _ IH]; [reflexivity |].
  cbn in Hxy |- *. rewrite Hxy, IH. reflexivity.
Qed.

Lemma all_tensors_Raise {X : Type} (xs : list (option X)) (e : exn) :
  all_tensors xs = Raise e -> e = TypeError.
Proof. unfold all_tensors. destruct (mapM id xs); [discriminate | congruence]. Qed.

(** [torch.stack] succeeds on tensors of one length, and its rows are the
    tensors it was given. *)
Lemma stack_same_length {X : Type} (rows : list (list X)) (n : Z) :
  rows <> [] -> Forall (fun r => shape0 r = n) rows ->
  stack (Some <$> rows) = Ok rows.
Proof.
  intros Hne Hlen. unfold stack. rewrite all_tensors_present. cbn.
  destruct rows as [| r rest]; [congruence |].
  apply Forall_cons in Hlen as [Hr Hrest].
  assert (forallb (fun r' => Nat.eqb (length r') (length r)) rest = true) as ->;
    [| reflexivity].
  apply forallb_forall. intros r' Hin. apply Nat.eqb_eq.
  rewrite Forall_forall in Hrest. apply list_elem_of_In in Hin.
  specialize (Hrest _ Hin). unfold shape0 in *. lia.
Qed.

Lemma stack_Ok {X : Type} (xs : list (option (list X))) (rows : list (list X)) :
  stack xs = Ok rows -> xs = Some <$> rows.
Proof.
  unfold stack. intros Hs. apply bind_Ok in Hs as (l & Hl & Hrows).
  apply all_tensors_Ok in Hl. destruct l as [| r rest]; [discriminate |].
  destruct (forallb _ rest); [| discriminate]. congruence.
Qed.

Lemma stack_Raise {X : Type} (xs : list (option (list X))) (e : exn) :
  stack xs = Raise e -> e = TypeError \/ e = RuntimeError.
Proof.
  unfold stack. intros Hs. apply bind_Raise in Hs as [Hl | (l & _ & Hrows)].
  - left. eapply all_tensors_Raise, Hl.
  - right. destruct l as [| r rest]; [congruence |].
    destruct (forallb _ rest); congruence.
Qed.

Lemma stack0_present (zs : list Z) : zs <> [] -> stack0 (Some <$> zs) = Ok zs.
Proof.
  intros Hne. unfold stack0. rewrite all_tensors_present. cbn.
  destruct zs; [congruence | reflexivity].
Qed.

Lemma stack0_Raise (lengths : list (option Z)) (e : exn) :
  stack0 lengths = Raise e -> e = TypeError \/ e = RuntimeError.
Proof.
  unfold stack0. intros Hs. apply bind_Raise in Hs as [Hl | (l & _ & Hrows)].
  - left. eapply all_tensors_Raise, Hl.
  - right. destruct l; congruence.
Qed.

(** [torch.stack] on videos succeeds when they have one shape
    (T, H, W, C). *)
Lemma stack_video_same_shape {F : Type} (rows : list (video_tensor F))
    (shape : nat * (Z * Z * Z)) :
  rows <> [] -> Forall (fun r => video_shape r = shape) rows ->
  stack_video (Some <$> rows) = Ok rows.
Proof.
  intros Hne Hshape. unfold stack_video. rewrite all_tensors_present. cbn.
  destruct rows as [| r rest]; [congruence |].
  apply Forall_cons in Hshape as [Hr Hrest].
  assert (forallb (fun r' => bool_decide (video_shape r' = video_shape r)) rest = true)
    as ->; [| reflexivity].
  apply forallb_forall. intros r' Hin. apply bool_decide_eq_true.
  rewrite Forall_forall in Hrest. apply list_elem_of_In in Hin.
  rewrite (Hrest _ Hin). congruence.
Qed.


Lemma stack_video_Raise {F : Type} (xs : list (option (video_tensor F))) (e : exn) :
  stack_video xs = Raise e -> e = TypeError \/ e = RuntimeError.
Proof.
  unfold stack_video. intros Hs. apply bind_Raise in Hs as [Hl | (l & _ & Hrows)].
  - left. eapply all_tensors_Raise, Hl.
  - right. destruct l as [| r rest]; [congruence |].
    destruct (forallb _ rest); congruence.
Qed.

(** The conversion of the sample ids to int32 returns them when int32 holds
    them all, and raises [RuntimeError] otherwise. *)
Lemma tensor_int32_spec (xs : list Z) :
  (Forall (fun x => -2147483648 <= x <= 2147483647) xs /\ tensor_int32 xs = Ok xs)
  \/ (~ Forall (fun x => -2147483648 <= x <= 2147483647) xs
      /\ tensor_int32 xs = Raise RuntimeError).
Proof.
  unfold tensor_int32.
  destruct (forallb (fun x => (-2147483648 <=? x) && (x <=? 2147483647)) xs) eqn:Hall.
  - left. split; [| reflexivity]. apply Forall_forall. intros x Hin.
    rewrite forallb_forall in Hall. apply list_elem_of_In in Hin.
    specialize (Hall _ Hin). lia.
  - right. split; [| reflexivity]. intros Hfit.
    assert (forallb (fun x => (-2147483648 <=? x) && (x <=? 2147483647)) xs = true)
      as Htrue; [| congruence].
    apply forallb_forall. intros x Hin. apply list_elem_of_In in Hin.
    rewrite Forall_forall in Hfit. specialize (Hfit _ Hin). lia.
Qed.

Lemma tensor_int32_fit (xs : list Z) :
  Forall (fun x => -2147483648 <= x <= 2147483647) xs -> tensor_int32 xs = Ok xs.
Proof.
  intros Hfit. destruct (tensor_int32_spec xs) as [[_ H] | [H _]];
    [exact H | contradiction].
Qed.

Lemma tensor_int32_Ok (xs ys : list Z) :
  tensor_int32 xs = Ok ys ->
  ys = xs /\ Forall (fun x => -2147483648 <= x <= 2147483647) xs.
Proof.
  intros H. destruct (tensor_int32_spec xs) as [[Hfit H'] | [_ H']];
    rewrite H' in H; [injection H as <-; auto | discriminate].
Qed.

Lemma tensor_int32_Raise (xs : list Z) (e : exn) :
  tensor_int32 xs = Raise e -> e = RuntimeError.
Proof.
  intros H. destruct (tensor_int32_spec xs) as [[_ H'] | [_ H']];
    rewrite H' in H; [discriminate | congruence].
Qed.

Section CollateFacts.
Context {A F : Type} (zero : A) (zero_frame_of : Z * Z * Z -> F).
Implicit Types (b : @sample A F) (batch : list (@sample A F)).
Implicit Types (f : @fields A F) (frs : list (@fields A F * list Z)).

(** [zip] stops at the shortest tuple. *)
Lemma len_packed_batch_le batch b :
  b ∈ batch -> (len_packed_batch batch <= tuple_len b)%nat.
Proof.
  destruct batch as [| b0 rest]; [intros Hin; inversion Hin |].
  cbn [len_packed_batch]. intros Hin.
  assert (foldr (fun b' n => Nat.min (tuple_len b') n) (tuple_len b0) rest
          <= tuple_len b0)%nat as H0.
  { clear. induction rest as [| b1 rest IH]; cbn; lia. }
  apply elem_of_cons in Hin as [-> | Hin]; [exact H0 |].
  clear H0. induction rest as [| b1 rest IH]; [inversion Hin |].
  cbn. apply elem_of_cons in Hin as [-> | Hin]; [lia |].
  specialize (IH Hin). lia.
Qed.

Lemma len_packed_batch_attained batch :
  batch <> [] -> exists b, b ∈ batch /\ len_packed_batch batch = tuple_len b.
Proof.
  destruct batch as [| b0 rest]; [congruence | intros _].
  cbn [len_packed_batch]. induction rest as [| b1 rest IH].
  - exists b0. split; [apply list_elem_of_here | reflexivity].
  - destruct IH as (b & Hin & Heq). cbn [foldr]. rewrite Heq.
    destruct (Nat.min_spec (tuple_len b1) (tuple_len b)) as [[_ ->] | [_ ->]].
    + exists b1. split; [apply list_elem_of_further, list_elem_of_here | reflexivity].
    + exists b. split; [| reflexivity].
      apply elem_of_cons in Hin as [-> | Hin];
        [apply list_elem_of_here | do 2 apply list_elem_of_further; exact Hin].
Qed.

(** A batch of 6- or 7-element samples zips into 6 or 7 sequences. *)
Lemma len_packed_batch_6_or_7 batch :
  batch <> [] ->
  Forall (fun b => tuple_len b = 6%nat \/ tuple_len b = 7%nat) batch ->
  len_packed_batch batch = 6%nat \/ len_packed_batch batch = 7%nat.
Proof.
  intros Hne Hall. destruct (len_packed_batch_attained _ Hne) as (b & Hin & ->).
  rewrite Forall_forall in Hall. auto.
Qed.

Lemma tuple_len_ge_6 b :
  (6 <= tuple_len b)%nat -> exists f rest, b = Tuple f rest.
Proof.
  destruct b as [f rest | n]; [eauto |].
  cbn. pose proof (fin_to_nat_lt n). lia.
Qed.

Lemma batch_is_tuples batch :
  Forall (fun b => (6 <= tuple_len b)%nat) batch -> exists frs, batch = tuples frs.
Proof.
  induction 1 as [| b batch Hb _ (frs & ->)]; [exists []; reflexivity |].
  destruct (tuple_len_ge_6 _ Hb) as (f & rest & ->).
  exists ((f, rest) :: frs). reflexivity.
Qed.

Lemma len_packed_batch_tuples batch :
  (6 <= len_packed_batch batch)%nat -> exists frs, batch = tuples frs /\ frs <> [].
Proof.
  intros Hlen. destruct batch as [| b0 rest]; [cbn in Hlen; lia |].
  destruct (batch_is_tuples (b0 :: rest)) as (frs & Heq).
  - apply Forall_forall. intros b Hin.
    pose proof (len_packed_batch_le _ _ Hin). lia.
  - exists frs. split; [exact Heq |]. intros ->. discriminate.
Qed.

Lemma column_tuples {X : Type} (proj : @fields A F -> X) frs :
  column proj (tuples frs) = (fun fr => proj fr.1) <$> frs.
Proof.
  unfold column, tuples. induction frs as [| fr frs IH]; [reflexivity |].
  cbn. f_equal. exact IH.
Qed.
End CollateFacts.

Lemma list_max_is_max (zs : list Z) : zs <> [] -> is_max (list_max zs) zs.
Proof. destruct zs as [| z zs]; [congruence | intros _; apply foldl_max_is_max]. Qed.

Lemma max_item_list_max (zs : list Z) :
  zs <> [] -> max_item (Some <$> zs) = Ok (list_max zs).
Proof.
  destruct zs as [| z zs]; [congruence | intros _].
  cbn. rewrite foldl_max_step. reflexivity.
Qed.

Lemma shape0_pad_end {X : Type} (fill : X) (m : Z) (x : list X) :
  shape0 x <= m -> shape0 (pad_end fill m x) = m.
Proof.
  intros Hle. unfold pad_end, shape0 in *.
  rewrite length_app, length_replicate. lia.
Qed.

Section CollateLoopFacts.
Context {A F : Type} (zero : A) (zero_frame_of : Z * Z * Z -> F).
Implicit Types (b : @sample A F) (batch : list (@sample A F)).
Implicit Types (f : @fields A F) (frs : list (@fields A F * list Z)).

Lemma unpack_6_or_7 f (rest : list Z) :
  (length rest <= 1)%nat -> unpack (Tuple f rest) = Ok f.
Proof. destruct rest as [| i [| j rest]]; cbn; [reflexivity | reflexivity | lia]. Qed.

Lemma unpack_Ok b f : unpack b = Ok f -> exists rest, b = Tuple f rest.
Proof.
  destruct b as [f' [| i [| j rest]] | n]; cbn; intros [= ->]; eauto.
Qed.

(** The token row the loop appends is the one the specification describes. *)
Lemma token_row_code (pad_id max_tokens_len : Z) f :
  (if tokens_i_len f <? max_tokens_len
   then tokens_i f ++ replicate (Z.to_nat (max_tokens_len - tokens_i_len f)) pad_id
   else tokens_i f)
  = token_row pad_id max_tokens_len f.
Proof.
  unfold token_row. destruct (Z.ltb_spec (tokens_i_len f) max_tokens_len); [reflexivity |].
  replace (Z.to_nat (max_tokens_len - tokens_i_len f)) with 0%nat by lia.
  cbn. rewrite app_nil_r. reflexivity.
Qed.

Lemma pad_end_code {X : Type} (fill : X) (m : Z) (x : list X) :
  (if shape0 x <? m then F_pad (Some x) (m - shape0 x) fill else Ok (Some x))
  = Ok (Some (pad_end fill m x)).
Proof.
  unfold pad_end. destruct (Z.ltb_spec (shape0 x) m); [reflexivity |].
  replace (Z.to_nat (m - shape0 x)) with 0%nat by lia.
  cbn. rewrite app_nil_r. reflexivity.
Qed.

Lemma pad_video_code (m : Z) (v : video_tensor F) :
  (if shape0 (frames v) <? m
   then F_pad_video zero_frame_of (Some v) (m - shape0 (frames v))
   else Ok (Some v))
  = Ok (Some (pad_video zero_frame_of m v)).
Proof.
  unfold pad_video, pad_end. destruct (Z.ltb_spec (shape0 (frames v)) m);
    [reflexivity |].
  replace (Z.to_nat (m - shape0 (frames v))) with 0%nat by lia.
  cbn. rewrite app_nil_r. destruct v. reflexivity.
Qed.

Lemma collate_body_matching (has_audio has_video : bool)
    (max_audio_len max_video_len max_tokens_len pad_id : Z) f (rest : list Z) :
  (length rest <= 1)%nat ->
  (has_audio = true -> audio_matches f) ->
  (has_video = true -> video_matches f) ->
  collate_body zero zero_frame_of has_audio max_audio_len has_video max_video_len
    max_tokens_len pad_id (Tuple f rest)
  = Ok (if has_audio then [Some (pad_end zero max_audio_len (audio_of f))] else [],
        if has_video
        then [Some (pad_video zero_frame_of max_video_len (video_tensor_of f))]
        else [],
        token_row pad_id max_tokens_len f).
Proof.
  intros Hrest Ha Hv. unfold collate_body.
  rewrite unpack_6_or_7 by assumption. cbn [mbind result_bind].
  rewrite token_row_code.
  destruct has_audio, has_video.
  - destruct (Ha eq_refl) as (a & Hsig & Hlen).
    destruct (Hv eq_refl) as (v & Hsigv & Hlenv).
    unfold audio_of, video_tensor_of. rewrite Hsig, Hlen, Hsigv, Hlenv.
    cbn [item mbind result_bind default from_option id].
    rewrite pad_end_code, pad_video_code. reflexivity.
  - destruct (Ha eq_refl) as (a & Hsig & Hlen).
    unfold audio_of. rewrite Hsig, Hlen.
    cbn [item mbind result_bind default from_option id].
    rewrite !pad_end_code. reflexivity.
  - destruct (Hv eq_refl) as (v & Hsigv & Hlenv).
    unfold video_tensor_of. rewrite Hsigv, Hlenv.
    cbn [item mbind result_bind default from_option id].
    rewrite pad_video_code. reflexivity.
  - reflexivity.
Qed.

Lemma collate_loop_matching (has_audio has_video : bool)
    (max_audio_len max_video_len max_tokens_len pad_id : Z) frs :
  Forall (fun fr => (length fr.2 <= 1)%nat) frs ->
  (has_audio = true -> Forall (fun fr => audio_matches fr.1) frs) ->
  (has_video = true -> Forall (fun fr => video_matches fr.1) frs) ->
  collate_loop zero zero_frame_of has_audio max_audio_len has_video max_video_len
    max_tokens_len pad_id (tuples frs)
  = Ok (if has_audio
        then Some <$> (pad_end zero max_audio_len <$> ((fun fr => audio_of fr.1) <$> frs))
        else [],
        if has_video
        then Some <$> (pad_video zero_frame_of max_video_len
                       <$> ((fun fr => video_tensor_of fr.1) <$> frs))
        else [],
        (fun fr => token_row pad_id max_tokens_len fr.1) <$> frs).
Proof.
  rewrite <- !list_fmap_compose.
  induction frs as [| [f rest] frs IH]; intros Hrest Ha Hv.
  - cbn. destruct has_audio, has_video; reflexivity.
  - apply Forall_cons in Hrest as [Hr Hrest].
    cbn [tuples fmap list_fmap collate_loop fst snd compose].
    rewrite collate_body_matching; [| exact Hr | |].
    + cbn [mbind result_bind]. unfold tuples in IH. rewrite IH; [| exact Hrest | |].
      * cbn [mbind result_bind]. destruct has_audio, has_video; reflexivity.
      * intros H. specialize (Ha H). apply Forall_cons in Ha as [_ Ha]. exact Ha.
      * intros H. specialize (Hv H). apply Forall_cons in Hv as [_ Hv]. exact Hv.
    + intros H. specialize (Ha H). apply Forall_cons in Ha as [Ha _]. exact Ha.
    + intros H. specialize (Hv H). apply Forall_cons in Hv as [Hv _]. exact Hv.
Qed.

(** Whatever the loop returns, its token rows are the padded token
    sequences of the samples, in order. *)
Lemma collate_loop_tokens (has_audio has_video : bool)
    (max_audio_len max_video_len max_tokens_len pad_id : Z) batch
    audio_signal video_signal tokens :
  collate_loop zero zero_frame_of has_audio max_audio_len has_video max_video_len
    max_tokens_len pad_id batch
  = Ok (audio_signal, video_signal, tokens) ->
  Forall2 (fun b row => exists f rest,
             b = Tuple f rest /\ row = token_row pad_id max_tokens_len f)
    batch tokens.
Proof.
  revert audio_signal video_signal tokens.
  induction batch as [| b batch IH]; intros audio_signal video_signal tokens Hloop.
  - cbn in Hloop. injection Hloop as <- <- <-. constructor.
  - cbn [collate_loop] in Hloop.
    apply bind_Ok in Hloop as ([[audio video] tokens_i] & Hbody & Hloop).
    apply bind_Ok in Hloop as ([[audio_signal' video_signal'] tokens'] & Hrest & Hret).
    injection Hret as <- <- <-.
    constructor; [| eapply IH; exact Hrest].
    unfold collate_body in Hbody.
    apply bind_Ok in Hbody as (f & Hunpack & Hbody).
    apply bind_Ok in Hbody as (audio' & _ & Hbody).
    apply bind_Ok in Hbody as (video' & _ & Hbody).
    injection Hbody as _ _ <-.
    destruct (unpack_Ok _ _ Hunpack) as (rest & ->).
    exists f, rest. split; [reflexivity | apply token_row_code].
Qed.
End CollateLoopFacts.

Lemma fmap_not_nil {X Y : Type} (g : X -> Y) (l : list X) : l <> [] -> g <$> l <> [].
Proof. destruct l; [congruence | discriminate]. Qed.

Ltac nonempty := repeat apply fmap_not_nil; assumption.

(** Padding every tensor of a batch to the longest one makes them stackable. *)
Lemma stack_pad_end {X : Type} (fill : X) (xs : list (list X)) :
  xs <> [] ->
  stack (Some <$> (pad_end fill (list_max (shape0 <$> xs)) <$> xs))
  = Ok (pad_end fill (list_max (shape0 <$> xs)) <$> xs).
Proof.
  intros Hne. apply (stack_same_length _ (list_max (shape0 <$> xs))).
  - destruct xs; [congruence | discriminate].
  - destruct (list_max_is_max (shape0 <$> xs)) as [_ Hle].
    { destruct xs; [congruence | discriminate]. }
    rewrite Forall_fmap in Hle. rewrite Forall_fmap.
    eapply Forall_impl; [exact Hle |]. intros x Hx. cbn in Hx |- *.
    apply shape0_pad_end, Hx.
Qed.

Section CollateReturns.
Context {A F : Type} (zero : A) (zero_frame_of : Z * Z * Z -> F).
Implicit Types (b : @sample A F) (batch : list (@sample A F)).
Implicit Types (f : @fields A F) (frs : list (@fields A F * list Z)).

Lemma audio_lengths_column frs :
  Forall (fun fr => audio_matches fr.1) frs ->
  (fun fr => audio_sig_len fr.1) <$> frs
  = Some <$> (shape0 <$> ((fun fr => audio_of fr.1) <$> frs)).
Proof.
  induction 1 as [| fr frs (a & Hsig & Hlen) _ IH]; [reflexivity |].
  cbn. rewrite IH, Hlen. unfold audio_of. rewrite Hsig. reflexivity.
Qed.

Lemma video_lengths_column frs :
  Forall (fun fr => video_matches fr.1) frs ->
  (fun fr => video_sig_len fr.1) <$> frs
  = Some <$> (shape0 <$> ((fun fr => video_of fr.1) <$> frs)).
Proof.
  induction 1 as [| fr frs (v & Hsig & Hlen) _ IH]; [reflexivity |].
  cbn. rewrite IH, Hlen. unfold video_of, video_tensor_of. rewrite Hsig. reflexivity.
Qed.

(** Padding the videos of a batch to the longest one makes them stackable
    when their frames have one shape. *)
Lemma stack_pad_video frs :
  frs <> [] ->
  Forall (fun fr => video_matches fr.1) frs ->
  one_frame_shape (tuples frs) ->
  stack_video
    (Some <$> (pad_video zero_frame_of
                 (list_max (shape0 <$> ((fun fr => video_of fr.1) <$> frs)))
               <$> ((fun fr => video_tensor_of fr.1) <$> frs)))
  = Ok (pad_video zero_frame_of
          (list_max (shape0 <$> ((fun fr => video_of fr.1) <$> frs)))
        <$> ((fun fr => video_tensor_of fr.1) <$> frs)).
Proof.
  intros Hne Hv (shape & Hshape).
  set (m := list_max (shape0 <$> ((fun fr => video_of fr.1) <$> frs))).
  apply (stack_video_same_shape _ (Z.to_nat m, shape)); [nonempty |].
  destruct (list_max_is_max (shape0 <$> ((fun fr => video_of fr.1) <$> frs)))
    as [_ Hle]; [nonempty |].
  fold m in Hle. rewrite column_tuples in Hshape.
  rewrite !Forall_fmap in Hle. rewrite !Forall_fmap in Hshape. rewrite !Forall_fmap.
  rewrite Forall_forall in Hle. rewrite Forall_forall in Hshape.
  rewrite Forall_forall in Hv. rewrite Forall_forall.
  intros fr Hin. specialize (Hle _ Hin). specialize (Hshape _ Hin).
  destruct (Hv _ Hin) as (v & Hsig & _). cbn in Hle, Hshape |- *.
  unfold video_shape, pad_video. cbn [frames shape_tail].
  unfold video_of in Hle. unfold video_tensor_of in *. rewrite Hsig in *. cbn in *.
  rewrite (Hshape v eq_refl). f_equal.
  pose proof (shape0_pad_end (zero_frame_of shape) m (frames v) Hle) as Hlen.
  unfold shape0 in Hlen. lia.
Qed.

Lemma stack_token_rows (pad_id : Z) frs :
  frs <> [] ->
  Forall (fun fr => tokens_match fr.1) frs ->
  stack (Some <$> ((fun fr =>
           token_row pad_id (list_max ((fun fr => tokens_i_len fr.1) <$> frs)) fr.1)
         <$> frs))
  = Ok ((fun fr =>
           token_row pad_id (list_max ((fun fr => tokens_i_len fr.1) <$> frs)) fr.1)
        <$> frs).
Proof.
  intros Hne Hmatch.
  apply (stack_same_length _ (list_max ((fun fr => tokens_i_len fr.1) <$> frs))).
  - destruct frs; [congruence | discriminate].
  - destruct (list_max_is_max ((fun fr => tokens_i_len fr.1) <$> frs)) as [_ Hle].
    { destruct frs; [congruence | discriminate]. }
    rewrite Forall_fmap in Hle. rewrite Forall_fmap.
    rewrite Forall_forall in Hle. rewrite Forall_forall in Hmatch.
    rewrite Forall_forall. intros fr Hin.
    specialize (Hle _ Hin). specialize (Hmatch _ Hin).
    cbn in Hle |- *. unfold tokens_match in Hmatch. unfold token_row, shape0 in *.
    rewrite length_app, length_replicate. lia.
Qed.



(** What the collation does on a batch of 6- or 7-element samples whose token
    lengths match, and in which each modality is either marked absent by the
    first sample or carried, with a matching length, by every sample: what is
    left to fail is the stacking of the padded videos and the conversion of the
    sample ids. *)
Lemma collate_matching_steps frs (pad_id : Z) (has_audio has_video : bool) :
  frs <> [] ->
  Forall (fun fr => (length fr.2 <= 1)%nat) frs ->
  first_is_not_None ((fun fr => audio_sig_len fr.1) <$> frs) = Ok has_audio ->
  first_is_not_None ((fun fr => video_sig_len fr.1) <$> frs) = Ok has_video ->
  (has_audio = true -> Forall (fun fr => audio_matches fr.1) frs) ->
  (has_video = true -> Forall (fun fr => video_matches fr.1) frs) ->
  Forall (fun fr => tokens_match fr.1) frs ->
  let audios := (fun fr => audio_of fr.1) <$> frs in
  let videos := (fun fr => video_tensor_of fr.1) <$> frs in
  let video_lengths := shape0 <$> ((fun fr => video_of fr.1) <$> frs) in
  let tokens_lengths := (fun fr => tokens_i_len fr.1) <$> frs in
  _audio_video_speech_collate_fn zero zero_frame_of (tuples frs) pad_id
  = (video_signal ←
       (if has_video
        then
          s ← stack_video
                (Some <$> (pad_video zero_frame_of (list_max video_lengths) <$> videos));
          Ok (Some s)
        else Ok None);
     sample_ids ←
       match len_packed_batch (tuples frs) with
       | 7%nat =>
           sample_ids ← tensor_int32 (column_sample_id (tuples frs));
           Ok (Some sample_ids)
       | _ => Ok None
       end;
     Ok {|
       out_audio_signal :=
         if has_audio
         then Some (pad_end zero (list_max (shape0 <$> audios)) <$> audios)
         else None;
       out_audio_lengths := if has_audio then Some (shape0 <$> audios) else None;
       out_video_signal := video_signal;
       out_video_lengths := if has_video then Some video_lengths else None;
       out_tokens := (fun fr => token_row pad_id (list_max tokens_lengths) fr.1) <$> frs;
       out_tokens_lengths := tokens_lengths;
       out_sample_ids := sample_ids
     |}).
Proof.
  intros Hne Hrest Hfa Hfv Ha Hv Ht audios videos video_lengths tokens_lengths.
  subst audios videos video_lengths tokens_lengths.
  assert (Hlen : len_packed_batch (tuples frs) = 6%nat
                 \/ len_packed_batch (tuples frs) = 7%nat).
  { apply len_packed_batch_6_or_7.
    - destruct frs; [congruence | discriminate].
    - unfold tuples. rewrite Forall_fmap.
      eapply Forall_impl; [exact Hrest |]. intros [f [| i [| j rest]]] Hr;
        cbn in Hr |- *; lia. }
  unfold _audio_video_speech_collate_fn.
  rewrite !column_tuples.
  replace ((fun fr => Some (tokens_i_len fr.1)) <$> frs)
    with (Some <$> ((fun fr => tokens_i_len fr.1) <$> frs))
    by (rewrite <- list_fmap_compose; reflexivity).
  assert (Hids :
    match len_packed_batch (tuples frs) with
    | 7%nat => Ok (Some (column_sample_id (tuples frs)))
    | 6%nat => Ok None
    | _ => Raise (ValueError "Expects 6 or 7 tensors in the batch!")
    end
    = Ok (match len_packed_batch (tuples frs) with
          | 7%nat => Some (column_sample_id (tuples frs))
          | _ => None
          end)).
  { destruct Hlen as [-> | ->]; reflexivity. }
  rewrite Hids. cbn [mbind result_bind].
  rewrite Hfa. cbn [mbind result_bind].
  assert (Hmax_a :
    (if has_audio then max_item ((fun fr => audio_sig_len fr.1) <$> frs) else Ok 0)
    = Ok (if has_audio
          then list_max (shape0 <$> ((fun fr => audio_of fr.1) <$> frs)) else 0)).
  { destruct has_audio; [| reflexivity].
    rewrite audio_lengths_column by auto. apply max_item_list_max. nonempty. }
  rewrite Hmax_a. cbn [mbind result_bind]. rewrite Hfv. cbn [mbind result_bind].
  assert (Hmax_v :
    (if has_video then max_item ((fun fr => video_sig_len fr.1) <$> frs) else Ok 0)
    = Ok (if has_video
          then list_max (shape0 <$> ((fun fr => video_of fr.1) <$> frs)) else 0)).
  { destruct has_video; [| reflexivity].
    rewrite video_lengths_column by auto. apply max_item_list_max. nonempty. }
  rewrite Hmax_v. cbn [mbind result_bind].
  rewrite max_item_list_max by nonempty. cbn [mbind result_bind].
  rewrite (collate_loop_matching zero zero_frame_of) by assumption.
  cbn [mbind result_bind].
  rewrite stack_token_rows, stack0_present by (assumption || nonempty).
  assert (Hfinal : forall audio_signal audio_lengths video_signal video_lengths tokens
                          tokens_lengths,
    match
      match len_packed_batch (tuples frs) with
      | 7%nat => Some (column_sample_id (tuples frs))
      | _ => None
      end
    with
    | None =>
        Ok (Collated audio_signal audio_lengths video_signal video_lengths
              tokens tokens_lengths None)
    | Some sample_ids =>
        sample_ids ← tensor_int32 sample_ids;
        Ok (Collated audio_signal audio_lengths video_signal video_lengths
              tokens tokens_lengths (Some sample_ids))
    end
    = (sample_ids ←
         match len_packed_batch (tuples frs) with
         | 7%nat =>
             sample_ids ← tensor_int32 (column_sample_id (tuples frs));
             Ok (Some sample_ids)
         | _ => Ok None
         end;
       Ok (@Collated A F audio_signal audio_lengths video_signal video_lengths
             tokens tokens_lengths sample_ids))).
  { intros. destruct Hlen as [Hl | Hl]; rewrite Hl; [reflexivity |].
    destruct (tensor_int32 (column_sample_id (tuples frs))); reflexivity. }
  destruct has_audio, has_video; cbn [mbind result_bind];
    repeat first
      [ rewrite audio_lengths_column by auto
      | rewrite video_lengths_column by auto
      | rewrite stack_pad_end by nonempty
      | rewrite stack0_present by nonempty
      | progress cbn [mbind result_bind] ];
    try apply Hfinal;
    (destruct (stack_video _) as [s | e]; cbn [mbind result_bind];
     [rewrite ?stack0_present by nonempty; cbn [mbind result_bind]; apply Hfinal
     | reflexivity]).
Qed.

(** What the collation returns on such a batch when the frames of its videos
    have one shape and the sample ids, when they are returned, are integers
    that int32 holds. *)
Lemma collate_matching frs (pad_id : Z) (has_audio has_video : bool) :
  frs <> [] ->
  Forall (fun fr => (length fr.2 <= 1)%nat) frs ->
  first_is_not_None ((fun fr => audio_sig_len fr.1) <$> frs) = Ok has_audio ->
  first_is_not_None ((fun fr => video_sig_len fr.1) <$> frs) = Ok has_video ->
  (has_audio = true -> Forall (fun fr => audio_matches fr.1) frs) ->
  (has_video = true -> Forall (fun fr => video_matches fr.1) frs) ->
  (has_video = true -> one_frame_shape (tuples frs)) ->
  Forall (fun fr => tokens_match fr.1) frs ->
  (len_packed_batch (tuples frs) = 7%nat -> sample_ids_fit_int32 (tuples frs)) ->
  let audios := (fun fr => audio_of fr.1) <$> frs in
  let videos := (fun fr => video_tensor_of fr.1) <$> frs in
  let video_lengths := shape0 <$> ((fun fr => video_of fr.1) <$> frs) in
  let tokens_lengths := (fun fr => tokens_i_len fr.1) <$> frs in
  _audio_video_speech_collate_fn zero zero_frame_of (tuples frs) pad_id
  = Ok {|
      out_audio_signal :=
        if has_audio
        then Some (pad_end zero (list_max (shape0 <$> audios)) <$> audios)
        else None;
      out_audio_lengths := if has_audio then Some (shape0 <$> audios) else None;
      out_video_signal :=
        if has_video
        then Some (pad_video zero_frame_of (list_max video_lengths) <$> videos)
        else None;
      out_video_lengths := if has_video then Some video_lengths else None;
      out_tokens := (fun fr => token_row pad_id (list_max tokens_lengths) fr.1) <$> frs;
      out_tokens_lengths := tokens_lengths;
      out_sample_ids :=
        match len_packed_batch (tuples frs) with
        | 7%nat => Some (column_sample_id (tuples frs))
        | _ => None
        end
    |}.
Proof.
  intros Hne Hrest Hfa Hfv Ha Hv Hshape Ht Hfit. cbv zeta.
  rewrite (collate_matching_steps frs pad_id has_audio has_video) by assumption.
  cbv zeta.
  assert (Hvideo :
    (if has_video
     then
       s ← stack_video
             (Some <$> (pad_video zero_frame_of
                          (list_max (shape0 <$> ((fun fr => video_of fr.1) <$> frs)))
                        <$> ((fun fr => video_tensor_of fr.1) <$> frs)));
       Ok (Some s)
     else Ok None)
    = Ok (if has_video
          then Some (pad_video zero_frame_of
                       (list_max (shape0 <$> ((fun fr => video_of fr.1) <$> frs)))
                     <$> ((fun fr => video_tensor_of fr.1) <$> frs))
          else None)).
  { destruct has_video; [| reflexivity].
    rewrite stack_pad_video by auto. reflexivity. }
  rewrite Hvideo. cbn [mbind result_bind].
  destruct (len_packed_batch (tuples frs)) as [| [| [| [| [| [| [| [| n]]]]]]]] eqn:Hl;
    try reflexivity.
  rewrite tensor_int32_fit by (apply Hfit; reflexivity). reflexivity.
Qed.

End CollateReturns.

Section CollateClaims.
Context {A F : Type} (zero : A) (zero_frame_of : Z * Z * Z -> F).
Implicit Types (b : @sample A F) (batch : list (@sample A F)).
Implicit Types (f : @fields A F) (frs : list (@fields A F * list Z)).

Lemma six_or_seven_tuples batch :
  Forall six_or_seven batch ->
  exists frs, batch = tuples frs /\ Forall (fun fr => (length fr.2 <= 1)%nat) frs.
Proof.
  induction 1 as [| b batch Hb _ (frs & -> & Hfrs)]; [exists []; split; [reflexivity | constructor] |].
  destruct b as [f rest | n].
  - exists ((f, rest) :: frs). split; [reflexivity |].
    constructor; [| exact Hfrs]. destruct Hb as [Hb | Hb]; cbn in Hb |- *; lia.
  - exfalso. pose proof (fin_to_nat_lt n). destruct Hb as [Hb | Hb]; cbn in Hb; lia.
Qed.

Lemma leading_tuples (P : @fields A F -> Prop) frs :
  Forall (leading P) (tuples frs) <-> Forall (fun fr => P fr.1) frs.
Proof. unfold tuples. rewrite Forall_fmap. reflexivity. Qed.

Lemma first_is_not_None_present (g : @fields A F -> option Z) (P : @fields A F -> Prop) frs :
  frs <> [] ->
  (forall f, P f -> is_Some (g f)) ->
  Forall (fun fr => P fr.1) frs ->
  first_is_not_None ((fun fr => g fr.1) <$> frs) = Ok true.
Proof.
  intros Hne Hg Hall. destruct frs as [| fr frs]; [congruence |].
  apply Forall_cons in Hall as [Hfr _]. cbn.
  destruct (Hg _ Hfr) as [z ->]. reflexivity.
Qed.

(** A batch of 6- or 7-element samples with matching lengths, whose videos
    have frames of one shape and whose sample ids int32 holds, is collated with
    both modalities present. *)
Lemma collate_matching_batch batch (pad_id : Z) :
  batch <> [] ->
  Forall six_or_seven batch ->
  Forall lengths_match batch ->
  one_frame_shape batch ->
  (len_packed_batch batch = 7%nat -> sample_ids_fit_int32 batch) ->
  exists frs,
    batch = tuples frs /\ frs <> [] /\
    Forall (fun fr => tokens_match fr.1) frs /\
    _audio_video_speech_collate_fn zero zero_frame_of batch pad_id
    = Ok {|
        out_audio_signal :=
          Some (pad_end zero (list_max (shape0 <$> ((fun fr => audio_of fr.1) <$> frs)))
                <$> ((fun fr => audio_of fr.1) <$> frs));
        out_audio_lengths := Some (shape0 <$> ((fun fr => audio_of fr.1) <$> frs));
        out_video_signal :=
          Some (pad_video zero_frame_of
                  (list_max (shape0 <$> ((fun fr => video_of fr.1) <$> frs)))
                <$> ((fun fr => video_tensor_of fr.1) <$> frs));
        out_video_lengths := Some (shape0 <$> ((fun fr => video_of fr.1) <$> frs));
        out_tokens :=
          (fun fr => token_row pad_id
                       (list_max ((fun fr => shape0 (tokens_i fr.1)) <$> frs)) fr.1) <$> frs;
        out_tokens_lengths := (fun fr => shape0 (tokens_i fr.1)) <$> frs;
        out_sample_ids :=
          match len_packed_batch (tuples frs) with
          | 7%nat => Some (column_sample_id (tuples frs))
          | _ => None
          end
      |}.
Proof.
  intros Hne H67 Hmatch Hshape Hfit.
  destruct (six_or_seven_tuples _ H67) as (frs & -> & Hrest).
  assert (Hfrs : frs <> []) by (intros ->; apply Hne; reflexivity).
  unfold lengths_match in Hmatch. rewrite leading_tuples in Hmatch.
  assert (Ha : Forall (fun fr => audio_matches fr.1) frs)
    by (eapply Forall_impl; [exact Hmatch | intros fr (H & _ & _); exact H]).
  assert (Hv : Forall (fun fr => video_matches fr.1) frs)
    by (eapply Forall_impl; [exact Hmatch | intros fr (_ & H & _); exact H]).
  assert (Ht : Forall (fun fr => tokens_match fr.1) frs)
    by (eapply Forall_impl; [exact Hmatch | intros fr (_ & _ & H); exact H]).
  assert (Htl : (fun fr => tokens_i_len fr.1) <$> frs
                = (fun fr => shape0 (tokens_i fr.1)) <$> frs).
  { apply Forall_fmap_ext_1. exact Ht. }
  pose proof (collate_matching zero zero_frame_of frs pad_id true true Hfrs Hrest) as Hout.
  cbv zeta in Hout. rewrite Htl in Hout.
  specialize (Hout
    (first_is_not_None_present audio_sig_len audio_matches frs Hfrs
       ltac:(intros f (a & _ & ->); eauto) Ha)
    (first_is_not_None_present video_sig_len video_matches frs Hfrs
       ltac:(intros f (v & _ & ->); eauto) Hv)
    (fun _ => Ha) (fun _ => Hv) (fun _ => Hshape) Ht Hfit).
  exists frs. repeat split; assumption.
Qed.



Lemma column_Some {X : Type} (g : @fields A F -> X) batch :
  column (fun f => Some (g f)) batch = Some <$> column g batch.
Proof.
  unfold column. induction batch as [| [f rest | n] batch IH]; cbn;
    [reflexivity | rewrite IH; reflexivity | exact IH].
Qed.

(** What a returning collation went through. *)
Lemma collate_Ok_inv batch (pad_id : Z) out :
  _audio_video_speech_collate_fn zero zero_frame_of batch pad_id = Ok out ->
  exists has_audio max_audio_len has_video max_video_len max_tokens_len
         audio_signal video_signal,
    first_is_not_None (column audio_sig_len batch) = Ok has_audio /\
    first_is_not_None (column video_sig_len batch) = Ok has_video /\
    max_item (Some <$> column tokens_i_len batch) = Ok max_tokens_len /\
    collate_loop zero zero_frame_of has_audio max_audio_len has_video max_video_len
      max_tokens_len pad_id batch
    = Ok (audio_signal, video_signal, out_tokens out) /\
    (has_audio = false -> out_audio_signal out = None /\ out_audio_lengths out = None) /\
    (has_video = false -> out_video_signal out = None /\ out_video_lengths out = None) /\
    (has_audio = true ->
     is_Some (out_audio_signal out) /\ is_Some (out_audio_lengths out)) /\
    (has_video = true ->
     is_Some (out_video_signal out) /\ is_Some (out_video_lengths out)).
Proof.
  unfold _audio_video_speech_collate_fn. intros H.
  apply bind_Ok in H as (sample_ids & _ & H).
  apply bind_Ok in H as (has_audio & Hfa & H).
  apply bind_Ok in H as (max_audio_len & _ & H).
  apply bind_Ok in H as (has_video & Hfv & H).
  apply bind_Ok in H as (max_video_len & _ & H).
  apply bind_Ok in H as (max_tokens_len & Hmt & H).
  apply bind_Ok in H as ([[audio_signal video_signal] tokens] & Hloop & H).
  apply bind_Ok in H as ([audio_signal' audio_lengths'] & Hsa & H).
  apply bind_Ok in H as ([video_signal' video_lengths'] & Hsv & H).
  apply bind_Ok in H as (rows & Hrows & H).
  apply bind_Ok in H as (tokens_lengths' & _ & H).
  assert (Hout : out_audio_signal out = audio_signal'
                 /\ out_audio_lengths out = audio_lengths'
                 /\ out_video_signal out = video_signal'
                 /\ out_video_lengths out = video_lengths'
                 /\ out_tokens out = rows).
  { destruct sample_ids as [sample_ids |].
    - apply bind_Ok in H as (sample_ids' & _ & H). injection H as <-.
      repeat split; reflexivity.
    - injection H as <-. repeat split; reflexivity. }
  destruct Hout as (-> & -> & -> & -> & ->). clear H.
  apply stack_Ok in Hrows. apply (inj (fmap Some)) in Hrows. subst rows.
  rewrite column_Some in Hmt.
  exists has_audio, max_audio_len, has_video, max_video_len, max_tokens_len,
    audio_signal, video_signal.
  split; [exact Hfa |]. split; [exact Hfv |]. split; [exact Hmt |].
  split; [exact Hloop |]. split; [| split; [| split]].
  - intros ->. injection Hsa as <- <-. split; reflexivity.
  - intros ->. injection Hsv as <- <-. split; reflexivity.
  - intros ->. apply bind_Ok in Hsa as (s & _ & Hsa).
    apply bind_Ok in Hsa as (l & _ & Hsa). injection Hsa as <- <-. split; eauto.
  - intros ->. apply bind_Ok in Hsv as (s & _ & Hsv).
    apply bind_Ok in Hsv as (l & _ & Hsv). injection Hsv as <- <-. split; eauto.
Qed.

(** C8. In a batch that is not empty and whose samples have 6 or 7 elements,
    each row of the token tensor the collation returns is that sample's token
    sequence followed by (max_tokens_len - token_len) copies of [pad_id], where
    token_len is the sample's token length and max_tokens_len the largest one
    in the batch; a row whose token length is the largest is the token sequence
    itself.  The collation does return when, besides, the length entries equal
    the leading dimensions of their tensors, the frames of the videos have one
    shape and int32 holds the sample ids. *)
Theorem collate_token_rows_padded_with_pad_id batch (pad_id : Z) :
  batch <> [] ->
  Forall six_or_seven batch ->
  (forall out,
     _audio_video_speech_collate_fn zero zero_frame_of batch pad_id = Ok out ->
     exists max_tokens_len,
       is_max max_tokens_len (column tokens_i_len batch) /\
       Forall2 (fun b row => exists f rest,
                  b = Tuple f rest /\
                  row = tokens_i f
                        ++ replicate (Z.to_nat (max_tokens_len - tokens_i_len f)) pad_id /\
                  (tokens_i_len f = max_tokens_len -> row = tokens_i f))
         batch (out_tokens out)) /\
  (Forall lengths_match batch ->
   one_frame_shape batch ->
   sample_ids_fit_int32 batch ->
   exists out, _audio_video_speech_collate_fn zero zero_frame_of batch pad_id = Ok out).
Proof.
  intros Hne H67. split.
  - intros out Hout.
    destruct (collate_Ok_inv _ _ _ Hout)
      as (ha & ma & hv & mv & mt & audio_signal & video_signal
          & _ & _ & Hmt & Hloop & _).
    exists mt. split.
    + apply max_item_Ok in Hmt as (zs & Hzs & _ & Hmax).
      apply (inj (fmap Some)) in Hzs. rewrite Hzs. exact Hmax.
    + eapply Forall2_impl; [eapply collate_loop_tokens; exact Hloop |].
      intros b row (f & rest & -> & ->). exists f, rest.
      split; [reflexivity |]. split; [reflexivity |].
      intros Hlen. unfold token_row. rewrite Hlen, Z.sub_diag. cbn.
      apply app_nil_r.
  - intros Hmatch Hshape Hfit.
    destruct (collate_matching_batch batch pad_id Hne H67 Hmatch Hshape (fun _ => Hfit))
      as (frs & _ & _ & _ & Hout).
    eexists. exact Hout.
Qed.

(** The exceptions of the loop body: unpacking a tuple that has neither six
    nor seven elements, or reading an absent length or signal. *)
Lemma collate_body_Raise (has_audio has_video : bool)
    (max_audio_len max_video_len max_tokens_len pad_id : Z) b (e : exn) :
  collate_body zero zero_frame_of has_audio max_audio_len has_video max_video_len
    max_tokens_len pad_id b = Raise e ->
  (e = ValueError "too many values to unpack (expected 6)" /\ (7 < tuple_len b)%nat)
  \/ (exists n, b = ShortTuple n)
  \/ e = AttributeError \/ e = TypeError.
Proof.
  unfold collate_body. intros H.
  apply bind_Raise in H as [H | (f & _ & H)].
  - destruct b as [f [| i [| j rest]] | n]; cbn in H; try discriminate.
    + left. injection H as <-. split; [reflexivity | cbn; lia].
    + right. left. eauto.
  - right. right.
    apply bind_Raise in H as [H | (audio & _ & H)].
    { destruct has_audio; [| discriminate].
      apply bind_Raise in H as [H | (n & _ & H)].
      - destruct (audio_sig_len f); [discriminate | injection H as <-]. auto.
      - apply bind_Raise in H as [H | (x & _ & H)]; [| discriminate].
        destruct (n <? max_audio_len); [| discriminate].
        destruct (audio_sig f); [discriminate | injection H as <-]. auto. }
    apply bind_Raise in H as [H | (video & _ & H)]; [| discriminate].
    destruct has_video; [| discriminate].
    apply bind_Raise in H as [H | (n & _ & H)].
    + destruct (video_sig_len f); [discriminate | injection H as <-]. auto.
    + apply bind_Raise in H as [H | (x & _ & H)]; [| discriminate].
      destruct (n <? max_video_len); [| discriminate].
      destruct (video_sig f); [discriminate | injection H as <-]. auto.
Qed.

Lemma collate_loop_Raise (has_audio has_video : bool)
    (max_audio_len max_video_len max_tokens_len pad_id : Z) batch (e : exn) :
  collate_loop zero zero_frame_of has_audio max_audio_len has_video max_video_len
    max_tokens_len pad_id batch = Raise e ->
  (e = ValueError "too many values to unpack (expected 6)"
   /\ exists b, b ∈ batch /\ (7 < tuple_len b)%nat)
  \/ (exists n, ShortTuple n ∈ batch)
  \/ e = AttributeError \/ e = TypeError.
Proof.
  induction batch as [| b batch IH]; [discriminate |].
  cbn [collate_loop]. intros H.
  apply bind_Raise in H as [H | ([[audio video] tokens_i] & _ & H)].
  - apply collate_body_Raise in H as [[-> Hb] | [[n ->] | H]].
    + left. split; [reflexivity |]. exists b. split; [apply list_elem_of_here | exact Hb].
    + right. left. exists n. apply list_elem_of_here.
    + right. right. exact H.
  - apply bind_Raise in H as [H | ([[audio_signal video_signal] tokens] & _ & H)];
      [| discriminate].
    destruct (IH H) as [[-> (b' & Hin & Hb')] | [[n Hin] | He]].
    + left. split; [reflexivity |]. exists b'. split; [apply list_elem_of_further, Hin | exact Hb'].
    + right. left. exists n. apply list_elem_of_further, Hin.
    + right. right. exact He.
Qed.

Lemma first_is_not_None_Raise (lengths : list (option Z)) (e : exn) :
  first_is_not_None lengths = Raise e -> lengths = [].
Proof. destruct lengths as [| [z |] rest]; [reflexivity | discriminate | discriminate]. Qed.

(** The exceptions of the collation. *)
Lemma collate_Raise batch (pad_id : Z) (e : exn) :
  _audio_video_speech_collate_fn zero zero_frame_of batch pad_id = Raise e ->
  (e = ValueError "Expects 6 or 7 tensors in the batch!"
   /\ len_packed_batch batch <> 6%nat /\ len_packed_batch batch <> 7%nat)
  \/ ((len_packed_batch batch = 6%nat \/ len_packed_batch batch = 7%nat)
      /\ (e = TypeError \/ e = AttributeError \/ e = RuntimeError
          \/ (e = ValueError "too many values to unpack (expected 6)"
              /\ exists b, b ∈ batch /\ (7 < tuple_len b)%nat))).
Proof.
  unfold _audio_video_speech_collate_fn. intros H.
  apply bind_Raise in H as [H | (sample_ids & Hids & H)].
  { left. destruct (len_packed_batch batch) as [| [| [| [| [| [| [| [| n]]]]]]]];
      try discriminate; injection H as <-; repeat split; lia. }
  right.
  assert (Hlen : len_packed_batch batch = 6%nat \/ len_packed_batch batch = 7%nat).
  { destruct (len_packed_batch batch) as [| [| [| [| [| [| [| [| n]]]]]]]];
      try discriminate; auto. }
  split; [exact Hlen |]. clear Hids.
  destruct (len_packed_batch_tuples batch ltac:(lia)) as (frs & -> & Hfrs).
  rewrite !column_tuples in H.
  apply bind_Raise in H as [H | (has_audio & _ & H)].
  { apply first_is_not_None_Raise in H. exfalso. revert H. nonempty. }
  apply bind_Raise in H as [H | (max_audio_len & _ & H)].
  { destruct has_audio; [| discriminate].
    apply max_item_Raise in H as [-> | ->]; [auto | auto | nonempty]. }
  apply bind_Raise in H as [H | (has_video & _ & H)].
  { apply first_is_not_None_Raise in H. exfalso. revert H. nonempty. }
  apply bind_Raise in H as [H | (max_video_len & _ & H)].
  { destruct has_video; [| discriminate].
    apply max_item_Raise in H as [-> | ->]; [auto | auto | nonempty]. }
  apply bind_Raise in H as [H | (max_tokens_len & _ & H)].
  { apply max_item_Raise in H as [-> | ->]; [auto | auto | nonempty]. }
  apply bind_Raise in H as [H | ([[audio_signal video_signal] tokens] & _ & H)].
  { apply collate_loop_Raise in H as [H | [[n Hin] | [-> | ->]]];
      [do 3 right; exact H | | auto | auto].
    exfalso. unfold tuples in Hin. apply list_elem_of_fmap in Hin as (fr & Heq & _).
    discriminate. }
  apply bind_Raise in H as [H | ([audio_signal' audio_lengths'] & _ & H)].
  { destruct has_audio; [| discriminate].
    apply bind_Raise in H as [H | (s & _ & H)].
    - apply stack_Raise in H as [-> | ->]; auto.
    - apply bind_Raise in H as [H | (l & _ & H)]; [| discriminate].
      apply stack0_Raise in H as [-> | ->]; auto. }
  apply bind_Raise in H as [H | ([video_signal' video_lengths'] & _ & H)].
  { destruct has_video; [| discriminate].
    apply bind_Raise in H as [H | (s & _ & H)].
    - apply stack_video_Raise in H as [-> | ->]; auto.
    - apply bind_Raise in H as [H | (l & _ & H)]; [| discriminate].
      apply stack0_Raise in H as [-> | ->]; auto. }
  apply bind_Raise in H as [H | (rows & _ & H)].
  { apply stack_Raise in H as [-> | ->]; auto. }
  apply bind_Raise in H as [H | (l & _ & H)].
  { apply stack0_Raise in H as [-> | ->]; auto. }
  destruct sample_ids as [sample_ids |]; [| discriminate].
  apply bind_Raise in H as [H | (sample_ids' & _ & H)]; [| discriminate].
  apply tensor_int32_Raise in H as ->. auto.
Qed.

(** C9, amended. On a batch that is not empty the collation raises its own
    arity error, the ValueError "Expects 6 or 7 tensors in the batch!", exactly
    when the zipped batch has neither 6 nor 7 component sequences; their number
    is the length of the shortest sample tuple.  A batch of 6- or 7-element
    samples raises no ValueError at all, and any other ValueError comes from
    unpacking a sample tuple of more than 7 elements. *)
Theorem collate_arity_check batch (pad_id : Z) :
  batch <> [] ->
  (_audio_video_speech_collate_fn zero zero_frame_of batch pad_id = Raise expects_6_or_7
   <-> len_packed_batch batch <> 6%nat /\ len_packed_batch batch <> 7%nat) /\
  (exists b, b ∈ batch /\ len_packed_batch batch = tuple_len b /\
             Forall (fun b' => (tuple_len b <= tuple_len b')%nat) batch) /\
  (Forall six_or_seven batch ->
   forall e, _audio_video_speech_collate_fn zero zero_frame_of batch pad_id = Raise e ->
             is_ValueError e = false) /\
  (forall msg,
     _audio_video_speech_collate_fn zero zero_frame_of batch pad_id = Raise (ValueError msg) ->
     ValueError msg <> expects_6_or_7 ->
     exists b, b ∈ batch /\ (7 < tuple_len b)%nat).
Proof.
  intros Hne. split; [| split; [| split]].
  - split.
    + intros H. apply collate_Raise in H as [(_ & H6 & H7) | (_ & H)]; [auto |].
      exfalso. unfold expects_6_or_7 in H.
      destruct H as [H | [H | [H | [H _]]]]; discriminate.
    + intros [H6 H7]. unfold _audio_video_speech_collate_fn.
      destruct (len_packed_batch batch) as [| [| [| [| [| [| [| [| n]]]]]]]];
        try reflexivity; lia.
  - destruct (len_packed_batch_attained _ Hne) as (b & Hin & Heq).
    exists b. split; [exact Hin |]. split; [exact Heq |].
    apply Forall_forall. intros b' Hin'. rewrite <- Heq.
    apply len_packed_batch_le, Hin'.
  - intros H67 e H.
    apply collate_Raise in H as [(_ & H6 & H7) | (_ & H)].
    + exfalso. destruct (len_packed_batch_6_or_7 _ Hne H67); auto.
    + destruct H as [-> | [-> | [-> | [_ (b & Hin & Hb)]]]]; try reflexivity.
      exfalso. rewrite Forall_forall in H67.
      destruct (H67 _ Hin) as [H | H]; lia.
  - intros msg H Hmsg.
    apply collate_Raise in H as [(H & _) | (_ & H)]; [contradiction |].
    destruct H as [H | [H | [H | [_ H]]]]; try discriminate. exact H.
Qed.

(** C10. The first sample alone decides which modalities the collation
    returns.  Whenever it returns on a batch whose first sample has no audio
    length, the audio signal and the audio lengths it returns are both [None],
    whatever the other samples hold; whenever it returns on a batch whose first
    sample has an audio length, it returns an audio signal and audio lengths;
    likewise for the video.  And it does return on batches in which presence is
    not uniform: on every batch of 6- or 7-element samples with matching token
    lengths, and sample ids that int32 holds, in which each modality is either
    marked absent by the first sample alone or carried by every sample (the
    videos with frames of one shape); uniform presence is not checked. *)
Theorem collate_presence_decided_by_first_sample f (rest : list Z)
    (others : list (@sample A F)) (pad_id : Z) :
  (forall out,
     _audio_video_speech_collate_fn zero zero_frame_of (Tuple f rest :: others) pad_id
       = Ok out ->
     (audio_sig_len f = None ->
      out_audio_signal out = None /\ out_audio_lengths out = None) /\
     (audio_sig_len f <> None ->
      is_Some (out_audio_signal out) /\ is_Some (out_audio_lengths out)) /\
     (video_sig_len f = None ->
      out_video_signal out = None /\ out_video_lengths out = None) /\
     (video_sig_len f <> None ->
      is_Some (out_video_signal out) /\ is_Some (out_video_lengths out))) /\
  (Forall six_or_seven (Tuple f rest :: others) ->
   Forall (leading tokens_match) (Tuple f rest :: others) ->
   audio_sig_len f = None \/ Forall (leading audio_matches) (Tuple f rest :: others) ->
   video_sig_len f = None
   \/ (Forall (leading video_matches) (Tuple f rest :: others)
       /\ one_frame_shape (Tuple f rest :: others)) ->
   sample_ids_fit_int32 (Tuple f rest :: others) ->
   exists out,
     _audio_video_speech_collate_fn zero zero_frame_of (Tuple f rest :: others) pad_id
       = Ok out).
Proof.
  split.
  - intros out Hout.
    destruct (collate_Ok_inv _ _ _ Hout)
      as (ha & ma & hv & mv & mt & audio_signal & video_signal
          & Hfa & Hfv & _ & _ & Ha & Hv & Ha' & Hv').
    cbn in Hfa, Hfv. split; [| split; [| split]].
    + intros Hnone. apply Ha. rewrite Hnone in Hfa. congruence.
    + intros Hsome. apply Ha'. destruct (audio_sig_len f); congruence.
    + intros Hnone. apply Hv. rewrite Hnone in Hfv. congruence.
    + intros Hsome. apply Hv'. destruct (video_sig_len f); congruence.
  - intros H67 Ht Ha Hv Hfit.
    destruct (six_or_seven_tuples _ H67) as ([| [f' rest'] frs] & Heq & Hrest);
      [discriminate |].
    injection Heq as <- <- Hothers. fold (tuples frs) in Hothers. subst others.
    change (Tuple f rest :: tuples frs) with (tuples ((f, rest) :: frs)) in *.
    rewrite leading_tuples in Ht.
    assert (Hcase : forall (g : @fields A F -> option Z) (P : @fields A F -> Prop),
              (forall f0, P f0 -> is_Some (g f0)) ->
              g f = None \/ Forall (leading P) (tuples ((f, rest) :: frs)) ->
              exists has : bool,
                first_is_not_None ((fun fr => g fr.1) <$> (f, rest) :: frs) = Ok has /\
                (has = true -> Forall (fun fr => P fr.1) ((f, rest) :: frs)) /\
                (has = true -> Forall (leading P) (tuples ((f, rest) :: frs)))).
    { intros g P HP [Hnone | Hall].
      - exists false. cbn. rewrite Hnone. split; [reflexivity |].
        split; discriminate.
      - exists true. split; [| split; [intros _; apply leading_tuples, Hall | auto]].
        apply (first_is_not_None_present g P);
          [discriminate | exact HP | apply leading_tuples, Hall]. }
    destruct (Hcase audio_sig_len audio_matches
                ltac:(intros f0 (a & _ & ->); eauto) Ha) as (ha & Hfa & Hma & _).
    destruct (Hcase video_sig_len video_matches
                ltac:(intros f0 (v & _ & ->); eauto)
                ltac:(destruct Hv as [Hv | [Hv _]]; [left | right]; exact Hv))
      as (hv & Hfv & Hmv & _).
    assert (Hshape : hv = true -> one_frame_shape (tuples ((f, rest) :: frs))).
    { intros ->. destruct Hv as [Hnone | [_ Hshape]]; [| exact Hshape].
      cbn in Hfv. rewrite Hnone in Hfv. discriminate. }
    eexists.
    apply (collate_matching zero zero_frame_of ((f, rest) :: frs) pad_id ha hv);
      [discriminate | try assumption ..].
    intros _. exact Hfit.
Qed.
End CollateClaims.



(** C8 on two samples. *)
Lemma collate_token_rows_padded_with_pad_id_witness :
  two_samples <> [] /\
  Forall six_or_seven two_samples /\
  _audio_video_speech_collate_fn 0 (fun _ => 0%nat) two_samples 9
  = Ok {| out_audio_signal := Some [[1; 2; 0]; [1; 2; 3]];
          out_audio_lengths := Some [2; 3];
          out_video_signal :=
            Some [VideoTensor (96, 96, 3) [7%nat; 0%nat];
                  VideoTensor (96, 96, 3) [8%nat; 9%nat]];
          out_video_lengths := Some [1; 2];
          out_tokens := [[5; 6; 7]; [5; 9; 9]];
          out_tokens_lengths := [3; 1];
          out_sample_ids := Some [8; 4] |} /\
  exists max_tokens_len,
    is_max max_tokens_len (column tokens_i_len two_samples) /\
    Forall2 (fun b row => exists f rest,
               b = Tuple f rest /\
               row = tokens_i f
                     ++ replicate (Z.to_nat (max_tokens_len - tokens_i_len f)) 9 /\
               (tokens_i_len f = max_tokens_len -> row = tokens_i f))
      two_samples [[5; 6; 7]; [5; 9; 9]].
Proof.
  assert (H1 : two_samples <> []) by discriminate.
  assert (H2 : Forall six_or_seven two_samples)
    by (repeat constructor; right; reflexivity).
  split; [exact H1 |]. split; [exact H2 |]. split; [reflexivity |].
  exact (proj1 (collate_token_rows_padded_with_pad_id 0 (fun _ => 0%nat) two_samples 9
                  H1 H2)
           _ eq_refl).
Defined.

(** C9, as the specification states it, fails: a six-element sample followed
    by an eight-element one zips into 6 component sequences, and the collation
    raises a ValueError all the same, when it unpacks the second sample. *)
Lemma collate_raises_ValueError_with_6_components :
  six_then_eight <> [] /\
  len_packed_batch six_then_eight = 6%nat /\
  _audio_video_speech_collate_fn 0 (fun _ => 0%nat) six_then_eight 9
  = Raise (ValueError "too many values to unpack (expected 6)") /\
  is_ValueError (ValueError "too many values to unpack (expected 6)") = true.
Proof. repeat split; [discriminate | reflexivity ..]. Qed.

(** C9, amended, on the six-then-eight batch. *)
Lemma collate_arity_check_witness :
  six_then_eight <> [] /\
  (_audio_video_speech_collate_fn 0 (fun _ => 0%nat) six_then_eight 9
   = Raise expects_6_or_7
   <-> len_packed_batch six_then_eight <> 6%nat /\ len_packed_batch six_then_eight <> 7%nat) /\
  (exists b, b ∈ six_then_eight /\ len_packed_batch six_then_eight = tuple_len b /\
             Forall (fun b' => (tuple_len b <= tuple_len b')%nat) six_then_eight) /\
  (Forall six_or_seven six_then_eight ->
   forall e, _audio_video_speech_collate_fn 0 (fun _ => 0%nat) six_then_eight 9 = Raise e ->
             is_ValueError e = false) /\
  (forall msg,
     _audio_video_speech_collate_fn 0 (fun _ => 0%nat) six_then_eight 9
     = Raise (ValueError msg) ->
     ValueError msg <> expects_6_or_7 ->
     exists b, b ∈ six_then_eight /\ (7 < tuple_len b)%nat).
Proof.
  assert (H1 : six_then_eight <> []) by discriminate.
  split; [exact H1 |].
  exact (collate_arity_check 0 (fun _ => 0%nat) six_then_eight 9 H1).
Defined.

(** C10 on a batch whose first sample has no audio and whose second has: no
    audio is returned, and the video, which the first sample has, is. *)
Lemma collate_presence_decided_by_first_sample_witness :
  exists out,
    _audio_video_speech_collate_fn 0 (fun _ => 0%nat) audio_in_second_only 9 = Ok out /\
    (out_audio_signal out = None /\ out_audio_lengths out = None) /\
    (is_Some (out_video_signal out) /\ is_Some (out_video_lengths out)) /\
    out_video_signal out
    = Some [VideoTensor (96, 96, 3) [7%nat; 0%nat];
            VideoTensor (96, 96, 3) [8%nat; 9%nat]].
Proof.
  eexists. split; [reflexivity |].
  destruct (proj1 (collate_presence_decided_by_first_sample 0 (fun _ => 0%nat)
                     (Fields None None (Some (VideoTensor (96, 96, 3) [7%nat])) (Some 1)
                        [5; 6; 7] 3) []
                     (tail audio_in_second_only) 9) _ eq_refl)
    as (Ha & _ & _ & Hv).
  split; [apply Ha; reflexivity |].
  split; [apply Hv; discriminate | reflexivity].
Defined.

(** * Properties of the rest of the module *)

(** ** Alignment, once more *)

(** X1. [align_audio_and_video] returns its two inputs as they are exactly when
    the video already has Ta // 640 + 1 frames, and aligning what an alignment
    returned changes nothing. *)
Theorem align_fixed_point_and_idempotent {A F : Type} (zero : A) (zero_frame : F)
    (audio : list A) (video : list F) :
  (_AudioVideoTextDataset.align_audio_and_video zero zero_frame audio video
     = Ok (audio, video)
   <-> shape0 video = shape0 audio / 640 + 1) /\
  (forall audio' video',
     _AudioVideoTextDataset.align_audio_and_video zero zero_frame audio video
       = Ok (audio', video') ->
     _AudioVideoTextDataset.align_audio_and_video zero zero_frame audio' video'
       = Ok (audio', video')).
Proof.
  assert (Hfix : forall (a : list A) (v : list F),
            shape0 v = shape0 a / 640 + 1 ->
            _AudioVideoTextDataset.align_audio_and_video zero zero_frame a v
              = Ok (a, v)).
  { intros a v Hv.
    assert (Hp : video_padding a v = 0) by (unfold video_padding; lia).
    rewrite (align_video_branch zero zero_frame a v) by lia.
    rewrite Hp. cbn. unfold cat3. cbn. rewrite app_nil_r. reflexivity. }
  split; [split |].
  - intros Heq.
    destruct (align_lengths zero zero_frame audio video)
      as (audio' & video' & Heq' & [(Hp & Ha & Hv) | (Hp & Hv & Ha)]);
      rewrite Heq in Heq'; injection Heq' as <- <-.
    + exact Hv.
    + unfold video_padding in Hp. rewrite Ha in Hp.
      rewrite Z.div_mul in Hp by lia. lia.
  - apply Hfix.
  - intros audio' video' Heq. apply Hfix.
    destruct (align_lengths zero zero_frame audio video)
      as (audio'' & video'' & Heq' & [(Hp & Ha & Hv) | (Hp & Hv & Ha)]);
      rewrite Heq in Heq'; injection Heq' as <- <-.
    + rewrite Ha. exact Hv.
    + rewrite Ha, Hv. rewrite Z.div_mul by lia. lia.
Qed.

(** ** Python indexing *)

Lemma py_getitem_Ok {X : Type} (l : list X) (i : Z) (x : X) :
  py_getitem l i = Ok x <->
  (0 <= i /\ l !! Z.to_nat i = Some x) \/
  (i < 0 /\ 0 <= i + Z.of_nat (length l)
   /\ l !! Z.to_nat (i + Z.of_nat (length l)) = Some x).
Proof.
  unfold py_getitem.
  destruct (Z.ltb_spec i 0) as [Hneg | Hpos].
  - destruct (Z.leb_spec 0 (i + Z.of_nat (length l))) as [H0 | H0];
      destruct (Z.ltb_spec (i + Z.of_nat (length l)) (Z.of_nat (length l))) as [H1 | H1];
      cbn; try (split; [discriminate | intros [[? _] | (_ & ? & _)]; lia]).
    destruct (l !! Z.to_nat (i + Z.of_nat (length l))) as [y |] eqn:Hy.
    + split; [intros [= ->]; right; auto | intros [[? _] | (_ & _ & [= ->])]; [lia | reflexivity]].
    + split; [discriminate | intros [[? _] | (_ & _ & ?)]; [lia | discriminate]].
  - destruct (Z.leb_spec 0 i) as [_ | H0]; [| lia].
    destruct (Z.ltb_spec i (Z.of_nat (length l))) as [H1 | H1]; cbn.
    + destruct (l !! Z.to_nat i) as [y |] eqn:Hy.
      * split; [intros [= ->]; left; auto | intros [[_ [= ->]] | (? & _)]; [reflexivity | lia]].
      * split; [discriminate | intros [[_ ?] | (? & _)]; [discriminate | lia]].
    + split; [discriminate |]. intros [[_ Hx] | (? & _)]; [| lia].
      apply lookup_lt_Some in Hx. lia.
Qed.

Lemma py_getitem_Raise {X : Type} (l : list X) (i : Z) (e : exn) :
  py_getitem l i = Raise e <->
  e = IndexError /\ (i < - Z.of_nat (length l) \/ Z.of_nat (length l) <= i).
Proof.
  unfold py_getitem.
  destruct (Z.ltb_spec i 0) as [Hneg | Hpos].
  - destruct (Z.leb_spec 0 (i + Z.of_nat (length l))) as [H0 | H0];
      destruct (Z.ltb_spec (i + Z.of_nat (length l)) (Z.of_nat (length l))) as [H1 | H1];
      cbn; try (split; [intros [= <-]; split; [reflexivity | lia] | intros [-> _]; reflexivity]);
      try lia.
    destruct (lookup_lt_is_Some_2 l (Z.to_nat (i + Z.of_nat (length l))) ltac:(lia))
      as [y ->].
    split; [discriminate | intros [_ ?]; lia].
  - destruct (Z.leb_spec 0 i) as [_ | H0]; [| lia].
    destruct (Z.ltb_spec i (Z.of_nat (length l))) as [H1 | H1]; cbn.
    + destruct (lookup_lt_is_Some_2 l (Z.to_nat i) ltac:(lia)) as [y ->].
      split; [discriminate | intros [_ ?]; lia].
    + split; [intros [= <-]; split; [reflexivity | lia] | intros [-> _]; reflexivity].
Qed.

Lemma py_getitem_nat {X : Type} (l : list X) (i : nat) :
  py_getitem l (Z.of_nat i)
  = match l !! i with Some x => Ok x | None => Raise IndexError end.
Proof.
  destruct (l !! i) as [x |] eqn:Hx.
  - apply py_getitem_Ok. left. rewrite Nat2Z.id. split; [lia | exact Hx].
  - apply py_getitem_Raise. split; [reflexivity |].
    apply lookup_ge_None in Hx. lia.
Qed.

(** ** The manifest processor *)

Section ProcessorFacts.
Context {Time : Type}.
Implicit Types (self : AVSRManifestProcessor.t Time) (sample : Entry Time).

Lemma process_text_by_sample_eq self sample :
  AVSRManifestProcessor.process_text_by_sample self sample
  = (option_list (AVSRManifestProcessor.bos_id self) ++ text_tokens sample
       ++ option_list (AVSRManifestProcessor.eos_id self),
     shape0 (text_tokens sample)
       + Z.of_nat (length (option_list (AVSRManifestProcessor.bos_id self)))
       + Z.of_nat (length (option_list (AVSRManifestProcessor.eos_id self)))).
Proof.
  unfold AVSRManifestProcessor.process_text_by_sample.
  destruct (AVSRManifestProcessor.bos_id self), (AVSRManifestProcessor.eos_id self);
    cbn; rewrite ?app_nil_r; f_equal; lia.
Qed.

Lemma process_text_by_sample_length self sample :
  (AVSRManifestProcessor.process_text_by_sample self sample).2
  = shape0 (AVSRManifestProcessor.process_text_by_sample self sample).1.
Proof.
  rewrite process_text_by_sample_eq. cbn [fst snd].
  unfold shape0. rewrite !length_app. lia.
Qed.

(** X2. The length [process_text_by_sample] returns is the number of tokens
    it returns, and these are the manifest's tokens, in order, after the BOS id
    and before the EOS id when the processor has them. *)
Theorem process_text_by_sample_length_and_tokens self sample :
  let result := AVSRManifestProcessor.process_text_by_sample self sample in
  result.2 = shape0 result.1 /\
  result.1 = option_list (AVSRManifestProcessor.bos_id self) ++ text_tokens sample
             ++ option_list (AVSRManifestProcessor.eos_id self).
Proof.
  cbv zeta. rewrite process_text_by_sample_eq. cbn [fst snd].
  split; [| reflexivity]. unfold shape0. rewrite !length_app. lia.
Qed.

(** X3. [process_text_by_id] follows Python's indexing: it raises [IndexError]
    exactly for an index below -len or at least len, an index from -len to -1
    reads the entry at len + index, and any other exception is ruled out. *)
Theorem process_text_by_id_index_bounds self (index : Z) :
  let n := Z.of_nat (length (data (AVSRManifestProcessor.collection self))) in
  (AVSRManifestProcessor.process_text_by_id self index = Raise IndexError
   <-> index < - n \/ n <= index) /\
  (forall e, AVSRManifestProcessor.process_text_by_id self index = Raise e ->
             e = IndexError) /\
  (- n <= index < 0 ->
   AVSRManifestProcessor.process_text_by_id self index
   = AVSRManifestProcessor.process_text_by_id self (index + n)) /\
  (- n <= index < n ->
   exists sample,
     AVSRManifestProcessor.process_text_by_id self index
     = Ok (AVSRManifestProcessor.process_text_by_sample self sample)).
Proof.
  cbv zeta. unfold AVSRManifestProcessor.process_text_by_id.
  set (l := data (AVSRManifestProcessor.collection self)).
  split; [| split; [| split]].
  - destruct (py_getitem l index) as [x | e] eqn:Hget; cbn.
    + split; [discriminate |]. intros Hout. exfalso.
      assert (py_getitem l index = Raise IndexError) as Hr
        by (apply py_getitem_Raise; auto).
      congruence.
    + apply py_getitem_Raise in Hget as [-> Hout]. split; auto.
  - intros e. destruct (py_getitem l index) as [x | e'] eqn:Hget; cbn; [discriminate |].
    intros [= <-]. apply py_getitem_Raise in Hget as [-> _]. reflexivity.
  - intros Hrange. f_equal. unfold py_getitem.
    destruct (Z.ltb_spec index 0); [| lia].
    destruct (Z.ltb_spec (index + Z.of_nat (length l)) 0); [lia | reflexivity].
  - intros Hrange. destruct (py_getitem l index) as [x | e] eqn:Hget; cbn; [eauto |].
    apply py_getitem_Raise in Hget as [_ Hout]. lia.
Qed.

(** X4. [process_text_by_file_id] reads the first manifest index of the file
    only: it raises [KeyError] exactly when the file id is no key of the
    mapping, [IndexError] when the file has no index, and otherwise returns
    what [process_text_by_id] returns at that first index. *)
Theorem process_text_by_file_id_first_index self (file_id : string) :
  let mapping := mapping (by_file_id (AVSRManifestProcessor.collection self)) in
  (forall k, AVSRManifestProcessor.process_text_by_file_id self file_id
             = Raise (KeyError k)
             <-> k = file_id /\ mapping !! file_id = None) /\
  (mapping !! file_id = Some [] ->
   AVSRManifestProcessor.process_text_by_file_id self file_id = Raise IndexError) /\
  (forall manifest_idx others,
     mapping !! file_id = Some (manifest_idx :: others) ->
     AVSRManifestProcessor.process_text_by_file_id self file_id
     = AVSRManifestProcessor.process_text_by_id self (Z.of_nat manifest_idx)).
Proof.
  cbv zeta. unfold AVSRManifestProcessor.process_text_by_file_id, py_dict_getitem.
  destruct (mapping (by_file_id (AVSRManifestProcessor.collection self)) !! file_id)
    as [[| i others] |] eqn:Hm; cbn.
  - split; [| split; [reflexivity | discriminate]].
    intros k. split; [discriminate | intros [_ [=]]].
  - split; [| split; [discriminate |]].
    + intros k. split; [| intros [_ [=]]].
      change (py_getitem (i :: others) 0) with (Ok (T := nat) i). cbn.
      intros H. apply bind_Raise in H as [H | (x & _ & [=])].
      apply py_getitem_Raise in H as [[=] _].
    + intros manifest_idx others' [= <- <-]. reflexivity.
  - split; [| split; discriminate].
    intros k. split; [intros [= <-]; auto | intros [-> _]; reflexivity].
Qed.
End ProcessorFacts.

(** ** The map-style dataset *)

Lemma align_returns_aligned {A F : Type} (zero : A) (zero_frame : F)
    (audio : list A) (video : list F) :
  exists audio' video',
    _AudioVideoTextDataset.align_audio_and_video zero zero_frame audio video
      = Ok (audio', video') /\
    shape0 video' = shape0 audio' / 640 + 1.
Proof.
  destruct (align_lengths zero zero_frame audio video)
    as (audio' & video' & Heq & [(Hp & Ha & Hv) | (Hp & Hv & Ha)]);
    exists audio', video'; (split; [exact Heq |]).
  - rewrite Ha. exact Hv.
  - rewrite Ha, Hv. rewrite Z.div_mul by lia. lia.
Qed.

(** A batch of samples that have all six or all seven elements zips into as
    many sequences. *)
Lemma len_packed_batch_uniform {A F : Type} (batch : list (@sample A F)) (n : nat) :
  batch <> [] -> Forall (fun b => tuple_len b = n) batch -> len_packed_batch batch = n.
Proof.
  intros Hne Hall. destruct (len_packed_batch_attained batch Hne) as (b & Hin & ->).
  rewrite Forall_forall in Hall. auto.
Qed.

(** The collation of a batch with matching lengths, with the sample ids it
    returns. *)
Lemma collate_matching_batch_dimensions {A F : Type} (zero : A)
    (zero_frame_of : Z * Z * Z -> F) (batch : list (@sample A F)) (pad_id : Z) :
  batch <> [] ->
  Forall six_or_seven batch ->
  Forall lengths_match batch ->
  one_frame_shape batch ->
  (len_packed_batch batch = 7%nat -> sample_ids_fit_int32 batch) ->
  exists out,
    _audio_video_speech_collate_fn zero zero_frame_of batch pad_id = Ok out /\
    dimensions_are_batch_maxima batch out /\
    out_sample_ids out
    = match len_packed_batch batch with
      | 7%nat => Some (column_sample_id batch)
      | _ => None
      end.
Proof.
  intros Hne H67 Hmatch Hshape Hfit.
  destruct (collate_matching_batch zero zero_frame_of batch pad_id Hne H67 Hmatch
              Hshape Hfit)
    as (frs & -> & Hfrs & Ht & Hout).
  eexists. split; [exact Hout |]. split; [| reflexivity].
  unfold dimensions_are_batch_maxima. rewrite !column_tuples.
  eexists _, _, _, _, _. cbn.
  split; [reflexivity |]. split; [reflexivity |].
  rewrite <- !list_fmap_compose.
  split; [apply list_max_is_max; nonempty |].
  split; [apply list_max_is_max; nonempty |].
  split; [apply list_max_is_max; nonempty |].
  unfold tuples. rewrite !length_fmap.
  split; [reflexivity |].
  split.
  { destruct (list_max_is_max ((fun fr => shape0 (audio_of fr.1)) <$> frs)) as [_ Hle];
      [nonempty |].
    rewrite Forall_fmap in Hle. rewrite !Forall_fmap.
    eapply Forall_impl; [exact Hle |]. intros fr Hfr. cbn in Hfr |- *.
    apply shape0_pad_end, Hfr. }
  split; [reflexivity |].
  split.
  { destruct (list_max_is_max ((fun fr => shape0 (video_of fr.1)) <$> frs)) as [_ Hle];
      [nonempty |].
    rewrite Forall_fmap in Hle. rewrite !Forall_fmap.
    eapply Forall_impl; [exact Hle |]. intros fr Hfr. cbn in Hfr |- *.
    apply shape0_pad_end, Hfr. }
  split; [reflexivity |].
  split; [| repeat split; reflexivity].
  destruct (list_max_is_max ((fun fr => shape0 (tokens_i fr.1)) <$> frs)) as [_ Hle];
    [nonempty |].
  rewrite Forall_fmap in Hle. rewrite Forall_fmap.
  rewrite Forall_forall in Hle. rewrite Forall_forall in Ht. rewrite Forall_forall.
  intros fr Hin. specialize (Hle _ Hin). specialize (Ht _ Hin).
  cbn in Hle |- *. unfold tokens_match in Ht. unfold token_row, shape0 in *.
  rewrite length_app, length_replicate. lia.
Qed.

Lemma py_getitem_Ok_range {X : Type} (l : list X) (i : Z) (x : X) :
  py_getitem l i = Ok x -> - Z.of_nat (length l) <= i < Z.of_nat (length l).
Proof.
  intros H.
  destruct (Z_lt_le_dec i (- Z.of_nat (length l))) as [Hlow | Hlow];
    [| destruct (Z_lt_le_dec i (Z.of_nat (length l))) as [Hhigh | Hhigh]; [lia |]].
  - assert (py_getitem l i = Raise IndexError) as Hr by (apply py_getitem_Raise; auto).
    congruence.
  - assert (py_getitem l i = Raise IndexError) as Hr by (apply py_getitem_Raise; auto).
    congruence.
Qed.

Section GetItemFacts.
Context {A F Time ChannelSelector : Type}.
Context (zero : A) (zero_frame_of : Z * Z * Z -> F) (zero_time : Time).
Context (audio_featurizer_process :
           string -> Time -> option Time -> bool -> option Z
           -> option ChannelSelector -> result (audio_features A)).
Context (video_featurizer_process :
           string -> Time -> option Time -> result (video_tensor F)).
Implicit Types (self : AudioVideoTextDataset.t Time ChannelSelector).
Implicit Types (entry : Entry Time) (b : @sample A F).

(** On 1-d audio the alignment of [__getitem__] returns, and the video it
    returns has the frame shape of the video it was given. *)
Lemma getitem_align_returns (audio : list A) (video : video_tensor F) :
  exists audio' video',
    AudioVideoTextDataset.align_audio_and_video zero zero_frame_of (Audio1d audio) video
      = Ok (audio', video') /\
    shape_tail video' = shape_tail video /\
    shape0 (frames video') = shape0 audio' / 640 + 1.
Proof.
  destruct (align_returns_aligned zero (zero_frame_of (shape_tail video)) audio
              (frames video)) as (audio' & video' & Halign & Hlen).
  exists audio', (VideoTensor (shape_tail video) video').
  unfold AudioVideoTextDataset.align_audio_and_video. rewrite Halign.
  split; [reflexivity |]. split; [reflexivity | exact Hlen].
Qed.

Lemma getitem_Ok self (index : Z) b :
  AudioVideoTextDataset.__getitem__ zero zero_frame_of zero_time
    audio_featurizer_process video_featurizer_process self index = Ok b <->
  exists entry audio video audio' video',
    py_getitem (entries self) index = Ok entry /\
    audio_of_entry zero_time audio_featurizer_process self entry = Ok audio /\
    video_of_entry zero_time video_featurizer_process entry = Ok video /\
    AudioVideoTextDataset.align_audio_and_video zero zero_frame_of audio video
      = Ok (audio', video') /\
    b = item_of self index entry audio' video'.
Proof.
  unfold AudioVideoTextDataset.__getitem__. split.
  - intros H.
    apply bind_Ok in H as (entry & Hentry & H).
    apply bind_Ok in H as (audio & Haudio & H).
    apply bind_Ok in H as (video & Hvideo & H).
    apply bind_Ok in H as ([audio' video'] & Halign & H).
    exists entry, audio, video, audio', video'.
    repeat (split; [assumption |]).
    unfold item_of.
    destruct (AVSRManifestProcessor.process_text_by_sample _ entry) as [t tl].
    injection H as <-. reflexivity.
  - intros (entry & audio & video & audio' & video' & Hentry & Haudio & Hvideo & Halign & ->).
    unfold entries in Hentry. rewrite Hentry. cbn [mbind result_bind].
    unfold audio_of_entry in Haudio. rewrite Haudio. cbn [mbind result_bind].
    unfold video_of_entry in Hvideo. rewrite Hvideo. cbn [mbind result_bind].
    rewrite Halign. cbn [mbind result_bind]. unfold item_of.
    destruct (AVSRManifestProcessor.process_text_by_sample _ entry) as [t tl].
    reflexivity.
Qed.

(** The audio of a returned item is 1-d: the alignment raises on anything
    else. *)
Lemma getitem_align_Ok (audio : audio_features A) (video : video_tensor F)
    (audio' : list A) (video' : video_tensor F) :
  AudioVideoTextDataset.align_audio_and_video zero zero_frame_of audio video
    = Ok (audio', video') ->
  shape_tail video' = shape_tail video /\
  shape0 (frames video') = shape0 audio' / 640 + 1.
Proof.
  destruct audio as [x | rows]; [| discriminate]. intros H.
  destruct (getitem_align_returns x video) as (a & v & Halign & Hshape & Hlen).
  rewrite Halign in H. injection H as <- <-. auto.
Qed.

Lemma item_of_matches self (index : Z) entry (audio : list A) (video : video_tensor F) :
  six_or_seven (item_of self index entry audio video) /\
  lengths_match (item_of self index entry audio video).
Proof.
  split.
  - unfold six_or_seven, item_of.
    destruct (AudioVideoTextDataset.return_sample_id self); cbn; auto.
  - unfold lengths_match, item_of. cbn.
    split; [eexists; split; reflexivity |].
    split; [eexists; split; reflexivity |].
    unfold tokens_match. cbn.
    apply (process_text_by_sample_length
             (AudioVideoTextDataset.manifest_processor self) entry).
Qed.

(** X5. When the index is a position of the collection, the audio featurizer
    returns a 1-d tensor and the video featurizer returns, [__getitem__]
    returns: the sample holds the aligned signals with their lengths, the
    processed text of the entry with its length, and the index as sample id
    when the dataset returns sample ids; it has 6 or 7 elements, every length
    entry equals the leading dimension of its tensor, the video keeps the
    shape of its frames, and the video length is the audio length // 640 + 1. *)
Theorem getitem_returns_aligned_sample self (index : Z) entry
    (audio : list A) (video : video_tensor F) :
  py_getitem (entries self) index = Ok entry ->
  audio_of_entry zero_time audio_featurizer_process self entry = Ok (Audio1d audio) ->
  video_of_entry zero_time video_featurizer_process entry = Ok video ->
  exists audio' video',
    AudioVideoTextDataset.align_audio_and_video zero zero_frame_of (Audio1d audio) video
      = Ok (audio', video') /\
    AudioVideoTextDataset.__getitem__ zero zero_frame_of zero_time
      audio_featurizer_process video_featurizer_process self index
    = Ok (item_of self index entry audio' video') /\
    shape_tail video' = shape_tail video /\
    shape0 (frames video') = shape0 audio' / 640 + 1 /\
    six_or_seven (item_of self index entry audio' video') /\
    lengths_match (item_of self index entry audio' video').
Proof.
  intros Hentry Haudio Hvideo.
  destruct (getitem_align_returns audio video)
    as (audio' & video' & Halign & Hshape & Hlen).
  exists audio', video'. split; [exact Halign |].
  split; [apply getitem_Ok; eauto 10 |].
  split; [exact Hshape |]. split; [exact Hlen |]. apply item_of_matches.
Qed.

(** X6. What [__getitem__] raises, exactly: [IndexError] for an index that
    is no position of the collection, before any file is read; the exception of
    the audio featurizer; the audio read, that of the video featurizer; and,
    both read, the [ValueError] of the unpacking [(Ta,) = shape] in the
    alignment when the audio featurizer returned a 2-d (multi-channel) tensor.
    On 1-d audio the alignment never raises, and text processing never does. *)
Theorem getitem_raises_only_index_or_featurizer_errors self (index : Z) (e : exn) :
  AudioVideoTextDataset.__getitem__ zero zero_frame_of zero_time
    audio_featurizer_process video_featurizer_process self index = Raise e <->
  (e = IndexError /\
   (index < - Z.of_nat (length (entries self))
    \/ Z.of_nat (length (entries self)) <= index)) \/
  (exists entry,
     py_getitem (entries self) index = Ok entry /\
     (audio_of_entry zero_time audio_featurizer_process self entry = Raise e \/
      (exists audio, audio_of_entry zero_time audio_featurizer_process self entry = Ok audio /\
                     video_of_entry zero_time video_featurizer_process entry = Raise e) \/
      (exists rows video,
         audio_of_entry zero_time audio_featurizer_process self entry = Ok (Audio2d rows) /\
         video_of_entry zero_time video_featurizer_process entry = Ok video /\
         e = ValueError "too many values to unpack (expected 1)"))).
Proof.
  unfold AudioVideoTextDataset.__getitem__. fold (entries self).
  destruct (py_getitem (entries self) index) as [entry | e'] eqn:Hentry;
    cbn [mbind result_bind].
  - fold (audio_of_entry zero_time audio_featurizer_process self entry).
    fold (video_of_entry zero_time video_featurizer_process entry).
    assert (Hin : ~ (index < - Z.of_nat (length (entries self))
                     \/ Z.of_nat (length (entries self)) <= index)).
    { apply py_getitem_Ok_range in Hentry. lia. }
    destruct (audio_of_entry zero_time audio_featurizer_process self entry)
      as [audio | ea] eqn:Haudio; cbn [mbind result_bind].
    + destruct (video_of_entry zero_time video_featurizer_process entry)
        as [video | ev] eqn:Hvideo; cbn [mbind result_bind].
      * destruct audio as [x | rows].
        -- destruct (getitem_align_returns x video) as (audio' & video' & -> & _).
           cbn [mbind result_bind].
           destruct (AVSRManifestProcessor.process_text_by_sample _ entry) as [t tl].
           split; [discriminate |].
           intros [[_ Hout] | (entry' & [= <-] & [H | [(a & _ & H) | (r & v & H & _)]])];
             [contradiction | congruence ..].
        -- cbn [AudioVideoTextDataset.align_audio_and_video mbind result_bind]. split.
           ++ intros [= <-]. right. exists entry. split; [reflexivity |].
              right. right. exists rows, video. auto.
           ++ intros [[_ Hout] | (entry' & [= <-] & [H | [(a & _ & H) | (r & v & _ & _ & ->)]])];
                [contradiction | congruence | congruence | reflexivity].
      * split.
        -- intros [= <-]. right. exists entry. split; [reflexivity |].
           right. left. exists audio. split; assumption.
        -- intros [[_ Hout] | (entry' & [= <-] & [H | [(a & _ & H) | (r & v & _ & H & _)]])];
             [contradiction | congruence ..].
    + split.
      * intros [= <-]. right. exists entry. split; [reflexivity | left; assumption].
      * intros [[_ Hout] | (entry' & [= <-] & [H | [(a & H & _) | (r & v & H & _)]])];
          [contradiction | congruence ..].
  - apply py_getitem_Raise in Hentry as [-> Hout]. split.
    + intros [= <-]. left. auto.
    + intros [[-> _] | (entry' & [=] & _)]. reflexivity.
Qed.

(** X7. Items compose with the collation: take a list of indices that is not
    empty and whose items [__getitem__] all returns, in a dataset of at most
    2^31 entries, the videos of the items having frames of one shape.
    [_collate_fn] of these items returns; the tensors it returns have the batch
    maxima as dimensions, and the sample ids are the indices, in order, when
    the dataset returns sample ids, and [None] otherwise. *)
Theorem collate_fn_of_items self (indices : list Z) (batch : list (@sample A F)) :
  indices <> [] ->
  Forall2 (fun index b =>
             AudioVideoTextDataset.__getitem__ zero zero_frame_of zero_time
               audio_featurizer_process video_featurizer_process self index = Ok b)
    indices batch ->
  one_frame_shape batch ->
  Z.of_nat (AudioVideoTextDataset.__len__ self) <= 2147483648 ->
  exists out,
    AudioVideoTextDataset._collate_fn zero zero_frame_of self batch = Ok out /\
    dimensions_are_batch_maxima batch out /\
    out_sample_ids out
    = if AudioVideoTextDataset.return_sample_id self then Some indices else None.
Proof.
  intros Hne Hitems Hone Hsize.
  assert (Hshape : Forall2 (fun index b =>
            exists f, b = Tuple f (if AudioVideoTextDataset.return_sample_id self
                                   then [index] else [])
                      /\ six_or_seven b /\ lengths_match b
                      /\ -2147483648 <= index <= 2147483647) indices batch).
  { eapply Forall2_impl; [exact Hitems |]. intros index b Hb.
    apply getitem_Ok in Hb as (entry & a & v & a' & v' & Hentry & _ & _ & _ & ->).
    eexists. split; [reflexivity |].
    split; [apply item_of_matches |]. split; [apply item_of_matches |].
    apply py_getitem_Ok_range in Hentry.
    unfold AudioVideoTextDataset.__len__ in Hsize. fold (entries self) in Hsize. lia. }
  clear Hitems.
  assert (Hbatch : batch <> []).
  { intros ->. apply Forall2_nil_inv_r in Hshape. contradiction. }
  assert (H67 : Forall six_or_seven batch).
  { clear -Hshape. induction Hshape as [| i b idxs bs (f & _ & H & _) _ IH]; constructor; auto. }
  assert (Hmatch : Forall lengths_match batch).
  { clear -Hshape. induction Hshape as [| i b idxs bs (f & _ & _ & H & _) _ IH]; constructor; auto. }
  assert (Hfit : sample_ids_fit_int32 batch).
  { clear -Hshape. unfold sample_ids_fit_int32.
    induction Hshape as [| i b idxs bs (f & -> & _ & _ & Hi) _ IH]; [constructor |].
    destruct (AudioVideoTextDataset.return_sample_id self).
    - change (column_sample_id (Tuple f [i] :: bs)) with (i :: column_sample_id bs).
      constructor; [exact Hi | exact IH].
    - exact IH. }
  unfold AudioVideoTextDataset._collate_fn.
  destruct (collate_matching_batch_dimensions zero zero_frame_of batch
              (AVSRManifestProcessor.pad_id (AudioVideoTextDataset.manifest_processor self))
              Hbatch H67 Hmatch Hone (fun _ => Hfit)) as (out & Hout & Hdims & Hids).
  exists out. split; [exact Hout |]. split; [exact Hdims |].
  rewrite Hids. destruct (AudioVideoTextDataset.return_sample_id self).
  - rewrite (len_packed_batch_uniform batch 7 Hbatch).
    + f_equal. clear -Hshape.
      induction Hshape as [| i b idxs bs (f & -> & _) _ IH]; [reflexivity |].
      cbn. unfold column_sample_id in IH. rewrite IH. reflexivity.
    + clear -Hshape.
      induction Hshape as [| i b idxs bs (f & -> & _) _ IH]; constructor; auto.
  - rewrite (len_packed_batch_uniform batch 6 Hbatch); [reflexivity |].
    clear -Hshape.
    induction Hshape as [| i b idxs bs (f & -> & _) _ IH]; constructor; auto.
Qed.
End GetItemFacts.

(** ** Tokenizers *)

(** X8. The ids the BPE datasets take from a tokenizer.  Both BPE datasets
    compute the same three ids, whatever their collections, and the tarred one
    keeps for itself the ids it hands to its processor.  The processor gets a
    BOS (EOS) id exactly when start and end tokens are asked for and the
    tokenizer has that id and it is positive; its pad id is the tokenizer's
    when that is positive and 0 otherwise, hence never negative.  Without start
    and end tokens the processed text of an entry is its tokens, unchanged. *)
Theorem bpe_datasets_special_ids {Time ChannelSelector : Type}
    (collection tarred_collection : ASRVideoAudioText Time) (tokenizer : Tokenizer)
    (trim use_start_end_token return_sample_id : bool)
    (channel_selector : option ChannelSelector) :
  let processor :=
    AudioVideoTextDataset.manifest_processor
      (AudioAndVideoToBPEDataset.__init__ collection tokenizer trim
         use_start_end_token return_sample_id channel_selector) in
  let tarred :=
    TarredAudioAndVideoToBPEDataset.__init__ tarred_collection tokenizer trim
      use_start_end_token return_sample_id in
  let tarred_processor := TarredAudioAndVideoToTextDataset.manifest_processor tarred in
  AVSRManifestProcessor.bos_id tarred_processor = AVSRManifestProcessor.bos_id processor /\
  AVSRManifestProcessor.eos_id tarred_processor = AVSRManifestProcessor.eos_id processor /\
  AVSRManifestProcessor.pad_id tarred_processor = AVSRManifestProcessor.pad_id processor /\
  TarredAudioAndVideoToTextDataset.bos_id tarred = AVSRManifestProcessor.bos_id processor /\
  TarredAudioAndVideoToTextDataset.eos_id tarred = AVSRManifestProcessor.eos_id processor /\
  TarredAudioAndVideoToTextDataset.pad_id tarred = AVSRManifestProcessor.pad_id processor /\
  (forall bos, AVSRManifestProcessor.bos_id processor = Some bos
               <-> use_start_end_token = true /\ tok_bos_id tokenizer = Some bos /\ 0 < bos) /\
  (forall eos, AVSRManifestProcessor.eos_id processor = Some eos
               <-> use_start_end_token = true /\ tok_eos_id tokenizer = Some eos /\ 0 < eos) /\
  0 <= AVSRManifestProcessor.pad_id processor /\
  (forall pad, 0 < pad ->
     (AVSRManifestProcessor.pad_id processor = pad <-> tok_pad_id tokenizer = Some pad)) /\
  (use_start_end_token = false ->
   forall sample,
     AVSRManifestProcessor.process_text_by_sample processor sample
     = (text_tokens sample, shape0 (text_tokens sample))).
Proof.
  cbv zeta. cbn.
  repeat (split; [reflexivity |]).
  split; [| split; [| split; [| split]]].
  - intros bos. unfold bpe_bos_id.
    destruct (tok_bos_id tokenizer) as [b |], use_start_end_token; cbn;
      try (split; [discriminate | intros (? & ? & ?); discriminate]).
    destruct (Z.ltb_spec 0 b).
    + split; [intros [= ->]; auto | intros (_ & [= ->] & _); reflexivity].
    + split; [discriminate | intros (_ & [= ->] & ?); lia].
  - intros eos. unfold bpe_eos_id.
    destruct (tok_eos_id tokenizer) as [b |], use_start_end_token; cbn;
      try (split; [discriminate | intros (? & ? & ?); discriminate]).
    destruct (Z.ltb_spec 0 b).
    + split; [intros [= ->]; auto | intros (_ & [= ->] & _); reflexivity].
    + split; [discriminate | intros (_ & [= ->] & ?); lia].
  - unfold bpe_pad_id. destruct (tok_pad_id tokenizer) as [b |]; [| lia].
    destruct (Z.ltb_spec 0 b); lia.
  - intros pad Hpad. unfold bpe_pad_id.
    destruct (tok_pad_id tokenizer) as [b |].
    + destruct (Z.ltb_spec 0 b).
      * split; [intros ->; reflexivity | intros [= ->]; reflexivity].
      * split; [lia | intros [= ->]; lia].
    + split; [lia | discriminate].
  - intros -> sample. unfold AVSRManifestProcessor.process_text_by_sample. cbn.
    unfold bpe_bos_id, bpe_eos_id.
    destruct (tok_bos_id tokenizer), (tok_eos_id tokenizer); reflexivity.
Qed.

Lemma extend_spans_acc (tokenizer : Tokenizer) (spans : list (gmap string string))
    (t : list Z) :
  extend_spans tokenizer spans t
  = (ids ← extend_spans tokenizer spans []; Ok (t ++ ids)).
Proof.
  revert t. induction spans as [| span rest IH]; intros t.
  - cbn. rewrite app_nil_r. reflexivity.
  - cbn [extend_spans].
    destruct (py_dict_getitem span "str") as [s | e]; [| reflexivity].
    cbn [mbind result_bind].
    destruct (py_dict_getitem span "lang") as [lang | e]; [| reflexivity].
    cbn [mbind result_bind].
    destruct (text_to_ids tokenizer [Str s; Str lang]) as [ids | e]; [| reflexivity].
    cbn [mbind result_bind]. rewrite (IH (t ++ ids)), (IH ([] ++ ids)).
    destruct (extend_spans tokenizer rest []) as [r | e]; [| reflexivity].
    cbn. rewrite app_assoc. reflexivity.
Qed.

Lemma extend_spans_app (tokenizer : Tokenizer) (l1 l2 : list (gmap string string)) :
  extend_spans tokenizer (l1 ++ l2) []
  = (ids1 ← extend_spans tokenizer l1 [];
     ids2 ← extend_spans tokenizer l2 [];
     Ok (ids1 ++ ids2)).
Proof.
  induction l1 as [| span rest IH].
  - cbn. destruct (extend_spans tokenizer l2 []); reflexivity.
  - cbn [app extend_spans].
    destruct (py_dict_getitem span "str") as [s | e]; [| reflexivity].
    cbn [mbind result_bind].
    destruct (py_dict_getitem span "lang") as [lang | e]; [| reflexivity].
    cbn [mbind result_bind].
    destruct (text_to_ids tokenizer [Str s; Str lang]) as [ids | e]; [| reflexivity].
    cbn [mbind result_bind].
    rewrite (extend_spans_acc tokenizer (rest ++ l2)), (extend_spans_acc tokenizer rest).
    rewrite IH.
    destruct (extend_spans tokenizer rest []) as [r1 | e]; [| reflexivity].
    cbn [mbind result_bind].
    destruct (extend_spans tokenizer l2 []) as [r2 | e]; [| reflexivity].
    cbn. rewrite app_assoc. reflexivity.
Qed.

(** X9. With an aggregate tokenizer, both tokenizer wrappers turn a list of
    spans into the ids of its spans, one after the other: no span gives no id,
    the ids of two lists put end to end are the ids of the first followed by
    those of the second (the first exception, in that order, otherwise), and
    the arguments after the first are not read. *)
Theorem tokenizer_wrapper_concatenates_spans (tokenizer : Tokenizer)
    (l1 l2 : list (gmap string string)) (more : list pyarg) :
  tok_is_aggregate tokenizer = true ->
  AudioAndVideoToBPEDataset.TokenizerWrapper tokenizer (Spans [] :: more) = Ok [] /\
  AudioAndVideoToBPEDataset.TokenizerWrapper tokenizer (Spans (l1 ++ l2) :: more)
  = (ids1 ← AudioAndVideoToBPEDataset.TokenizerWrapper tokenizer [Spans l1];
     ids2 ← AudioAndVideoToBPEDataset.TokenizerWrapper tokenizer [Spans l2];
     Ok (ids1 ++ ids2)) /\
  TarredAudioAndVideoToBPEDataset.TokenizerWrapper tokenizer (Spans (l1 ++ l2) :: more)
  = AudioAndVideoToBPEDataset.TokenizerWrapper tokenizer (Spans (l1 ++ l2) :: more).
Proof.
  intros Hagg.
  unfold AudioAndVideoToBPEDataset.TokenizerWrapper,
    TarredAudioAndVideoToBPEDataset.TokenizerWrapper.
  rewrite Hagg. split; [reflexivity |]. split; [apply extend_spans_app | reflexivity].
Qed.


(** ** File ids *)

Lemma chars_substring (s : string) (n m : nat) :
  list_ascii_of_string (String.substring n m s)
  = take m (drop n (list_ascii_of_string s)).
Proof.
  revert n m. induction s as [| c s IH]; intros [| n] [| m]; cbn; try reflexivity.
  - rewrite IH. reflexivity.
  - apply IH.
  - apply IH.
Qed.

Lemma chars_append (s1 s2 : string) :
  list_ascii_of_string (s1 +:+ s2)
  = list_ascii_of_string s1 ++ list_ascii_of_string s2.
Proof.
  induction s1 as [| c s1 IH]; [reflexivity |].
  change (c :: list_ascii_of_string (s1 +:+ s2)
          = c :: (list_ascii_of_string s1 ++ list_ascii_of_string s2)).
  f_equal. exact IH.
Qed.

Lemma chars_inj (s1 s2 : string) :
  list_ascii_of_string s1 = list_ascii_of_string s2 -> s1 = s2.
Proof.
  intros H. rewrite <- (string_of_list_ascii_of_string s1),
    <- (string_of_list_ascii_of_string s2), H. reflexivity.
Qed.

Lemma chars_length (s : string) :
  length (list_ascii_of_string s) = String.length s.
Proof. induction s as [| c s IH]; cbn; [reflexivity | rewrite IH; reflexivity]. Qed.

Lemma chars_slice (p : string) (i j : Z) :
  list_ascii_of_string (slice p i j)
  = take (Z.to_nat (j - i)) (drop (Z.to_nat i) (list_ascii_of_string p)).
Proof. apply chars_substring. Qed.

(** [rfind] returns -1 or the last index of the character. *)
Lemma rfind_from_spec (c : ascii) (p : string) (i found : Z) :
  found < i ->
  let r := rfind_from c p i found in
  (r = found \/ (i <= r < i + strlen p
                 /\ list_ascii_of_string p !! Z.to_nat (r - i) = Some c)) /\
  Forall (fun x => x <> c) (drop (Z.to_nat (r + 1 - i)) (list_ascii_of_string p)).
Proof.
  cbv zeta. revert i found. induction p as [| x p IH]; intros i found Hlt.
  - cbn. split; [left; reflexivity | rewrite drop_nil; constructor].
  - cbn [rfind_from list_ascii_of_string].
    set (found' := if Ascii.eqb x c then i else found).
    assert (Hlt' : found' < i + 1) by (subst found'; destruct (Ascii.eqb x c); lia).
    destruct (IH (i + 1) found' Hlt') as [Hr Hdrop].
    set (r := rfind_from c p (i + 1) found') in *.
    assert (Hlen : strlen (String x p) = strlen p + 1)
      by (unfold strlen; cbn [String.length]; lia).
    assert (Hpos : 0 <= strlen p) by (unfold strlen; lia).
    destruct Hr as [Hr | (Hrange & Hget)].
    + subst found'. destruct (Ascii.eqb_spec x c) as [-> | Hx].
      * split.
        -- right. split; [lia |]. rewrite Hr.
           replace (Z.to_nat (i - i)) with 0%nat by lia. reflexivity.
        -- rewrite Hr in Hdrop |- *.
           replace (Z.to_nat (i + 1 - i)) with 1%nat by lia.
           replace (Z.to_nat (i + 1 - (i + 1))) with 0%nat in Hdrop by lia.
           exact Hdrop.
      * split; [left; exact Hr |].
        rewrite Hr in Hdrop |- *.
        replace (Z.to_nat (found + 1 - i)) with 0%nat by lia.
        replace (Z.to_nat (found + 1 - (i + 1))) with 0%nat in Hdrop by lia.
        cbn in Hdrop |- *. constructor; assumption.
    + split.
      * right. split; [lia |].
        replace (Z.to_nat (r - i)) with (S (Z.to_nat (r - (i + 1)))) by lia.
        exact Hget.
      * replace (Z.to_nat (r + 1 - i)) with (S (Z.to_nat (r + 1 - (i + 1)))) by lia.
        exact Hdrop.
Qed.

Lemma rfind_absent (c : ascii) (p : string) :
  Forall (fun x => x <> c) (list_ascii_of_string p) -> rfind p c = -1.
Proof.
  unfold rfind. generalize 0 (-1).
  induction p as [| x p IH]; intros i found Hall; [reflexivity |].
  cbn in Hall |- *. apply Forall_cons in Hall as [Hx Hall].
  destruct (Ascii.eqb_spec x c); [contradiction | apply IH, Hall].
Qed.

Lemma slice_whole (p : string) : slice p 0 (strlen p) = p.
Proof.
  apply chars_inj. rewrite chars_slice. cbn.
  unfold strlen. rewrite Z.sub_0_r, Nat2Z.id, <- chars_length.
  apply firstn_all.
Qed.

(** [splitext] cuts its argument in two. *)
Lemma splitext_spec (q : string) :
  q = (splitext q).1 +:+ (splitext q).2 /\
  ((splitext q).2 = EmptyString \/
   exists rest, list_ascii_of_string (splitext q).2 = "."%char :: rest
                /\ Forall (fun x => x <> "."%char) rest) /\
  exists n, list_ascii_of_string (splitext q).1 = take n (list_ascii_of_string q).
Proof.
  unfold splitext.
  destruct (Z.ltb_spec (rfind q "/") (rfind q ".")) as [Hlt | Hge].
  2: { cbn. split; [| split; [left; reflexivity |]].
       - apply chars_inj. rewrite chars_append. cbn. rewrite app_nil_r. reflexivity.
       - exists (length (list_ascii_of_string q)). symmetry. apply firstn_all. }
  destruct (only_dots _).
  { cbn. split; [| split; [left; reflexivity |]].
    - apply chars_inj. rewrite chars_append. cbn. rewrite app_nil_r. reflexivity.
    - exists (length (list_ascii_of_string q)). symmetry. apply firstn_all. }
  cbn [fst snd].
  destruct (rfind_from_spec "." q 0 (-1) ltac:(lia)) as [Hr Hdrop].
  fold (rfind q ".") in Hr, Hdrop.
  assert (Hsep : -1 <= rfind q "/").
  { destruct (rfind_from_spec "/" q 0 (-1) ltac:(lia)) as [[H | (H & _)] _];
      fold (rfind q "/") in H; lia. }
  destruct Hr as [Hr | (Hrange & Hget)]; [lia |].
  set (d := rfind q ".") in *.
  rewrite Z.sub_0_r in Hget, Hdrop.
  assert (Hlen : Z.to_nat (strlen q - d)
                 = (length (list_ascii_of_string q) - Z.to_nat d)%nat)
    by (rewrite chars_length; unfold strlen in *; lia).
  assert (Hext : list_ascii_of_string (slice q d (strlen q))
                 = drop (Z.to_nat d) (list_ascii_of_string q)).
  { rewrite chars_slice, Hlen. rewrite <- (length_drop (list_ascii_of_string q)).
    apply firstn_all. }
  split; [| split].
  - apply chars_inj. rewrite chars_append, Hext, chars_slice.
    rewrite Z.sub_0_r. cbn [Z.to_nat drop]. symmetry. apply take_drop.
  - right. exists (drop (Z.to_nat (d + 1)) (list_ascii_of_string q)).
    rewrite Hext. split; [| exact Hdrop].
    replace (Z.to_nat (d + 1)) with (S (Z.to_nat d)) by lia.
    apply drop_S. exact Hget.
  - exists (Z.to_nat d). rewrite chars_slice, Z.sub_0_r. reflexivity.
Qed.

(** X11. The file id the stages compute from a name.  The base name of the
    name is its file id followed by an extension; the extension is empty or
    starts with a dot and holds no second one; and neither the base name nor the
    file id holds a slash, so a name with a directory in it is never its own
    file id. *)
Theorem file_id_of_has_no_directory (audio_filename : string) :
  exists ext,
    basename audio_filename = file_id_of audio_filename +:+ ext /\
    (ext = EmptyString \/
     exists rest, list_ascii_of_string ext = "."%char :: rest
                  /\ Forall (fun x => x <> "."%char) rest) /\
    Forall (fun x => x <> "/"%char) (list_ascii_of_string (basename audio_filename)) /\
    Forall (fun x => x <> "/"%char) (list_ascii_of_string (file_id_of audio_filename)) /\
    (~ Forall (fun x => x <> "/"%char) (list_ascii_of_string audio_filename) ->
     file_id_of audio_filename <> audio_filename).
Proof.
  unfold file_id_of.
  destruct (splitext_spec (basename audio_filename)) as (Hcut & Hext & n & Hroot).
  assert (Hbase : Forall (fun x => x <> "/"%char)
                    (list_ascii_of_string (basename audio_filename))).
  { unfold basename. rewrite chars_slice.
    destruct (rfind_from_spec "/" audio_filename 0 (-1) ltac:(lia)) as [_ Hdrop].
    fold (rfind audio_filename "/") in Hdrop. rewrite Z.sub_0_r in Hdrop.
    apply Forall_take, Hdrop. }
  assert (Hid : Forall (fun x => x <> "/"%char)
                  (list_ascii_of_string (splitext (basename audio_filename)).1)).
  { rewrite Hroot. apply Forall_take, Hbase. }
  exists (splitext (basename audio_filename)).2.
  split; [exact Hcut |]. split; [exact Hext |]. split; [exact Hbase |].
  split; [exact Hid |].
  intros Hslash Heq. apply Hslash. rewrite <- Heq. exact Hid.
Qed.

(** A name without slash and without dot is its own file id. *)
Lemma file_id_of_flat (audio_filename : string) :
  Forall (fun x => x <> "/"%char /\ x <> "."%char)
    (list_ascii_of_string audio_filename) ->
  file_id_of audio_filename = audio_filename.
Proof.
  intros Hflat.
  assert (Hslash : rfind audio_filename "/" = -1).
  { apply rfind_absent. eapply Forall_impl; [exact Hflat |]. intros x [H _]. exact H. }
  assert (Hdot : rfind audio_filename "." = -1).
  { apply rfind_absent. eapply Forall_impl; [exact Hflat |]. intros x [_ H]. exact H. }
  unfold file_id_of, basename. rewrite Hslash. cbn [Z.add].
  change (-1 + 1) with 0. rewrite slice_whole.
  unfold splitext. rewrite Hslash, Hdot. reflexivity.
Qed.

(** ** The stages, once more *)

Section StageFactsMore.
Context {AudioBytes VideoBytes : Type}.
Abbreviation item := (AudioBytes * VideoBytes * string)%type.
Implicit Types (collection : Collection) (items : list item).

(** X12. On a shard whose names hold neither a slash nor a dot, and with a
    mapping that gives every file at least one manifest index, [_filter] and
    [_loop_offsets] together yield, for every kept item in turn, one output per
    manifest index of its file, with the offset ids 0, 1, ... in order, and
    then end with the upstream. *)
Theorem loop_offsets_one_output_per_offset collection items (extra : nat) :
  (forall k l, mapping collection !! k = Some l -> l <> []) ->
  Forall (fun x : item =>
            Forall (fun ch => ch <> "/"%char /\ ch <> "."%char)
              (list_ascii_of_string x.2)) items ->
  drain (S (length (flat_map (one_per_offset collection)
                      (filter (in_manifest collection) items))) + extra)
    (_loop_offsets collection (_filter collection items))
  = (flat_map (one_per_offset collection) (filter (in_manifest collection) items),
     Some StopIteration).
Proof.
  intros Hne Hflat. apply drain_loop_offsets.
  - exact Hne.
  - eapply Forall_impl; [exact Hflat |]. intros x Hx. apply file_id_of_flat, Hx.
  - exact I.
  - lia.
Qed.

(** X13. A kept item whose name holds a slash, when no key of the mapping
    does, is yielded once, with offset id 0; the next call of [_loop_offsets]
    looks the name itself up in the mapping and raises [KeyError], whatever
    follows in the stream. *)
Theorem loop_offsets_directory_name_raises collection (x : item) items (fuel : nat) :
  in_manifest collection x ->
  ~ Forall (fun ch => ch <> "/"%char) (list_ascii_of_string x.2) ->
  (forall k, is_Some (mapping collection !! k) ->
             Forall (fun ch => ch <> "/"%char) (list_ascii_of_string k)) ->
  drain (2 + fuel) (_loop_offsets collection (_filter collection (x :: items)))
  = ([(x, 0%nat)], Some (KeyError x.2)).
Proof.
  intros Hin Hslash Hkeys. apply loop_offsets_name_not_a_key; [exact Hin |].
  destruct (mapping collection !! x.2) as [l |] eqn:Hl; [| reflexivity].
  exfalso. apply Hslash, Hkeys. rewrite Hl. eauto.
Qed.
End StageFactsMore.

Lemma drain_map {I X Y : Type} `{PyIterator I X} (f : X -> result Y) :
  forall (fuel : nat) (source : I) (xs : list X) (e : exn),
    drain fuel source = (xs, Some e) ->
    drain fuel (Map source f) = map_until f xs e.
Proof.
  induction fuel as [| fuel IH]; intros source xs e Hsource; [discriminate |].
  rewrite drain_S in Hsource. rewrite drain_S.
  unfold py_next at 1. unfold map_iterator at 1. cbn [map_source map_f].
  destruct (py_next source) as [[x source'] | e0]; cbn [mbind result_bind].
  - destruct (drain fuel source') as [xs' e'] eqn:Hrest.
    injection Hsource as <- ->. cbn [map_until].
    destruct (f x) as [y | err]; cbn [mbind result_bind map_f map_source];
      [| reflexivity].
    rewrite (IH source' xs' e Hrest). reflexivity.
  - injection Hsource as <- <-. reflexivity.
Qed.

(** ** The tarred dataset *)

Section BuildSampleFacts.
Context {A F Time AudioBytes : Type}.
Context (zero : A) (zero_time : Time).
Context (zero_frame_of : Z * Z * Z -> F) (repeat_96_96 : F -> F).
Context (featurizer_process :
           AudioBytes -> Time -> option Time -> bool -> option Z
           -> result (audio_features A)).
Implicit Types (self : TarredAudioAndVideoToTextDataset.t Time).
Implicit Types (entry : Entry Time) (b : @sample A F).
Implicit Types (video_tuple : video_tensor F).

Lemma built_sample_cases self (manifest_idx : nat) entry (audio : list A)
    (video : video_tensor F) :
  built_sample self manifest_idx entry audio video
  = let t := text_tokens entry in
    let tl := shape0 (text_tokens entry) in
    let '(t, tl) :=
      match TarredAudioAndVideoToTextDataset.bos_id self with
      | Some bos => ([bos] ++ t, tl + 1)
      | None => (t, tl)
      end in
    let '(t, tl) :=
      match TarredAudioAndVideoToTextDataset.eos_id self with
      | Some eos => (t ++ [eos], tl + 1)
      | None => (t, tl)
      end in
    Tuple (Fields (Some audio) (Some (shape0 audio)) (Some video)
             (Some (shape0 (frames video))) t tl)
          (if TarredAudioAndVideoToTextDataset.return_sample_id self
           then [Z.of_nat manifest_idx] else []).
Proof.
  unfold built_sample.
  destruct (TarredAudioAndVideoToTextDataset.bos_id self),
    (TarredAudioAndVideoToTextDataset.eos_id self);
    cbn; rewrite ?app_nil_r; do 2 f_equal;
    unfold shape0; cbn; rewrite ?length_app; cbn; lia.
Qed.

Lemma build_sample_Ok self (audio_bytes : AudioBytes) video_tuple
    (audio_filename : string) (offset_id : nat) b :
  TarredAudioAndVideoToTextDataset._build_sample zero zero_time zero_frame_of
    repeat_96_96 featurizer_process self
    (audio_bytes, video_tuple, audio_filename, offset_id) = Ok b <->
  exists offsets manifest_idx entry features audio audio' video',
    mapping (tarred_mapping self) !! file_id_of audio_filename = Some offsets /\
    offsets !! offset_id = Some manifest_idx /\
    tarred_entries self !! manifest_idx = Some entry /\
    features_of_entry zero_time featurizer_process self audio_bytes entry = Ok features /\
    TarredAudioAndVideoToTextDataset.squeeze_channel_dim features = Ok audio /\
    aligned_of zero zero_frame_of repeat_96_96 audio video_tuple = Ok (audio', video') /\
    b = built_sample self manifest_idx entry audio' video'.
Proof.
  unfold TarredAudioAndVideoToTextDataset._build_sample.
  fold (tarred_mapping self). fold (tarred_entries self).
  unfold py_dict_getitem. split.
  - intros H.
    destruct (mapping (tarred_mapping self) !! file_id_of audio_filename)
      as [offsets |] eqn:Hoffsets; [| discriminate].
    cbn [mbind result_bind] in H.
    rewrite py_getitem_nat in H.
    destruct (offsets !! offset_id) as [manifest_idx |] eqn:Hidx; [| discriminate].
    cbn [mbind result_bind] in H.
    rewrite py_getitem_nat in H.
    destruct (tarred_entries self !! manifest_idx) as [entry |] eqn:Hentry;
      [| discriminate].
    cbn [mbind result_bind] in H.
    apply bind_Ok in H as (features & Hfeatures & H).
    apply bind_Ok in H as (audio & Haudio & H).
    apply bind_Ok in H as ([audio' video'] & Halign & H).
    exists offsets, manifest_idx, entry, features, audio, audio', video'.
    repeat (split; [assumption || reflexivity |]).
    rewrite built_sample_cases. cbv zeta.
    destruct (TarredAudioAndVideoToTextDataset.bos_id self),
      (TarredAudioAndVideoToTextDataset.eos_id self);
      injection H as <-; reflexivity.
  - intros (offsets & manifest_idx & entry & features & audio & audio' & video'
            & -> & Hidx & Hentry & Hfeatures & Haudio & Halign & ->).
    cbn [mbind result_bind]. rewrite py_getitem_nat, Hidx. cbn [mbind result_bind].
    rewrite py_getitem_nat, Hentry. cbn [mbind result_bind].
    unfold features_of_entry in Hfeatures. rewrite Hfeatures. cbn [mbind result_bind].
    rewrite Haudio. cbn [mbind result_bind].
    unfold aligned_of in Halign. rewrite Halign. cbn [mbind result_bind].
    rewrite built_sample_cases. cbv zeta.
    destruct (TarredAudioAndVideoToTextDataset.bos_id self),
      (TarredAudioAndVideoToTextDataset.eos_id self); reflexivity.
Qed.

Lemma built_sample_matches self (manifest_idx : nat) entry (audio : list A)
    (video : video_tensor F) :
  six_or_seven (built_sample self manifest_idx entry audio video) /\
  lengths_match (built_sample self manifest_idx entry audio video).
Proof.
  split.
  - unfold six_or_seven, built_sample.
    destruct (TarredAudioAndVideoToTextDataset.return_sample_id self); cbn; auto.
  - unfold lengths_match, built_sample. cbn.
    split; [eexists; split; reflexivity |].
    split; [eexists; split; reflexivity |]. reflexivity.
Qed.

Lemma squeeze_channel_dim_Raise (features : audio_features A) (e : exn) :
  TarredAudioAndVideoToTextDataset.squeeze_channel_dim features = Raise e ->
  e = IndexError.
Proof.
  unfold TarredAudioAndVideoToTextDataset.squeeze_channel_dim.
  destruct features as [x | rows]; [discriminate |].
  destruct (Nat.ltb _ _).
  - destruct (mapM head rows); [discriminate | congruence].
  - destruct rows; [congruence | discriminate].
Qed.

Lemma aligned_of_returns (audio : list A) video_tuple :
  exists audio' video',
    aligned_of zero zero_frame_of repeat_96_96 audio video_tuple = Ok (audio', video') /\
    shape_tail video'
    = shape_tail (TarredAudioAndVideoToTextDataset.repeat_1x1x3 repeat_96_96 video_tuple) /\
    shape0 (frames video') = shape0 audio' / 640 + 1.
Proof.
  unfold aligned_of, TarredAudioAndVideoToTextDataset.align_audio_and_video.
  set (video := TarredAudioAndVideoToTextDataset.repeat_1x1x3 repeat_96_96 video_tuple).
  rewrite align_audio_and_video_same.
  destruct (align_returns_aligned zero (zero_frame_of (shape_tail video)) audio
              (frames video)) as (audio' & video' & Halign & Hlen).
  exists audio', (VideoTensor (shape_tail video) video'). rewrite Halign.
  split; [reflexivity |]. split; [reflexivity | exact Hlen].
Qed.

(** X14. When the file id of the item is a key of the mapping, the offset id
    a position of its list, the manifest index found there a position of the
    collection, and the featurizer returns a tensor that is 1-d or has a row
    and a column, [_build_sample] returns: the sample holds the aligned signals
    with their lengths, the entry's tokens between the dataset's BOS and EOS
    ids with their number, and the manifest index as sample id when the dataset
    returns sample ids.  It has 6 or 7 elements, every length entry equals the
    leading dimension of its tensor, the video has the frame shape of the
    decoded video ((96, 96, 3) for a decoded (1, 1, 3)), the video length is the
    audio length // 640 + 1, and [get_manifest_sample] at the manifest index
    gives the entry back. *)
Theorem build_sample_returns_aligned_sample self (audio_bytes : AudioBytes)
    video_tuple (audio_filename : string) (offset_id : nat)
    (offsets : list nat) (manifest_idx : nat) entry
    (features : audio_features A) (audio : list A) :
  mapping (tarred_mapping self) !! file_id_of audio_filename = Some offsets ->
  offsets !! offset_id = Some manifest_idx ->
  tarred_entries self !! manifest_idx = Some entry ->
  features_of_entry zero_time featurizer_process self audio_bytes entry = Ok features ->
  TarredAudioAndVideoToTextDataset.squeeze_channel_dim features = Ok audio ->
  exists audio' video',
    aligned_of zero zero_frame_of repeat_96_96 audio video_tuple = Ok (audio', video') /\
    TarredAudioAndVideoToTextDataset._build_sample zero zero_time zero_frame_of
      repeat_96_96 featurizer_process self
      (audio_bytes, video_tuple, audio_filename, offset_id)
    = Ok (built_sample self manifest_idx entry audio' video') /\
    shape_tail video'
    = shape_tail (TarredAudioAndVideoToTextDataset.repeat_1x1x3 repeat_96_96 video_tuple) /\
    shape0 (frames video') = shape0 audio' / 640 + 1 /\
    six_or_seven (built_sample self manifest_idx entry audio' video') /\
    lengths_match (built_sample self manifest_idx entry audio' video') /\
    TarredAudioAndVideoToTextDataset.get_manifest_sample self (Z.of_nat manifest_idx)
    = Ok entry.
Proof.
  intros Hoffsets Hidx Hentry Hfeatures Haudio.
  destruct (aligned_of_returns audio video_tuple)
    as (audio' & video' & Halign & Hshape & Hlen).
  exists audio', video'. split; [exact Halign |].
  split.
  { apply build_sample_Ok.
    exists offsets, manifest_idx, entry, features, audio, audio', video'.
    repeat (split; [assumption |]). reflexivity. }
  split; [exact Hshape |]. split; [exact Hlen |].
  split; [apply built_sample_matches |]. split; [apply built_sample_matches |].
  unfold TarredAudioAndVideoToTextDataset.get_manifest_sample.
  fold (tarred_entries self). rewrite py_getitem_nat, Hentry. reflexivity.
Qed.

(** X15. What [_build_sample] raises.  An item whose file id is no key of
    the mapping raises [KeyError] with that file id, before anything is
    decoded; an item that [_filter] keeps never does: on it [_build_sample]
    raises only [IndexError] (an offset id or a manifest index out of range, an
    empty 2-d tensor) or what the featurizer raises on an entry of the
    collection. *)
Theorem build_sample_raises self (audio_bytes : AudioBytes) video_tuple
    (audio_filename : string) (offset_id : nat) :
  (~ in_manifest (tarred_mapping self) (audio_bytes, video_tuple, audio_filename) ->
   TarredAudioAndVideoToTextDataset._build_sample zero zero_time zero_frame_of
     repeat_96_96 featurizer_process self
     (audio_bytes, video_tuple, audio_filename, offset_id)
   = Raise (KeyError (file_id_of audio_filename))) /\
  (in_manifest (tarred_mapping self) (audio_bytes, video_tuple, audio_filename) ->
   forall e,
     TarredAudioAndVideoToTextDataset._build_sample zero zero_time zero_frame_of
       repeat_96_96 featurizer_process self
       (audio_bytes, video_tuple, audio_filename, offset_id) = Raise e ->
     e = IndexError \/
     exists entry, entry ∈ tarred_entries self
                   /\ features_of_entry zero_time featurizer_process self audio_bytes entry = Raise e).
Proof.
  unfold in_manifest, TarredAudioAndVideoToTextDataset._build_sample. cbn [snd].
  fold (tarred_mapping self). fold (tarred_entries self). unfold py_dict_getitem.
  destruct (mapping (tarred_mapping self) !! file_id_of audio_filename)
    as [offsets |] eqn:Hoffsets.
  2: { split; [reflexivity | intros [? [=]]]. }
  split; [intros H; exfalso; apply H; eauto |]. intros _ e.
  cbn [mbind result_bind]. rewrite py_getitem_nat.
  destruct (offsets !! offset_id) as [manifest_idx |]; [| intros [= <-]; auto].
  cbn [mbind result_bind]. rewrite py_getitem_nat.
  destruct (tarred_entries self !! manifest_idx) as [entry |] eqn:Hentry;
    [| intros [= <-]; auto].
  cbn [mbind result_bind]. fold (features_of_entry zero_time featurizer_process self audio_bytes entry).
  intros H. apply bind_Raise in H as [H | (features & _ & H)].
  { right. exists entry. split; [| exact H].
    apply list_elem_of_lookup. eauto. }
  apply bind_Raise in H as [H | (audio & _ & H)].
  { left. eapply squeeze_channel_dim_Raise, H. }
  exfalso.
  destruct (aligned_of_returns audio video_tuple) as (audio' & video' & Halign & _).
  unfold aligned_of in Halign. rewrite Halign in H. cbn [mbind result_bind] in H.
  destruct (TarredAudioAndVideoToTextDataset.bos_id self),
    (TarredAudioAndVideoToTextDataset.eos_id self); discriminate.
Qed.

(** X16. The channel squeeze of [_build_sample] on a 2-d tensor with rows of
    one length takes the longer dimension for the time: it returns column 0 when
    there are more rows than columns and row 0 otherwise, so a tensor as long as
    the larger of the two sizes; it raises [IndexError], and nothing else,
    exactly when the tensor has no row or no column. *)
Theorem squeeze_channel_dim_keeps_longer_dimension (rows : list (list A)) (ncols : nat) :
  Forall (fun r => length r = ncols) rows ->
  (TarredAudioAndVideoToTextDataset.squeeze_channel_dim (Audio2d rows)
     = Raise IndexError
   <-> rows = [] \/ ncols = 0%nat) /\
  (forall audio,
     TarredAudioAndVideoToTextDataset.squeeze_channel_dim (Audio2d rows) = Ok audio ->
     length audio = Nat.max (length rows) ncols /\
     ((ncols < length rows)%nat ->
      Forall2 (fun r x => head r = Some x) rows audio) /\
     ((length rows <= ncols)%nat -> head rows = Some audio)).
Proof.
  intros Hrect.
  unfold TarredAudioAndVideoToTextDataset.squeeze_channel_dim.
  destruct rows as [| r rest].
  { cbn. split; [split; auto | discriminate]. }
  apply Forall_cons in Hrect as [Hr Hrest]. rewrite Hr.
  destruct (Nat.ltb_spec ncols (length (r :: rest))) as [Hlt | Hge].
  - destruct (mapM head (r :: rest)) as [column_0 |] eqn:Hcol.
    + apply mapM_Some in Hcol. split.
      * split; [discriminate |]. intros [[=] | ->].
        apply Forall2_cons_inv_l in Hcol as (x & ? & Hx & _).
        destruct r; [discriminate | discriminate].
      * intros audio [= <-]. split; [| split; [intros _; exact Hcol | lia]].
        apply Forall2_length in Hcol. lia.
    + split; [| discriminate]. split; [| reflexivity]. intros _. right.
      destruct ncols as [| n]; [reflexivity | exfalso].
      assert (is_Some (mapM head (r :: rest))) as [? Hsome]; [| congruence].
      apply mapM_is_Some. apply Forall_cons. split.
      * destruct r; [discriminate | cbn; eauto].
      * eapply Forall_impl; [exact Hrest |]. intros r' Hr'.
        destruct r'; [discriminate | cbn; eauto].
  - cbn [length] in Hge. split.
    + split; [discriminate |]. intros [[=] | ->]. lia.
    + intros audio [= <-]. split; [cbn [length]; lia |].
      split; [cbn [length]; lia | reflexivity].
Qed.

(** X17. The stream of the tarred dataset, on a shard whose names hold
    neither a slash nor a dot and with a mapping that gives every file at least
    one manifest index: it yields what [_build_sample] builds for every
    manifest index of every kept item, in the order of the shard and of the
    offsets, and ends with the upstream, or at the first sample that fails to
    build, with the exception of that one. *)
Theorem tarred_stream_builds_one_sample_per_offset self
    (items : list (AudioBytes * video_tensor F * string)) (extra : nat) :
  (forall k l, mapping (tarred_mapping self) !! k = Some l -> l <> []) ->
  Forall (fun x : AudioBytes * video_tensor F * string =>
            Forall (fun ch => ch <> "/"%char /\ ch <> "."%char)
              (list_ascii_of_string x.2)) items ->
  let expected :=
    flat_map (one_per_offset (tarred_mapping self))
      (filter (in_manifest (tarred_mapping self)) items) in
  drain (S (length expected) + extra)
    (TarredAudioAndVideoToTextDataset.__iter__ zero zero_time zero_frame_of
       repeat_96_96 featurizer_process self items)
  = map_until
      (TarredAudioAndVideoToTextDataset._build_sample zero zero_time zero_frame_of
         repeat_96_96 featurizer_process self)
      expected StopIteration.
Proof.
  intros Hne Hflat expected.
  unfold TarredAudioAndVideoToTextDataset.__iter__. fold (tarred_mapping self).
  apply drain_map. apply drain_loop_offsets.
  - exact Hne.
  - eapply Forall_impl; [exact Hflat |]. intros x Hx. apply file_id_of_flat, Hx.
  - exact I.
  - subst expected. lia.
Qed.
End BuildSampleFacts.

(** X18. A tarred dataset built by [__init__] carries the BOS and EOS ids of
    its manifest processor, so the tokens and the token length of every sample
    [_build_sample] returns are what the processor's [process_text_by_sample]
    returns for an entry of the collection; and a returned sample id is a
    position of the collection at which [get_manifest_sample] finds that
    entry. *)
Theorem build_sample_text_is_processed_text {A F Time AudioBytes : Type}
    (zero : A) (zero_time : Time)
    (zero_frame_of : Z * Z * Z -> F) (repeat_96_96 : F -> F)
    (featurizer_process :
       AudioBytes -> Time -> option Time -> bool -> option Z
       -> result (audio_features A))
    (collection : ASRVideoAudioText Time) (trim : bool)
    (bos_id eos_id : option Z) (pad_id : Z) (return_sample_id : bool)
    (tup : AudioBytes * video_tensor F * string * nat) (b : @sample A F) :
  let self :=
    TarredAudioAndVideoToTextDataset.__init__ collection trim bos_id eos_id pad_id
      return_sample_id in
  TarredAudioAndVideoToTextDataset._build_sample zero zero_time zero_frame_of
    repeat_96_96 featurizer_process self tup = Ok b ->
  exists f rest entry,
    b = Tuple f rest /\
    entry ∈ data collection /\
    (tokens_i f, tokens_i_len f)
    = AVSRManifestProcessor.process_text_by_sample
        (TarredAudioAndVideoToTextDataset.manifest_processor self) entry /\
    (return_sample_id = false -> rest = []) /\
    (return_sample_id = true ->
     exists sample_id,
       rest = [sample_id] /\
       TarredAudioAndVideoToTextDataset.get_manifest_sample self sample_id = Ok entry).
Proof.
  cbv zeta. destruct tup as [[[audio_bytes video_tuple] audio_filename] offset_id].
  intros H.
  apply build_sample_Ok in H
    as (offsets & manifest_idx & entry & features & audio & audio' & video'
        & _ & _ & Hentry & _ & _ & _ & ->).
  unfold tarred_entries in Hentry. cbn in Hentry.
  eexists _, _, entry. split; [reflexivity |].
  split; [apply list_elem_of_lookup; eauto |].
  split.
  { rewrite process_text_by_sample_eq. cbn. f_equal.
    unfold shape0. rewrite !length_app. lia. }
  cbn. split; [intros ->; reflexivity |].
  intros ->. eexists. split; [reflexivity |].
  unfold TarredAudioAndVideoToTextDataset.get_manifest_sample. cbn.
  rewrite py_getitem_nat, Hentry. reflexivity.
Qed.

(** ** The map-style dataset, once more *)

Section GetItemMore.
Context {A F Time ChannelSelector : Type}.
Context (zero : A) (zero_frame_of : Z * Z * Z -> F) (zero_time : Time).
Context (audio_featurizer_process :
           string -> Time -> option Time -> bool -> option Z
           -> option ChannelSelector -> result (audio_features A)).
Context (video_featurizer_process :
           string -> Time -> option Time -> result (video_tensor F)).
Implicit Types (self : AudioVideoTextDataset.t Time ChannelSelector).
Implicit Types (entry : Entry Time) (b : @sample A F).

(** X19. A sample [__getitem__] returns leads back to its manifest entry:
    the index lies from -len to len - 1, [__len__] being the number of entries;
    [get_manifest_sample] at the index returns an entry; the tokens of the
    sample and their length are what [process_text_by_sample] returns for that
    entry; and, when the dataset returns sample ids, the sample id is the index
    as it was given, negative or not. *)
Theorem getitem_sample_id_round_trip self (index : Z) b :
  AudioVideoTextDataset.__getitem__ zero zero_frame_of zero_time
    audio_featurizer_process video_featurizer_process self index = Ok b ->
  - Z.of_nat (AudioVideoTextDataset.__len__ self) <= index
    < Z.of_nat (AudioVideoTextDataset.__len__ self) /\
  exists f entry,
    b = Tuple f (if AudioVideoTextDataset.return_sample_id self then [index] else []) /\
    AudioVideoTextDataset.get_manifest_sample self index = Ok entry /\
    (tokens_i f, tokens_i_len f)
    = AVSRManifestProcessor.process_text_by_sample
        (AudioVideoTextDataset.manifest_processor self) entry.
Proof.
  intros H.
  apply getitem_Ok in H as (entry & a & v & a' & v' & Hentry & _ & _ & _ & ->).
  split.
  - unfold AudioVideoTextDataset.__len__. fold (entries self).
    eapply py_getitem_Ok_range, Hentry.
  - eexists _, entry. split; [reflexivity |]. split; [exact Hentry |].
    cbn. destruct (AVSRManifestProcessor.process_text_by_sample _ entry). reflexivity.
Qed.
End GetItemMore.

(** ** The collation, once more *)

Section CollateMore.
Context {A F : Type} (zero : A) (zero_frame_of : Z * Z * Z -> F).
Implicit Types (b : @sample A F) (batch : list (@sample A F)).
Implicit Types (f : @fields A F) (frs : list (@fields A F * list Z)).

Lemma max_item_missing (n : Z) (rest : list (option Z)) :
  None ∈ rest -> max_item (Some n :: rest) = Raise TypeError.
Proof.
  intros Hin. destruct (max_item (Some n :: rest)) as [m | e] eqn:Hm.
  - apply max_item_Ok in Hm as (zs & Heq & _). exfalso.
    destruct zs as [| z zs]; [discriminate |]. injection Heq as _ ->.
    apply list_elem_of_fmap in Hin as (? & [=] & _).
  - f_equal. cbn [max_item] in Hm.
    apply bind_Raise in Hm as [Hfold | (o & Hfold & Hitem)].
    + apply foldl_max_step_Raise in Hfold as [[=] | ->]. reflexivity.
    + exfalso. apply foldl_max_step_Ok in Hfold as [-> | (z & zs & _ & ->)].
      * inversion Hin.
      * apply list_elem_of_fmap in Hin as (? & [=] & _).
Qed.

Lemma max_item_present (lengths : list (option Z)) :
  lengths <> [] -> Forall is_Some lengths -> exists m, max_item lengths = Ok m.
Proof.
  intros Hne Hall.
  assert (exists zs, lengths = Some <$> zs) as (zs & ->).
  { clear Hne. induction Hall as [| x l [z ->] _ (zs & ->)].
    - exists []. reflexivity.
    - exists (z :: zs). reflexivity. }
  exists (list_max zs). apply max_item_list_max. intros ->. apply Hne. reflexivity.
Qed.

Lemma missing_length_in_column (g : @fields A F -> option Z) frs :
  Exists (fun fr => g fr.1 = None) frs -> None ∈ (fun fr => g fr.1) <$> frs.
Proof.
  intros H. apply Exists_exists in H as (fr & Hin & Hfr).
  apply list_elem_of_fmap. exists fr. split; [symmetry; exact Hfr | exact Hin].
Qed.

(** X20. Presence is checked one way only.  On a batch of 6- or 7-element
    samples whose first sample carries an audio length while a later one has
    [None] there, the collation raises [TypeError], from the maximum of the
    lengths; likewise for the video lengths, once the audio lengths are all
    there or the first sample has none. *)
Theorem collate_raises_TypeError_on_a_missing_length f0 (r0 : list Z) frs (pad_id : Z) :
  Forall (fun fr => (length fr.2 <= 1)%nat) ((f0, r0) :: frs) ->
  (is_Some (audio_sig_len f0) /\ Exists (fun fr => audio_sig_len fr.1 = None) frs) \/
  ((audio_sig_len f0 = None
    \/ Forall (fun fr => is_Some (audio_sig_len fr.1)) ((f0, r0) :: frs)) /\
   is_Some (video_sig_len f0) /\ Exists (fun fr => video_sig_len fr.1 = None) frs) ->
  _audio_video_speech_collate_fn zero zero_frame_of (tuples ((f0, r0) :: frs)) pad_id
  = Raise TypeError.
Proof.
  intros Hrest Hmissing.
  unfold _audio_video_speech_collate_fn.
  assert (Hlen : len_packed_batch (tuples ((f0, r0) :: frs)) = 6%nat
                 \/ len_packed_batch (tuples ((f0, r0) :: frs)) = 7%nat).
  { apply len_packed_batch_6_or_7; [discriminate |].
    unfold tuples. rewrite Forall_fmap. eapply Forall_impl; [exact Hrest |].
    intros [f [| i [| j r]]] Hr; cbn in Hr |- *; lia. }
  rewrite !column_tuples.
  assert (Hids : exists sample_ids,
            match len_packed_batch (tuples ((f0, r0) :: frs)) with
            | 7%nat => Ok (Some (column_sample_id (tuples ((f0, r0) :: frs))))
            | 6%nat => Ok None
            | _ => Raise (ValueError "Expects 6 or 7 tensors in the batch!")
            end = Ok sample_ids).
  { destruct Hlen as [-> | ->]; eauto. }
  destruct Hids as (sample_ids & ->). cbn [mbind result_bind].
  cbn [fmap list_fmap fst first_is_not_None].
  destruct Hmissing as [([n Hn] & Hnone) | (Haudio & [n Hn] & Hnone)].
  - rewrite Hn. cbn [mbind result_bind].
    rewrite (max_item_missing n); [reflexivity |].
    apply (missing_length_in_column audio_sig_len), Hnone.
  - assert (Hvideo : max_item (video_sig_len f0
                                :: ((fun fr => video_sig_len fr.1) <$> frs))
                     = Raise TypeError).
    { rewrite Hn. apply max_item_missing.
      apply (missing_length_in_column video_sig_len), Hnone. }
    destruct Haudio as [Hnone0 | Hall].
    + rewrite Hnone0. cbn [mbind result_bind]. rewrite Hn at 1.
      cbn [mbind result_bind]. rewrite Hvideo. reflexivity.
    + destruct (max_item_present
                  (audio_sig_len f0 :: ((fun fr => audio_sig_len fr.1) <$> frs)))
        as (m & Hm); [discriminate | |].
      { change (Forall is_Some ((fun fr => audio_sig_len fr.1) <$> ((f0, r0) :: frs))).
        rewrite Forall_fmap. exact Hall. }
      apply Forall_cons in Hall as [[a Ha] _]. cbn [fst] in Ha.
      rewrite Ha in Hm |- *. cbn [mbind result_bind]. rewrite Hm.
      cbn [mbind result_bind]. rewrite Hn at 1.
      cbn [mbind result_bind]. rewrite Hvideo. reflexivity.
Qed.

End CollateMore.

(** ** The tarred dataset, once more *)

Section BuildSampleMore.
Context {A F Time AudioBytes : Type}.
Context (zero : A) (zero_time : Time).
Context (zero_frame_of : Z * Z * Z -> F) (repeat_96_96 : F -> F).
Context (featurizer_process :
           AudioBytes -> Time -> option Time -> bool -> option Z
           -> result (audio_features A)).
Implicit Types (self : TarredAudioAndVideoToTextDataset.t Time).
Implicit Types (entry : Entry Time) (b : @sample A F).

(** X22. Built samples compose with the collation: take a list of items that
    is not empty and whose samples [_build_sample] all returns, in a dataset of
    at most 2^31 entries, the videos of the samples having frames of one shape.
    [_collate_fn] of these samples returns; the tensors it returns have the
    batch maxima as dimensions, and the sample ids are the manifest indices the
    mapping gives for the items, in order, when the dataset returns sample
    ids, and [None] otherwise. *)
Theorem collate_fn_of_built_samples self
    (tups : list (AudioBytes * video_tensor F * string * nat))
    (batch : list (@sample A F)) :
  tups <> [] ->
  Forall2 (fun tup b =>
             TarredAudioAndVideoToTextDataset._build_sample zero zero_time
               zero_frame_of repeat_96_96 featurizer_process self tup = Ok b)
    tups batch ->
  one_frame_shape batch ->
  Z.of_nat (TarredAudioAndVideoToTextDataset.__len__ self) <= 2147483648 ->
  exists out,
    TarredAudioAndVideoToTextDataset._collate_fn zero zero_frame_of self batch = Ok out /\
    dimensions_are_batch_maxima batch out /\
    if TarredAudioAndVideoToTextDataset.return_sample_id self
    then exists ids,
           out_sample_ids out = Some ids /\
           Forall2 (fun (tup : AudioBytes * video_tensor F * string * nat) id =>
                      exists offsets manifest_idx,
                        mapping (tarred_mapping self) !! file_id_of tup.1.2
                          = Some offsets /\
                        offsets !! tup.2 = Some manifest_idx /\
                        id = Z.of_nat manifest_idx)
             tups ids
    else out_sample_ids out = None.
Proof.
  intros Hne Hitems Hone Hsize.
  assert (Hshape : Forall2 (fun (tup : AudioBytes * video_tensor F * string * nat) b =>
            exists f offsets manifest_idx,
              b = Tuple f (if TarredAudioAndVideoToTextDataset.return_sample_id self
                           then [Z.of_nat manifest_idx] else [])
              /\ mapping (tarred_mapping self) !! file_id_of tup.1.2 = Some offsets
              /\ offsets !! tup.2 = Some manifest_idx
              /\ six_or_seven b /\ lengths_match b
              /\ -2147483648 <= Z.of_nat manifest_idx <= 2147483647) tups batch).
  { eapply Forall2_impl; [exact Hitems |].
    intros [[[audio_bytes video_tuple] audio_filename] offset_id] b Hb.
    apply build_sample_Ok in Hb
      as (offsets & manifest_idx & entry & features & audio & audio' & video'
          & Hoffsets & Hidx & Hentry & _ & _ & _ & ->).
    eexists _, offsets, manifest_idx. split; [reflexivity |].
    split; [exact Hoffsets |]. split; [exact Hidx |].
    split; [apply built_sample_matches |]. split; [apply built_sample_matches |].
    apply lookup_lt_Some in Hentry.
    unfold TarredAudioAndVideoToTextDataset.__len__ in Hsize.
    fold (tarred_entries self) in Hsize. lia. }
  clear Hitems.
  assert (Hbatch : batch <> []).
  { intros ->. apply Forall2_nil_inv_r in Hshape. contradiction. }
  assert (H67 : Forall six_or_seven batch).
  { clear -Hshape.
    induction Hshape as [| tup b tups bs (f & o & i & _ & _ & _ & H & _) _ IH];
      constructor; auto. }
  assert (Hmatch : Forall lengths_match batch).
  { clear -Hshape.
    induction Hshape as [| tup b tups bs (f & o & i & _ & _ & _ & _ & H & _) _ IH];
      constructor; auto. }
  assert (Hfit : sample_ids_fit_int32 batch).
  { clear -Hshape. unfold sample_ids_fit_int32.
    induction Hshape as [| tup b tups bs (f & o & i & -> & _ & _ & _ & _ & Hi) _ IH];
      [constructor |].
    destruct (TarredAudioAndVideoToTextDataset.return_sample_id self).
    - change (column_sample_id (Tuple f [Z.of_nat i] :: bs))
        with (Z.of_nat i :: column_sample_id bs).
      constructor; [exact Hi | exact IH].
    - exact IH. }
  unfold TarredAudioAndVideoToTextDataset._collate_fn.
  destruct (collate_matching_batch_dimensions zero zero_frame_of batch
              (TarredAudioAndVideoToTextDataset.pad_id self) Hbatch H67 Hmatch
              Hone (fun _ => Hfit))
    as (out & Hout & Hdims & Hids).
  exists out. split; [exact Hout |]. split; [exact Hdims |].
  rewrite Hids. destruct (TarredAudioAndVideoToTextDataset.return_sample_id self).
  - rewrite (len_packed_batch_uniform batch 7 Hbatch).
    + eexists. split; [reflexivity |]. clear -Hshape.
      induction Hshape as [| tup b tups bs (f & o & i & -> & Ho & Hi & _) _ IH];
        [constructor |].
      change (column_sample_id (Tuple f [Z.of_nat i] :: bs))
        with (Z.of_nat i :: column_sample_id bs).
      constructor; [eauto | exact IH].
    + clear -Hshape.
      induction Hshape as [| tup b tups bs (f & o & i & -> & _) _ IH]; constructor; auto.
  - rewrite (len_packed_batch_uniform batch 6 Hbatch); [reflexivity |].
    clear -Hshape.
    induction Hshape as [| tup b tups bs (f & o & i & -> & _) _ IH]; constructor; auto.
Qed.
End BuildSampleMore.

(** ** The properties on the example data *)

Lemma example_mapping_lists_not_empty (k : string) (l : list nat) :
  mapping example_mapping !! k = Some l -> l <> [].
Proof.
  unfold example_mapping. cbn [mapping]. intros H.
  apply lookup_insert_Some in H as [[_ <-] | [_ H]]; [discriminate |].
  apply lookup_singleton_Some in H as [_ <-]. discriminate.
Qed.

Lemma example_mapping_keys_flat (k : string) :
  is_Some (mapping example_mapping !! k) ->
  Forall (fun ch => ch <> "/"%char) (list_ascii_of_string k).
Proof.
  unfold example_mapping. cbn [mapping]. intros [l H].
  apply lookup_insert_Some in H as [[<- _] | [_ H]].
  - repeat constructor. discriminate.
  - apply lookup_singleton_Some in H as [<- _]. repeat constructor. discriminate.
Qed.

Lemma example_shard_names_flat :
  Forall (fun x : list Z * video_tensor nat * string =>
            Forall (fun ch => ch <> "/"%char /\ ch <> "."%char)
              (list_ascii_of_string x.2)) example_shard.
Proof. repeat constructor; discriminate. Qed.

(** X5 at the last entry of the example manifest, read with index -1: the
    video, of no frame, is padded with one zero frame. *)
Lemma getitem_returns_aligned_sample_witness :
  py_getitem (entries example_dataset) (-1)
  = Ok {| audio_file := "b.wav"; video_file := "b.mp4"; duration := None;
          offset := None; orig_sr := Some 16000; text_tokens := [8; 9; 10] |} /\
  AudioVideoTextDataset.__getitem__ 0 (fun _ => 0%nat) 0
    example_audio_featurizer example_video_featurizer example_dataset (-1)
  = Ok (Tuple (Fields (Some [1]) (Some 1) (Some (VideoTensor (96, 96, 3) [0%nat]))
                 (Some 1) [1; 8; 9; 10; 2] 5)
          [-1]).
Proof.
  split; [reflexivity |].
  destruct (getitem_returns_aligned_sample 0 (fun _ => 0%nat) 0
              example_audio_featurizer example_video_featurizer example_dataset (-1)
              {| audio_file := "b.wav"; video_file := "b.mp4"; duration := None;
                 offset := None; orig_sr := Some 16000; text_tokens := [8; 9; 10] |}
              [1] (VideoTensor (96, 96, 3) []) eq_refl eq_refl eq_refl)
    as (audio' & video' & Halign & Hitem & _).
  injection Halign as <- <-. exact Hitem.
Defined.

(** X7 on the first and the last entry of the example manifest. *)
Lemma collate_fn_of_items_witness :
  [0; -1] <> [] /\
  Forall2 (fun index b =>
             AudioVideoTextDataset.__getitem__ 0 (fun _ => 0%nat) 0
               example_audio_featurizer example_video_featurizer example_dataset index
             = Ok b)
    [0; -1] example_items /\
  one_frame_shape example_items /\
  Z.of_nat (AudioVideoTextDataset.__len__ example_dataset) <= 2147483648 /\
  exists out,
    AudioVideoTextDataset._collate_fn 0 (fun _ => 0%nat) example_dataset example_items
    = Ok out /\
    out_tokens out = [[1; 5; 6; 2; 0]; [1; 8; 9; 10; 2]] /\
    out_sample_ids out = Some [0; -1].
Proof.
  assert (H1 : [0; -1] <> []) by discriminate.
  assert (H2 : Forall2 (fun index b =>
             AudioVideoTextDataset.__getitem__ 0 (fun _ => 0%nat) 0
               example_audio_featurizer example_video_featurizer example_dataset index
             = Ok b)
    [0; -1] example_items).
  { constructor; [reflexivity |]. constructor; [reflexivity | constructor]. }
  assert (H3 : one_frame_shape example_items).
  { exists (96, 96, 3). repeat constructor; intros v [= <-]; reflexivity. }
  assert (H4 : Z.of_nat (AudioVideoTextDataset.__len__ example_dataset) <= 2147483648)
    by (cbn; lia).
  split; [exact H1 |]. split; [exact H2 |]. split; [exact H3 |]. split; [exact H4 |].
  destruct (collate_fn_of_items 0 (fun _ => 0%nat) 0
              example_audio_featurizer example_video_featurizer example_dataset
              _ _ H1 H2 H3 H4) as (out & Hout & _ & Hids).
  exists out. split; [exact Hout |]. split; [| exact Hids].
  injection Hout as <-. reflexivity.
Defined.

(** X9 on two spans with the example tokenizer. *)
Lemma tokenizer_wrapper_concatenates_spans_witness :
  tok_is_aggregate example_tokenizer = true /\
  AudioAndVideoToBPEDataset.TokenizerWrapper example_tokenizer
    [Spans ([ {[ "str"%string := "hello"%string; "lang"%string := "en"%string ]} ]
            ++ [ {[ "str"%string := "ciao"%string; "lang"%string := "ita"%string ]} ])]
  = Ok ([5; 2] ++ [4; 3]).
Proof.
  split; [reflexivity |].
  destruct (tokenizer_wrapper_concatenates_spans example_tokenizer
              [ {[ "str"%string := "hello"%string; "lang"%string := "en"%string ]} ]
              [ {[ "str"%string := "ciao"%string; "lang"%string := "ita"%string ]} ]
              [] eq_refl) as (_ & Happ & _).
  exact Happ.
Defined.

(** X12 on a flat shard of three files, one of which is not in the manifest. *)
Lemma loop_offsets_one_output_per_offset_witness :
  (forall k l, mapping example_mapping !! k = Some l -> l <> []) /\
  Forall (fun x : Z * Z * string =>
            Forall (fun ch => ch <> "/"%char /\ ch <> "."%char)
              (list_ascii_of_string x.2))
    [(1, 10, "a"%string); (2, 20, "zz"%string); (3, 30, "b"%string)] /\
  drain 4
    (_loop_offsets example_mapping
       (_filter example_mapping
          [(1, 10, "a"%string); (2, 20, "zz"%string); (3, 30, "b"%string)]))
  = ([(1, 10, "a"%string, 0%nat); (1, 10, "a"%string, 1%nat);
      (3, 30, "b"%string, 0%nat)], Some StopIteration).
Proof.
  assert (H2 : Forall (fun x : Z * Z * string =>
            Forall (fun ch => ch <> "/"%char /\ ch <> "."%char)
              (list_ascii_of_string x.2))
    [(1, 10, "a"%string); (2, 20, "zz"%string); (3, 30, "b"%string)])
    by (repeat constructor; discriminate).
  split; [exact example_mapping_lists_not_empty |]. split; [exact H2 |].
  exact (loop_offsets_one_output_per_offset example_mapping
           [(1, 10, "a"%string); (2, 20, "zz"%string); (3, 30, "b"%string)] 0
           example_mapping_lists_not_empty H2).
Defined.

(** X13 on a shard whose names carry a directory. *)
Lemma loop_offsets_directory_name_raises_witness :
  in_manifest example_mapping (1, 10, "dir/a"%string) /\
  ~ Forall (fun ch => ch <> "/"%char) (list_ascii_of_string "dir/a") /\
  (forall k, is_Some (mapping example_mapping !! k) ->
             Forall (fun ch => ch <> "/"%char) (list_ascii_of_string k)) /\
  drain 8
    (_loop_offsets example_mapping
       (_filter example_mapping [(1, 10, "dir/a"%string); (2, 20, "dir/b"%string)]))
  = ([(1, 10, "dir/a"%string, 0%nat)], Some (KeyError "dir/a")).
Proof.
  assert (H1 : in_manifest example_mapping (1, 10, "dir/a"%string))
    by (vm_compute; eauto).
  assert (H2 : ~ Forall (fun ch => ch <> "/"%char) (list_ascii_of_string "dir/a")).
  { intros H. apply Forall_forall with (x := "/"%char) in H; [congruence |].
    vm_compute. repeat constructor. }
  split; [exact H1 |]. split; [exact H2 |].
  split; [exact example_mapping_keys_flat |].
  exact (loop_offsets_directory_name_raises example_mapping
           (1, 10, "dir/a"%string) [(2, 20, "dir/b"%string)] 6
           H1 H2 example_mapping_keys_flat).
Defined.

(** X14 at the second offset of file a, with a video of shape (T, 1, 1, 3). *)
Lemma build_sample_returns_aligned_sample_witness :
  mapping (tarred_mapping example_tarred_dataset) !! file_id_of "a.wav"
  = Some [0; 1]%nat /\
  [0; 1]%nat !! 1%nat = Some 1%nat /\
  TarredAudioAndVideoToTextDataset._build_sample 0 0 (fun _ => 0%nat) (Nat.mul 96)
    example_tarred_featurizer example_tarred_dataset
    ([1; 2], VideoTensor (1, 1, 3) [7%nat], "a.wav"%string, 1%nat)
  = Ok (Tuple (Fields (Some [1; 2]) (Some 2) (Some (VideoTensor (96, 96, 3) [672%nat]))
                 (Some 1) [1; 7; 2] 3) [1]) /\
  TarredAudioAndVideoToTextDataset.get_manifest_sample example_tarred_dataset 1
  = Ok {| audio_file := "a.wav"; video_file := "a.mp4"; duration := Some 2;
          offset := Some 3; orig_sr := None; text_tokens := [7] |}.
Proof.
  split; [reflexivity |]. split; [reflexivity |].
  destruct (build_sample_returns_aligned_sample 0 0 (fun _ => 0%nat) (Nat.mul 96)
              example_tarred_featurizer example_tarred_dataset
              [1; 2] (VideoTensor (1, 1, 3) [7%nat]) "a.wav" 1 [0; 1]%nat 1
              {| audio_file := "a.wav"; video_file := "a.mp4"; duration := Some 2;
                 offset := Some 3; orig_sr := None; text_tokens := [7] |}
              (Audio2d [[1; 2]]) [1; 2]
              eq_refl eq_refl eq_refl eq_refl eq_refl)
    as (audio' & video' & Halign & Hbuild & _ & _ & _ & _ & Hget).
  injection Halign as <- <-. split; [exact Hbuild | exact Hget].
Defined.

(** X16 on a tensor of three rows and one column. *)
Lemma squeeze_channel_dim_keeps_longer_dimension_witness :
  Forall (fun r : list Z => length r = 1%nat) [[1]; [2]; [3]] /\
  TarredAudioAndVideoToTextDataset.squeeze_channel_dim (Audio2d [[1]; [2]; [3]])
  = Ok [1; 2; 3] /\
  length [1; 2; 3] = Nat.max (length [[1]; [2]; [3]]) 1.
Proof.
  assert (H : Forall (fun r : list Z => length r = 1%nat) [[1]; [2]; [3]])
    by (repeat constructor).
  split; [exact H |]. split; [reflexivity |].
  exact (proj1 (proj2 (squeeze_channel_dim_keeps_longer_dimension [[1]; [2]; [3]] 1 H)
                  [1; 2; 3] eq_refl)).
Defined.

(** X17 on the example shard. *)
Lemma tarred_stream_builds_one_sample_per_offset_witness :
  (forall k l, mapping (tarred_mapping example_tarred_dataset) !! k = Some l -> l <> []) /\
  Forall (fun x : list Z * video_tensor nat * string =>
            Forall (fun ch => ch <> "/"%char /\ ch <> "."%char)
              (list_ascii_of_string x.2)) example_shard /\
  drain 4
    (TarredAudioAndVideoToTextDataset.__iter__ 0 0 (fun _ => 0%nat) (Nat.mul 96)
       example_tarred_featurizer example_tarred_dataset example_shard)
  = ([ Tuple (Fields (Some [1; 2]) (Some 2) (Some (VideoTensor (96, 96, 3) [672%nat]))
                (Some 1) [1; 5; 6; 2] 4) [0];
       Tuple (Fields (Some [1; 2]) (Some 2) (Some (VideoTensor (96, 96, 3) [672%nat]))
                (Some 1) [1; 7; 2] 3) [1];
       Tuple (Fields (Some [4; 5; 6]) (Some 3) (Some (VideoTensor (96, 96, 3) [8%nat]))
                (Some 1) [1; 8; 9; 10; 2] 5)
         [2] ],
     Some StopIteration).
Proof.
  split; [exact example_mapping_lists_not_empty |].
  split; [exact example_shard_names_flat |].
  exact (tarred_stream_builds_one_sample_per_offset 0 0 (fun _ => 0%nat) (Nat.mul 96)
           example_tarred_featurizer example_tarred_dataset example_shard 0
           example_mapping_lists_not_empty example_shard_names_flat).
Defined.

(** X18 at the first offset of file a. *)
Lemma build_sample_text_is_processed_text_witness :
  TarredAudioAndVideoToTextDataset._build_sample 0 0 (fun _ => 0%nat) (Nat.mul 96)
    example_tarred_featurizer
    (TarredAudioAndVideoToTextDataset.__init__ example_collection false
       (Some 1) (Some 2) 0 true)
    ([1; 2], VideoTensor (96, 96, 3) [8%nat], "a"%string, 0%nat)
  = Ok (Tuple (Fields (Some [1; 2]) (Some 2) (Some (VideoTensor (96, 96, 3) [8%nat]))
                 (Some 1) [1; 5; 6; 2] 4) [0]) /\
  exists f rest entry,
    Tuple (Fields (Some [1; 2]) (Some 2) (Some (VideoTensor (96, 96, 3) [8%nat]))
             (Some 1) [1; 5; 6; 2] 4) [0]
    = Tuple f rest /\
    entry ∈ example_entries /\
    (tokens_i f, tokens_i_len f)
    = AVSRManifestProcessor.process_text_by_sample
        (AVSRManifestProcessor.__init__ example_collection (Some 1) (Some 2) 0) entry.
Proof.
  split; [reflexivity |].
  destruct (build_sample_text_is_processed_text 0 0 (fun _ => 0%nat) (Nat.mul 96)
              example_tarred_featurizer example_collection false (Some 1) (Some 2) 0 true
              ([1; 2], VideoTensor (96, 96, 3) [8%nat], "a"%string, 0%nat)
              _ eq_refl) as (f & rest & entry & Hb & Hin & Htokens & _).
  exists f, rest, entry. split; [exact Hb |]. split; [exact Hin | exact Htokens].
Defined.

(** X19 at index -2 of the example dataset. *)
Lemma getitem_sample_id_round_trip_witness :
  AudioVideoTextDataset.__getitem__ 0 (fun _ => 0%nat) 0
    example_audio_featurizer example_video_featurizer example_dataset (-2)
  = Ok (Tuple (Fields (Some [1; 1; 1; 1]) (Some 4)
                 (Some (VideoTensor (96, 96, 3) [0%nat])) (Some 1) [1; 7; 2] 3)
          [-2]) /\
  - Z.of_nat (AudioVideoTextDataset.__len__ example_dataset) <= -2
    < Z.of_nat (AudioVideoTextDataset.__len__ example_dataset).
Proof.
  split; [reflexivity |].
  exact (proj1 (getitem_sample_id_round_trip 0 (fun _ => 0%nat) 0
                  example_audio_featurizer example_video_featurizer example_dataset
                  (-2) _ eq_refl)).
Defined.

(** X20 on a sample with audio followed by one without. *)
Lemma collate_raises_TypeError_on_a_missing_length_witness :
  Forall (fun fr : @fields Z nat * list Z => (length fr.2 <= 1)%nat) audio_in_first_only /\
  _audio_video_speech_collate_fn 0 (fun _ => 0%nat) (tuples audio_in_first_only) 9
  = Raise TypeError.
Proof.
  assert (H1 : Forall (fun fr : @fields Z nat * list Z => (length fr.2 <= 1)%nat)
                 audio_in_first_only) by (repeat constructor).
  split; [exact H1 |].
  refine (collate_raises_TypeError_on_a_missing_length 0 (fun _ => 0%nat)
            (Fields (Some [1; 2; 3]) (Some 3)
               (Some (VideoTensor (96, 96, 3) [8%nat; 9%nat])) (Some 2) [5] 1) []
            (tail audio_in_first_only) 9 H1 _).
  left. split; [eexists; reflexivity |]. constructor. reflexivity.
Defined.


(** X22 on the two offsets of file a. *)
Lemma collate_fn_of_built_samples_witness :
  example_offsets_of_a <> [] /\
  Forall2 (fun tup b =>
             TarredAudioAndVideoToTextDataset._build_sample 0 0 (fun _ => 0%nat)
               (Nat.mul 96) example_tarred_featurizer example_tarred_dataset tup
             = Ok b)
    example_offsets_of_a example_built_samples /\
  one_frame_shape example_built_samples /\
  Z.of_nat (TarredAudioAndVideoToTextDataset.__len__ example_tarred_dataset)
  <= 2147483648 /\
  exists out,
    TarredAudioAndVideoToTextDataset._collate_fn 0 (fun _ => 0%nat)
      example_tarred_dataset example_built_samples
    = Ok out /\
    out_tokens out = [[1; 5; 6; 2]; [1; 7; 2; 0]] /\
    out_sample_ids out = Some [0; 1].
Proof.
  assert (H1 : example_offsets_of_a <> []) by discriminate.
  assert (H2 : Forall2 (fun tup b =>
               TarredAudioAndVideoToTextDataset._build_sample 0 0 (fun _ => 0%nat)
                 (Nat.mul 96) example_tarred_featurizer example_tarred_dataset tup
               = Ok b)
      example_offsets_of_a example_built_samples).
  { constructor; [reflexivity |]. constructor; [reflexivity | constructor]. }
  assert (H3 : one_frame_shape example_built_samples).
  { exists (96, 96, 3). repeat constructor; intros v [= <-]; reflexivity. }
  assert (H4 : Z.of_nat (TarredAudioAndVideoToTextDataset.__len__ example_tarred_dataset)
               <= 2147483648) by (cbn; lia).
  split; [exact H1 |]. split; [exact H2 |]. split; [exact H3 |]. split; [exact H4 |].
  destruct (collate_fn_of_built_samples 0 0 (fun _ => 0%nat) (Nat.mul 96)
              example_tarred_featurizer example_tarred_dataset _ _ H1 H2 H3 H4)
    as (out & Hout & _ & Hids).
  exists out. split; [exact Hout |].
  injection Hout as <-. split; reflexivity.
Defined.
